(** * PyXtal / GULP interface: a shallow embedding of [pyxtal/interface/gulp.py]

    The development follows the source file top to bottom:
    - [PyStr]: the Python string primitives the parser relies on
      ([str.split], [str.find], slicing, [re.match] on the three energy
      patterns, [str.format] fields);
    - [PyFloat]: Python floats as IEEE-754 binary64 values
      ([float(...)], [int(...)], arithmetic, ['{:w.pf}'] formatting);
    - the [GULP] calculator object with [write], [execute], [read],
      [clean] and [run];
    - the drivers [single_optimize] and [optimize];
    - [Lab], a concrete environment on which everything can be run;
    - the properties of the parser, the writer, the cleanup and the
      drivers, each followed later by a run on [Lab].

    Exceptions are explicit: every operation that can raise in Python
    returns a [res] value, and the scanning loop of [GULP.read] keeps
    the object state reached when the exception was raised. *)

From Stdlib Require Import ZArith Ascii String List Bool Lia.
From Stdlib Require Import Floats.SpecFloat Numbers.DecimalString.
From stdpp Require Import base option gmap strings.
Import ListNotations.

Local Open Scope string_scope.
Local Open Scope list_scope.
Local Open Scope Z_scope.

(** ** Python exceptions and the error monad *)

Inductive exn : Type :=
| AttributeError
| IndexError
| ValueError
| TypeError
| ZeroDivisionError
| OverflowError
| UnboundLocalError
| NotImplementedError
| FileNotFoundError.

Inductive res (A : Type) : Type :=
| Ok (a : A)
| Raise (e : exn).
Arguments Ok {A} a.
Arguments Raise {A} e.

Definition res_bind {A B} (r : res A) (k : A -> res B) : res B :=
  match r with
  | Ok a => k a
  | Raise e => Raise e
  end.

Notation "'let*' x ':=' r 'in' k" := (res_bind r (fun x => k))
  (at level 10, x pattern, r at level 100, k at level 200).

Definition is_ok {A} (r : res A) : bool :=
  match r with Ok _ => true | Raise _ => false end.

Fixpoint res_map {A B} (f : A -> res B) (l : list A) : res (list B) :=
  match l with
  | [] => Ok []
  | a :: l' => let* b := f a in let* bs := res_map f l' in Ok (b :: bs)
  end.

(** [l[i]] for a non-negative index: [IndexError] out of range. *)
Definition index {A} (l : list A) (i : nat) : res A :=
  match nth_error l i with
  | Some a => Ok a
  | None => Raise IndexError
  end.

(** [l[-1]]. *)
Definition index_last {A} (l : list A) : res A :=
  match rev l with
  | a :: _ => Ok a
  | [] => Raise IndexError
  end.

(** [l[a:b]] for non-negative bounds; a slice never raises. *)
Definition slice {A} (a b : nat) (l : list A) : list A :=
  firstn (b - a)%nat (skipn a l).

(** ** Python strings *)

Module PyStr.

(** [str.isspace] on one code point below 256; the same class is
    used by [str.split()], by [\s] in [re] and by [float]/[int] when
    they strip their argument. *)
Definition isspace (c : ascii) : bool :=
  let n := nat_of_ascii c in
  ((9 <=? n) && (n <=? 13) || (28 <=? n) && (n <=? 32)
   || (n =? 133) || (n =? 160))%nat.

Definition isdigit (c : ascii) : bool :=
  let n := nat_of_ascii c in ((48 <=? n) && (n <=? 57))%nat.

Definition digit_val (c : ascii) : Z := Z.of_nat (nat_of_ascii c) - 48.

Definition lower (c : ascii) : ascii :=
  let n := nat_of_ascii c in
  if ((65 <=? n) && (n <=? 90))%nat then ascii_of_nat (n + 32) else c.

Fixpoint lower_str (s : string) : string :=
  match s with
  | "" => ""
  | String c s' => String (lower c) (lower_str s')
  end.

Definition is_empty (s : string) : bool :=
  match s with "" => true | _ => false end.

(** [s.startswith(p)]. *)
Fixpoint startswith (p s : string) : bool :=
  match p with
  | "" => true
  | String a p' =>
      match s with
      | String b s' => Ascii.eqb a b && startswith p' s'
      | "" => false
      end
  end.

(** [s[n:]] and [s[:n]] for [n >= 0]. *)
Fixpoint from (n : nat) (s : string) : string :=
  match n, s with
  | O, _ => s
  | S n', String _ s' => from n' s'
  | S _, "" => ""
  end.

Fixpoint upto (n : nat) (s : string) : string :=
  match n, s with
  | O, _ => ""
  | S n', String c s' => String c (upto n' s')
  | S _, "" => ""
  end.

(** [s[a:b]]. *)
Definition between (a b : nat) (s : string) : string :=
  upto (b - a) (from a s).

(** [s.find(sub)]: index of the first occurrence, [-1] when absent. *)
Fixpoint find_from (sub s : string) (i : Z) : Z :=
  if startswith sub s then i
  else match s with
       | "" => -1
       | String _ s' => find_from sub s' (i + 1)
       end.

Definition find (s sub : string) : Z := find_from sub s 0.

(** [s.split()]: maximal runs of non-whitespace characters. [cur] is
    the token being read. *)
Fixpoint split_go (s cur : string) : list string :=
  match s with
  | "" => if is_empty cur then [] else [cur]
  | String c s' =>
      if isspace c
      then (if is_empty cur then split_go s' "" else cur :: split_go s' "")
      else split_go s' (cur +:+ String c "")
  end.

Definition split (s : string) : list string := split_go s "".

(** Dropping the leading characters of class [f]. *)
Fixpoint lstrip_of (f : ascii -> bool) (s : string) : string :=
  match s with
  | String c s' => if f c then lstrip_of f s' else s
  | "" => ""
  end.

(** [s.lstrip()], also what a leading [\s*] of a pattern consumes. *)
Definition lstrip (s : string) : string := lstrip_of isspace s.

Fixpoint rev_go (s acc : string) : string :=
  match s with
  | "" => acc
  | String c s' => rev_go s' (String c acc)
  end.

(** Dropping the characters of class [f] at both ends. *)
Definition strip_of (f : ascii -> bool) (s : string) : string :=
  rev_go (lstrip_of f (rev_go (lstrip_of f s) "")) "".

(** [s.strip()]. *)
Definition strip (s : string) : string := strip_of isspace s.

Definition strip_prefix (p s : string) : option string :=
  if startswith p s then Some (from (String.length p) s) else None.

(** Longest run of non-whitespace characters at the head of [s], and
    what follows it. *)
Fixpoint span_nonspace (s : string) : string * string :=
  match s with
  | "" => ("", "")
  | String c s' =>
      if isspace c then ("", s)
      else let '(run, rest) := span_nonspace s' in (String c run, rest)
  end.

(** The tail [(\S+)\s*eV] of the energy patterns, on the run [run] of
    non-whitespace characters followed by [rest]. The group is greedy:
    the whole run is tried first, then [re] backtracks one character
    at a time; a shortened group is followed by a non-whitespace
    character, so [\s*] is empty and [eV] must follow at once. *)
Fixpoint capture_go (k : nat) (run rest : string) : option string :=
  match k with
  | O => None
  | S k' =>
      let tail := from k run in
      let ok := if is_empty tail
                then startswith "eV" (lstrip rest)
                else startswith "eV" tail in
      if ok then Some (upto k run) else capture_go k' run rest
  end.

(** [re.match(r'\s*<name>\s*=\s*(\S+)\s*eV', line)]: [Some g] gives
    [m.group(1)], [None] is a failed match. *)
Definition match_energy (name line : string) : option string :=
  match strip_prefix name (lstrip line) with
  | None => None
  | Some s2 =>
      match lstrip s2 with
      | String "=" s4 =>
          let '(run, rest) := span_nonspace (lstrip s4) in
          capture_go (String.length run) run rest
      | _ => None
      end
  end.

(** ['{:Ns}'.format(s)]: left-aligned, padded with spaces, never cut. *)
Fixpoint spaces (n : nat) : string :=
  match n with O => "" | S n' => String " " (spaces n') end.

Definition ljust (w : nat) (s : string) : string :=
  s +:+ spaces (w - String.length s).

Definition rjust (w : nat) (s : string) : string :=
  spaces (w - String.length s) +:+ s.

Fixpoint concat (l : list string) : string :=
  match l with
  | [] => ""
  | s :: l' => s +:+ concat l'
  end.

End PyStr.

(** ** Python floats: IEEE-754 binary64 *)

Module PyFloat.

Definition prec : Z := 53.
Definition emax : Z := 1024.

Definition float : Type := spec_float.

Definition zero : float := S754_zero false.
Definition inf (s : bool) : float := S754_infinity s.
Definition nan : float := S754_nan.

Definition neg : float -> float := SFopp.
Definition abs : float -> float := SFabs.
Definition mul : float -> float -> float := SFmul prec emax.
Definition add : float -> float -> float := SFadd prec emax.
(** IEEE division, as on numpy floats: no exception. *)
Definition div : float -> float -> float := SFdiv prec emax.
Definition eqb : float -> float -> bool := SFeqb.
Definition ltb : float -> float -> bool := SFltb.

(** [numpy.isnan] / [math.isnan]. *)
Definition isnan (x : float) : bool :=
  match x with S754_nan => true | _ => false end.

Definition isinf (x : float) : bool :=
  match x with S754_infinity _ => true | _ => false end.

(** [math.isfinite]. *)
Definition isfinite (x : float) : bool := negb (isnan x) && negb (isinf x).

Definition is_zero (x : float) : bool :=
  match x with S754_zero _ => true | _ => false end.

(** The double nearest to [n / d] (ties to even), with sign [s], for
    [n >= 0] and [d > 0]. *)
Definition of_ratio (s : bool) (n d : Z) : float :=
  match n with
  | Z0 => S754_zero s
  | _ =>
      let '(q, e, l) := SFdiv_core_binary prec emax n 0 d 0 in
      binary_round_aux prec emax s q e l
  end.

(** The double nearest to the integer [n]. *)
Definition of_Z (n : Z) : float := binary_normalize prec emax n 0 false.

(** Conversion of a Python [int] operand in mixed arithmetic:
    [OverflowError] when the integer is out of the range of a double. *)
Definition of_int (n : Z) : res float :=
  let x := of_Z n in
  if isinf x then Raise OverflowError else Ok x.

(** [x / y] on Python floats: [ZeroDivisionError] on a zero divisor. *)
Definition truediv (x y : float) : res float :=
  if is_zero y then Raise ZeroDivisionError else Ok (div x y).

(** [x / n] with [x] a float and [n] a Python [int]. *)
Definition truediv_int (x : float) (n : Z) : res float :=
  let* y := of_int n in truediv x y.

(** *** [float(s)] and [int(s)] on strings *)

(** The characters [float] and [int] drop around a number: those of
    [str.isspace] but for the four separators 28 to 31. *)
Definition isblank (c : ascii) : bool :=
  let n := nat_of_ascii c in
  ((9 <=? n) && (n <=? 13) || (n =? 32) || (n =? 133) || (n =? 160))%nat.

(** [digit (["_"] digit)*] after a first digit has been read: the
    value so far, the number of digits so far, and the unread rest. *)
Fixpoint digits_go (s : string) (acc : Z) (n : nat) : Z * nat * string :=
  match s with
  | String c s' =>
      if PyStr.isdigit c
      then digits_go s' (10 * acc + PyStr.digit_val c) (S n)
      else if Ascii.eqb c "_"
           then match s' with
                | String c2 s'' =>
                    if PyStr.isdigit c2
                    then digits_go s'' (10 * acc + PyStr.digit_val c2) (S n)
                    else (acc, n, s)
                | "" => (acc, n, s)
                end
           else (acc, n, s)
  | "" => (acc, n, s)
  end.

Definition digitpart (s : string) : option (Z * nat * string) :=
  match s with
  | String c s' =>
      if PyStr.isdigit c then Some (digits_go s' (PyStr.digit_val c) 1)
      else None
  | "" => None
  end.

Definition sign_of (s : string) : bool * string :=
  match s with
  | String "-" s' => (true, s')
  | String "+" s' => (false, s')
  | _ => (false, s)
  end.

(** [number]: an integer part and/or a fraction, as the decimal
    mantissa together with the number of fraction digits. *)
Definition number (s : string) : option (Z * nat * string) :=
  match digitpart s with
  | Some (i, _, r1) =>
      match r1 with
      | String "." r2 =>
          match digitpart r2 with
          | Some (f, k, r3) => Some (i * 10 ^ Z.of_nat k + f, k, r3)
          | None => Some (i, O, r2)
          end
      | _ => Some (i, O, r1)
      end
  | None =>
      match s with
      | String "." r2 =>
          match digitpart r2 with
          | Some (f, k, r3) => Some (f, k, r3)
          | None => None
          end
      | _ => None
      end
  end.

(** [exponent]: absent ([0]), or [e]/[E], a sign and a digit part. *)
Definition exponent (s : string) : option (Z * string) :=
  match s with
  | String c s' =>
      if Ascii.eqb (PyStr.lower c) "e"
      then let '(sg, s2) := sign_of s' in
           match digitpart s2 with
           | Some (e, _, r) => Some (if sg then - e else e, r)
           | None => None
           end
      else Some (0, s)
  | "" => Some (0, s)
  end.

(** The double nearest to [m * 10 ^ e10], [m >= 0]. *)
Definition of_decimal (s : bool) (m e10 : Z) : float :=
  if 0 <=? e10 then
    match m * 10 ^ e10 with
    | Zpos p => binary_round prec emax s p 0
    | _ => S754_zero s
    end
  else of_ratio s m (10 ^ (- e10)).

(** [float(s)]: surrounding whitespace is dropped; the accepted
    words are a signed [inf], [infinity] or [nan] in any case, or a
    signed decimal number with optional fraction and exponent;
    anything else is a [ValueError]. *)
Definition of_string (s : string) : res float :=
  let '(sg, r) := sign_of (PyStr.strip_of isblank s) in
  let w := PyStr.lower_str r in
  if String.eqb w "inf" || String.eqb w "infinity" then Ok (inf sg)
  else if String.eqb w "nan" then Ok nan
  else match number r with
       | Some (m, k, r1) =>
           match exponent r1 with
           | Some (e, "") => Ok (of_decimal sg m (e - Z.of_nat k))
           | _ => Raise ValueError
           end
       | None => Raise ValueError
       end.

(** [int(s)] in base ten. *)
Definition int_of_string (s : string) : res Z :=
  let '(sg, r) := sign_of (PyStr.strip_of isblank s) in
  match digitpart r with
  | Some (n, _, "") => Ok (if sg then - n else n)
  | _ => Raise ValueError
  end.

(** *** ['{:w.pf}'.format(x)] *)

Definition string_of_nonneg (n : Z) : string :=
  NilZero.string_of_uint (N.to_uint (Z.to_N n)).

Fixpoint zeros (n : nat) : string :=
  match n with O => "" | S n' => String "0" (zeros n') end.

(** [round(m * 2^e * 10^p)] to the nearest integer, ties to even. *)
Definition scaled_round (m : positive) (e : Z) (p : nat) : Z :=
  let n := Zpos m * 10 ^ Z.of_nat p in
  if 0 <=? e then n * 2 ^ e
  else let d := 2 ^ (- e) in
       let q := n / d in
       let r := n mod d in
       match 2 * r ?= d with
       | Lt => q
       | Gt => q + 1
       | Eq => if Z.even q then q else q + 1
       end.

Definition fixed_digits (n : Z) (p : nat) : string :=
  let ip := string_of_nonneg (n / 10 ^ Z.of_nat p) in
  match p with
  | O => ip
  | _ => let fp := string_of_nonneg (n mod 10 ^ Z.of_nat p) in
         ip +:+ "." +:+ zeros (p - String.length fp) +:+ fp
  end.

Definition format_f (w p : nat) (x : float) : string :=
  let sgn (s : bool) := if s then "-" else "" in
  PyStr.rjust w
    match x with
    | S754_nan => "nan"
    | S754_infinity s => sgn s +:+ "inf"
    | S754_zero s => sgn s +:+ fixed_digits 0 p
    | S754_finite s m e => sgn s +:+ fixed_digits (scaled_round m e p) p
    end.

(** ['{:d}'.format(n)]. *)
Definition format_d (n : Z) : string :=
  if n <? 0 then "-" +:+ string_of_nonneg (- n) else string_of_nonneg n.

End PyFloat.


(** ** Numbers, vectors and matrices *)

Definition float : Type := PyFloat.float.

(** A row of a numpy array, and a two-dimensional array as its rows. *)
Definition vec : Type := list float.
Definition matrix : Type := list vec.

(** A Python number that is either an [int] or a [float]: the CPU time
    starts as the integer [0] and becomes a float once parsed. *)
Inductive pynum : Type :=
| PyInt (n : Z)
| PyFlt (x : float).

(** [a + b]; an [int] operand of a float addition is converted first. *)
Definition pynum_add (a b : pynum) : res pynum :=
  match a, b with
  | PyInt m, PyInt n => Ok (PyInt (m + n))
  | PyInt m, PyFlt y => let* x := PyFloat.of_int m in Ok (PyFlt (PyFloat.add x y))
  | PyFlt x, PyInt n => let* y := PyFloat.of_int n in Ok (PyFlt (PyFloat.add x y))
  | PyFlt x, PyFlt y => Ok (PyFlt (PyFloat.add x y))
  end.

(** [matrix * k] on a numpy array: every entry is multiplied by [k]. *)
Definition matrix_scale (k : float) (m : matrix) : matrix :=
  map (map (fun x => PyFloat.mul x k)) m.

(** [ase.units]: [eV] and [Ang] are the base units of ASE, both [1.0]. *)
Definition eV : float := Eval vm_compute in PyFloat.of_Z 1.
Definition Ang : float := Eval vm_compute in PyFloat.of_Z 1.

(** ** The structure model (collaborators of the interface) *)

(** Six cell parameters: three lengths and three angles in degrees. *)
Record cellpara : Type := mkpara {
  pa : float; pb : float; pc : float;
  palpha : float; pbeta : float; pgamma : float
}.

Module Lattice.
(** Modelled from the spec: [pyxtal.lattice.Lattice] is not part of
    this file. A lattice is the periodic repeat unit, described by
    six parameters and, equivalently, by a 3x3 basis matrix, tagged
    with its lattice family [ltype]. *)
Record t : Type := mk {
  ltype : string;
  para : cellpara;
  matrix : matrix
}.
End Lattice.

Record atom_site : Type := mk_site {
  specie : string;
  position : vec
}.

Record Group : Type := mk_group {
  number : Z;
  symbol : string
}.

Module Pyxtal.
(** Modelled from the spec: the [pyxtal] structure object exposes its
    lattice, its symmetry-reduced site list, its space group (number
    and symbol) and its species. *)
Record t : Type := mk {
  lattice : Lattice.t;
  atom_sites : list atom_site;
  group : Group;
  species : list string
}.

Definition set_lattice (l : Lattice.t) (p : t) : t :=
  {| lattice := l; atom_sites := atom_sites p;
     group := group p; species := species p |}.

Definition set_atom_sites (a : list atom_site) (p : t) : t :=
  {| lattice := lattice p; atom_sites := a;
     group := group p; species := species p |}.
End Pyxtal.

Module Atoms.
(** Modelled from the spec: an [ase.Atoms] object exposes its cell,
    its scaled (fractional) positions and its chemical symbols. *)
Record t : Type := mk {
  cell : matrix;
  scaled_positions : list vec;
  chemical_symbols : list string
}.
End Atoms.

(** What a caller may hand to the calculator. *)
Inductive structure_arg : Type :=
| APyxtal (p : Pyxtal.t)
| AAtoms (a : Atoms.t)
| AOther.

(** The file system: the text stored under each existing path. *)
Abbreviation filesystem := (gmap string string).

(** The parts of the environment the interface calls but does not
    define: lattice conversions, the symmetry expansion of a [pyxtal]
    structure, the symmetry search [from_seed] and the in-place
    [update] of a site (each gives the object it leaves behind and the
    exception it raised, if any), the iteration order of a Python [set]
    of strings, and the external executable run through [os.system]. *)
Class Collaborators : Type := {
  matrix2para : matrix -> cellpara;
  para2matrix : cellpara -> string -> matrix;
  all_sites : Pyxtal.t -> list (string * vec);
  from_seed : Atoms.t -> float -> Pyxtal.t * option exn;
  site_update : atom_site -> vec -> atom_site * option exn;
  set_order : list string -> list string;
  os_system : string -> filesystem -> filesystem
}.

(** ** The calculator object *)

Record GULP : Type := mkGULP {
  pyxtal : option Pyxtal.t;
  species : option (list string);
  lattice : Lattice.t;
  frac_coords : list vec;
  sites : list string;
  symmetry : bool;
  structure : Atoms.t;
  pstress : option float;
  label : string;
  labels : option (gmap string string);
  ff : string;
  opt : string;
  exe : string;
  steps : Z;
  folder : string;
  input : string;
  output : string;
  dump : option string;
  iter : Z;
  energy : option float;
  energy_per_atom : option float;
  stress : option (list float);
  forces : option (list vec);
  positions : option (list vec);
  optimized : bool;
  cputime : pynum;
  error : bool
}.

Definition set_pyxtal (v : option Pyxtal.t) (self : GULP) : GULP :=
  {| pyxtal := v;
     species := species self;
     lattice := lattice self;
     frac_coords := frac_coords self;
     sites := sites self;
     symmetry := symmetry self;
     structure := structure self;
     pstress := pstress self;
     label := label self;
     labels := labels self;
     ff := ff self;
     opt := opt self;
     exe := exe self;
     steps := steps self;
     folder := folder self;
     input := input self;
     output := output self;
     dump := dump self;
     iter := iter self;
     energy := energy self;
     energy_per_atom := energy_per_atom self;
     stress := stress self;
     forces := forces self;
     positions := positions self;
     optimized := optimized self;
     cputime := cputime self;
     error := error self |}.

Definition set_lattice (v : Lattice.t) (self : GULP) : GULP :=
  {| pyxtal := pyxtal self;
     species := species self;
     lattice := v;
     frac_coords := frac_coords self;
     sites := sites self;
     symmetry := symmetry self;
     structure := structure self;
     pstress := pstress self;
     label := label self;
     labels := labels self;
     ff := ff self;
     opt := opt self;
     exe := exe self;
     steps := steps self;
     folder := folder self;
     input := input self;
     output := output self;
     dump := dump self;
     iter := iter self;
     energy := energy self;
     energy_per_atom := energy_per_atom self;
     stress := stress self;
     forces := forces self;
     positions := positions self;
     optimized := optimized self;
     cputime := cputime self;
     error := error self |}.

Definition set_frac_coords (v : list vec) (self : GULP) : GULP :=
  {| pyxtal := pyxtal self;
     species := species self;
     lattice := lattice self;
     frac_coords := v;
     sites := sites self;
     symmetry := symmetry self;
     structure := structure self;
     pstress := pstress self;
     label := label self;
     labels := labels self;
     ff := ff self;
     opt := opt self;
     exe := exe self;
     steps := steps self;
     folder := folder self;
     input := input self;
     output := output self;
     dump := dump self;
     iter := iter self;
     energy := energy self;
     energy_per_atom := energy_per_atom self;
     stress := stress self;
     forces := forces self;
     positions := positions self;
     optimized := optimized self;
     cputime := cputime self;
     error := error self |}.

Definition set_iter (v : Z) (self : GULP) : GULP :=
  {| pyxtal := pyxtal self;
     species := species self;
     lattice := lattice self;
     frac_coords := frac_coords self;
     sites := sites self;
     symmetry := symmetry self;
     structure := structure self;
     pstress := pstress self;
     label := label self;
     labels := labels self;
     ff := ff self;
     opt := opt self;
     exe := exe self;
     steps := steps self;
     folder := folder self;
     input := input self;
     output := output self;
     dump := dump self;
     iter := v;
     energy := energy self;
     energy_per_atom := energy_per_atom self;
     stress := stress self;
     forces := forces self;
     positions := positions self;
     optimized := optimized self;
     cputime := cputime self;
     error := error self |}.

Definition set_energy (v : option float) (self : GULP) : GULP :=
  {| pyxtal := pyxtal self;
     species := species self;
     lattice := lattice self;
     frac_coords := frac_coords self;
     sites := sites self;
     symmetry := symmetry self;
     structure := structure self;
     pstress := pstress self;
     label := label self;
     labels := labels self;
     ff := ff self;
     opt := opt self;
     exe := exe self;
     steps := steps self;
     folder := folder self;
     input := input self;
     output := output self;
     dump := dump self;
     iter := iter self;
     energy := v;
     energy_per_atom := energy_per_atom self;
     stress := stress self;
     forces := forces self;
     positions := positions self;
     optimized := optimized self;
     cputime := cputime self;
     error := error self |}.

Definition set_energy_per_atom (v : option float) (self : GULP) : GULP :=
  {| pyxtal := pyxtal self;
     species := species self;
     lattice := lattice self;
     frac_coords := frac_coords self;
     sites := sites self;
     symmetry := symmetry self;
     structure := structure self;
     pstress := pstress self;
     label := label self;
     labels := labels self;
     ff := ff self;
     opt := opt self;
     exe := exe self;
     steps := steps self;
     folder := folder self;
     input := input self;
     output := output self;
     dump := dump self;
     iter := iter self;
     energy := energy self;
     energy_per_atom := v;
     stress := stress self;
     forces := forces self;
     positions := positions self;
     optimized := optimized self;
     cputime := cputime self;
     error := error self |}.

Definition set_stress (v : option (list float)) (self : GULP) : GULP :=
  {| pyxtal := pyxtal self;
     species := species self;
     lattice := lattice self;
     frac_coords := frac_coords self;
     sites := sites self;
     symmetry := symmetry self;
     structure := structure self;
     pstress := pstress self;
     label := label self;
     labels := labels self;
     ff := ff self;
     opt := opt self;
     exe := exe self;
     steps := steps self;
     folder := folder self;
     input := input self;
     output := output self;
     dump := dump self;
     iter := iter self;
     energy := energy self;
     energy_per_atom := energy_per_atom self;
     stress := v;
     forces := forces self;
     positions := positions self;
     optimized := optimized self;
     cputime := cputime self;
     error := error self |}.

Definition set_forces (v : option (list vec)) (self : GULP) : GULP :=
  {| pyxtal := pyxtal self;
     species := species self;
     lattice := lattice self;
     frac_coords := frac_coords self;
     sites := sites self;
     symmetry := symmetry self;
     structure := structure self;
     pstress := pstress self;
     label := label self;
     labels := labels self;
     ff := ff self;
     opt := opt self;
     exe := exe self;
     steps := steps self;
     folder := folder self;
     input := input self;
     output := output self;
     dump := dump self;
     iter := iter self;
     energy := energy self;
     energy_per_atom := energy_per_atom self;
     stress := stress self;
     forces := v;
     positions := positions self;
     optimized := optimized self;
     cputime := cputime self;
     error := error self |}.

Definition set_optimized (v : bool) (self : GULP) : GULP :=
  {| pyxtal := pyxtal self;
     species := species self;
     lattice := lattice self;
     frac_coords := frac_coords self;
     sites := sites self;
     symmetry := symmetry self;
     structure := structure self;
     pstress := pstress self;
     label := label self;
     labels := labels self;
     ff := ff self;
     opt := opt self;
     exe := exe self;
     steps := steps self;
     folder := folder self;
     input := input self;
     output := output self;
     dump := dump self;
     iter := iter self;
     energy := energy self;
     energy_per_atom := energy_per_atom self;
     stress := stress self;
     forces := forces self;
     positions := positions self;
     optimized := v;
     cputime := cputime self;
     error := error self |}.

Definition set_cputime (v : pynum) (self : GULP) : GULP :=
  {| pyxtal := pyxtal self;
     species := species self;
     lattice := lattice self;
     frac_coords := frac_coords self;
     sites := sites self;
     symmetry := symmetry self;
     structure := structure self;
     pstress := pstress self;
     label := label self;
     labels := labels self;
     ff := ff self;
     opt := opt self;
     exe := exe self;
     steps := steps self;
     folder := folder self;
     input := input self;
     output := output self;
     dump := dump self;
     iter := iter self;
     energy := energy self;
     energy_per_atom := energy_per_atom self;
     stress := stress self;
     forces := forces self;
     positions := positions self;
     optimized := optimized self;
     cputime := v;
     error := error self |}.

Definition set_error (v : bool) (self : GULP) : GULP :=
  {| pyxtal := pyxtal self;
     species := species self;
     lattice := lattice self;
     frac_coords := frac_coords self;
     sites := sites self;
     symmetry := symmetry self;
     structure := structure self;
     pstress := pstress self;
     label := label self;
     labels := labels self;
     ff := ff self;
     opt := opt self;
     exe := exe self;
     steps := steps self;
     folder := folder self;
     input := input self;
     output := output self;
     dump := dump self;
     iter := iter self;
     energy := energy self;
     energy_per_atom := energy_per_atom self;
     stress := stress self;
     forces := forces self;
     positions := positions self;
     optimized := optimized self;
     cputime := cputime self;
     error := v |}.

(** Output of the statements executed inside [with open(...) as f]: the
    chunks handed to [f.write] so far, and the exception that ended the
    block early, if any. *)
Definition written : Type := (list string * option exn)%type.

Definition wr (s : string) : written := ([s], None).

Definition wnone : written := ([], None).

Definition wraise (e : exn) : written := ([], Some e).

Definition wseq (a b : written) : written :=
  match a with
  | (ca, None) => (ca ++ fst b, snd b)
  | (_, Some _) => a
  end.

Infix ">>" := wseq (at level 65, right associativity).

Fixpoint wfor {A} (body : A -> written) (l : list A) : written :=
  match l with
  | [] => wnone
  | a :: l' => body a >> wfor body l'
  end.

Definition nl : string := String "010" "".

Section Interface.

Context `{Collaborators}.

(** *** Lattice operations *)

(** [Lattice.from_matrix(matrix, ltype=ltype)]. *)
Definition from_matrix (m : matrix) (lt : string) : Lattice.t :=
  {| Lattice.ltype := lt; Lattice.para := matrix2para m; Lattice.matrix := m |}.

(** [Lattice.from_para(a, b, c, alpha, beta, gamma, ltype)]. *)
Definition from_para (a b c alpha beta gamma : float) (lt : string)
  : Lattice.t :=
  let p := mkpara a b c alpha beta gamma in
  {| Lattice.ltype := lt; Lattice.para := p; Lattice.matrix := para2matrix p lt |}.

(** [lattice.set_matrix(m)]. *)
Definition set_matrix (m : matrix) (l : Lattice.t) : Lattice.t :=
  {| Lattice.ltype := Lattice.ltype l; Lattice.para := matrix2para m;
     Lattice.matrix := m |}.

(** [lattice.get_para(degree=True)]. *)
Definition get_para (l : Lattice.t) : cellpara := Lattice.para l.

(** [pyxtal.to_ase(resort=False)]: the full list of atoms over the
    lattice matrix. *)
Definition pyxtal_to_ase (p : Pyxtal.t) : Atoms.t :=
  {| Atoms.cell := Lattice.matrix (Pyxtal.lattice p);
     Atoms.scaled_positions := map snd (all_sites p);
     Atoms.chemical_symbols := map fst (all_sites p) |}.

(** *** [GULP.__init__]

    The working folder is created when it is missing; folders are not
    part of the file-system model. *)

Definition init (struc : structure_arg) (label path ff : string)
    (pstress : option float) (opt : string) (steps : Z)
    (exe input output : string) (dump : option string) (symmetry : bool)
    (labels : option (gmap string string)) : res GULP :=
  let '(px, arg) :=
    match struc with
    | APyxtal p => (Some p, AAtoms (pyxtal_to_ase p))
    | _ => (None, struc)
    end in
  match arg with
  | AAtoms a =>
      Ok {| pyxtal := px;
            (* [struc.species] is overwritten by [None] below it *)
            species := None;
            lattice := from_matrix (Atoms.cell a) "triclinic";
            frac_coords := Atoms.scaled_positions a;
            sites := Atoms.chemical_symbols a;
            symmetry := symmetry;
            structure := a;
            pstress := pstress;
            label := label;
            labels := labels;
            ff := ff;
            opt := opt;
            exe := exe;
            steps := steps;
            folder := path;
            input := path +:+ "/" +:+ label +:+ input;
            output := path +:+ "/" +:+ label +:+ output;
            dump := dump;
            iter := 0;
            energy := None;
            energy_per_atom := None;
            stress := None;
            forces := None;
            positions := None;
            optimized := false;
            cputime := PyInt 0;
            error := false |}
  | _ => Raise NotImplementedError
  end.

(** *** [GULP.write] *)

Definition f12 (x : float) : string := PyFloat.format_f 12 6 x.

(** ['{:4s} {:12.6f} {:12.6f} {:12.6f} <role> \n'.format(symbol, *coord)]:
    three coordinates are needed, further ones are ignored. *)
Definition write_site (role symbol : string) (coord : vec) : written :=
  match coord with
  | x :: y :: z :: _ =>
      wr (PyStr.ljust 4 symbol +:+ " " +:+ f12 x +:+ " " +:+ f12 y +:+ " "
          +:+ f12 z +:+ " " +:+ role +:+ " " +:+ nl)
  | _ => wraise IndexError
  end.

(** The directive line: the solve mode, and [nosymmetry] when symmetry
    is not imposed. *)
Definition write_mode (self : GULP) : written :=
  (if String.eqb (opt self) "conv"
   then wr ("opti stress " +:+ opt self +:+ " conjugate ")
   else if String.eqb (opt self) "single"
        then wr "grad conp stress "
        else wr ("opti stress " +:+ opt self +:+ " conjugate "))
  >> (if negb (symmetry self) then wr ("nosymmetry" +:+ nl) else wnone).

Definition write_cell (self : GULP) : written :=
  let p := get_para (lattice self) in
  wr (nl +:+ "cell" +:+ nl)
  >> wr (f12 (pa p) +:+ f12 (pb p) +:+ f12 (pc p) +:+ f12 (palpha p)
         +:+ f12 (pbeta p) +:+ f12 (pgamma p) +:+ nl)
  >> wr (nl +:+ "fractional" +:+ nl).

Definition write_coords (self : GULP) : written :=
  match symmetry self, pyxtal self with
  | true, Some p =>
      wfor (fun site =>
              write_site "core" (specie site) (position site)
              >> (if String.eqb (ff self) "catlow" && String.eqb (specie site) "O"
                  then write_site "shell" (specie site) (position site)
                  else wnone))
           (Pyxtal.atom_sites p)
      >> wr (nl +:+ "space" +:+ nl
             +:+ PyFloat.format_d (number (Pyxtal.group p)) +:+ nl)
      >> wr (nl +:+ "origin" +:+ nl +:+ "0 0 0" +:+ nl)
  | _, _ =>
      wfor (fun cs => write_site "core" (snd cs) (fst cs))
           (combine (frac_coords self) (sites self))
  end.

Definition species_line (a b : string) : string :=
  PyStr.ljust 4 a +:+ " core " +:+ b +:+ nl.

Definition write_species (self : GULP) : written :=
  match species self with
  | Some _ =>
      (* [self.structure.species]: an [Atoms] object has no such field *)
      wraise AttributeError
  | None =>
      let sp := set_order (sites self) in
      wr (nl +:+ "Species" +:+ nl)
      >> match labels self with
         | Some lb =>
             wfor (fun specie =>
                     match lb !! specie with
                     | Some l => wr (species_line specie l)
                     | None => wr (species_line specie (PyStr.ljust 4 specie))
                     end) sp
         | None =>
             wfor (fun specie =>
                     if String.eqb (ff self) "catlow" && String.eqb specie "O"
                     then wr ("O    core O_O2- core" +:+ nl)
                          >> wr ("O    shell O_O2- shell" +:+ nl)
                     else wr (species_line specie (PyStr.ljust 4 specie))) sp
         end
  end.

(** The trailer directives. *)
Definition write_trailer (self : GULP) : written :=
  wr (nl +:+ "library " +:+ ff self +:+ nl)
  >> wr ("ewald 10.0" +:+ nl)
  >> (if negb (String.eqb (opt self) "single")
      then wr ("maxcycle " +:+ PyFloat.format_d (steps self) +:+ nl)
      else wnone)
  >> match pstress self with
     | Some p => wr ("pressure " +:+ PyFloat.format_f 6 3 p +:+ nl)
     | None => wnone
     end
  >> match dump self with
     | Some d => wr ("output cif " +:+ d +:+ nl)
     | None => wnone
     end.

Definition write_chunks (self : GULP) : written :=
  write_mode self >> write_cell self >> write_coords self
  >> write_species self >> write_trailer self.

(** [write]: the input file holds what was written, also when an
    exception ended the block early. *)
Definition write (self : GULP) (fs : filesystem) : filesystem * option exn :=
  let '(chunks, e) := write_chunks self in
  (<[input self := PyStr.concat chunks]> fs, e).

(** *** [GULP.execute] and [GULP.clean] *)

Definition execute (self : GULP) (fs : filesystem) : filesystem :=
  os_system (exe self +:+ "<" +:+ input self +:+ ">" +:+ output self) fs.

(** [os.remove(path)]. *)
Definition os_remove (path : string) (fs : filesystem) : res filesystem :=
  match fs !! path with
  | Some _ => Ok (delete path fs)
  | None => Raise FileNotFoundError
  end.

Definition clean (self : GULP) (fs : filesystem) : res filesystem :=
  let* fs1 := os_remove (input self) fs in
  let* fs2 := os_remove (output self) fs1 in
  match dump self with
  | Some d => os_remove d fs2
  | None => Ok fs2
  end.

(** *** [GULP.read] *)

(** [f.readlines()] in text mode: [\r\n] and [\r] become [\n], and
    every line keeps its terminator. *)
Fixpoint universal_newlines (s : string) : string :=
  match s with
  | String "013" s' =>
      String "010" match s' with
                   | String "010" s'' => universal_newlines s''
                   | _ => universal_newlines s'
                   end
  | String c s' => String c (universal_newlines s')
  | "" => ""
  end.

Fixpoint lines_go (s cur : string) : list string :=
  match s with
  | "" => if PyStr.is_empty cur then [] else [cur]
  | String c s' =>
      if Ascii.eqb c "010" then (cur +:+ nl) :: lines_go s' ""
      else lines_go s' (cur +:+ String c "")
  end.

Definition readlines (content : string) : list string :=
  lines_go (universal_newlines content) "".

(** [line.find(sub) != -1]. *)
Definition found (line sub : string) : bool :=
  negb (PyStr.find line sub =? -1).

(** The three energy patterns. *)
Inductive marker : Type :=
| NonPrimitiveCell
| LatticeEnergy
| LatticeEnthalpy.

Definition marker_name (m : marker) : string :=
  match m with
  | NonPrimitiveCell => "Non-primitive unit cell"
  | LatticeEnergy => "Total lattice energy"
  | LatticeEnthalpy => "Total lattice enthalpy"
  end.

(** [self.symmetry and self.pyxtal.group.symbol[0] != 'P']. *)
Definition nonprimitive_symmetry (self : GULP) : res bool :=
  if symmetry self then
    match pyxtal self with
    | None => Raise AttributeError
    | Some p =>
        match symbol (Pyxtal.group p) with
        | String c _ => Ok (negb (Ascii.eqb c "P"))
        | "" => Raise IndexError
        end
    end
  else Ok false.

(** The [if]/[elif]/[else] that picks the pattern tried on a line. *)
Definition energy_marker (self : GULP) : res marker :=
  let* np := nonprimitive_symmetry self in
  if np then Ok NonPrimitiveCell
  else match pstress self with
       | None => Ok LatticeEnergy
       | Some p => if PyFloat.eqb p PyFloat.zero then Ok LatticeEnergy
                   else Ok LatticeEnthalpy
       end.

(** The scanning state: the object, and the two local lattices. *)
Record scan : Type := mk_scan {
  obj : GULP;
  lattice_para : option Lattice.t;
  lattice_vector : option Lattice.t
}.

Definition with_obj (f : GULP -> GULP) (st : scan) : scan :=
  {| obj := f (obj st); lattice_para := lattice_para st;
     lattice_vector := lattice_vector st |}.

Definition set_lattice_para (l : Lattice.t) (st : scan) : scan :=
  {| obj := obj st; lattice_para := Some l;
     lattice_vector := lattice_vector st |}.

Definition set_lattice_vector (l : Lattice.t) (st : scan) : scan :=
  {| obj := obj st; lattice_para := lattice_para st;
     lattice_vector := Some l |}.

(** [float(l[i])]. *)
Definition float_at (l : list string) (i : nat) : res float :=
  let* v := index l i in PyFloat.of_string v.

(** One row of the stress table: columns 1 and 3 of [lines[k]]. *)
Definition stress_row (lines : list string) (k : nat) : res (float * float) :=
  let* l := index lines k in
  let* d := float_at (PyStr.split l) 1 in
  let* o := float_at (PyStr.split l) 3 in
  Ok (d, o).

Definition read_stress (lines : list string) (i : nat) : res (list float) :=
  let* r0 := stress_row lines (i + 0 + 3) in
  let* r1 := stress_row lines (i + 1 + 3) in
  let* r2 := stress_row lines (i + 2 + 3) in
  Ok [fst r0; fst r1; fst r2; snd r0; snd r1; snd r2].

(** [for t in range(3-len(g)): g.append(' ')] on a slice of at most
    three tokens. *)
Definition pad3 (g : list string) : string * string * string :=
  match g with
  | [] => (" ", " ", " ")
  | [g0] => (g0, " ", " ")
  | [g0; g1] => (g0, g1, " ")
  | g0 :: g1 :: g2 :: _ => (g0, g1, g2)
  end.

(** [[i+1 for i,e in enumerate(s[1:]) if e == '-']]: the positions in [s]
    of the minus signs after its first character. *)
Fixpoint minus_positions (s : string) (i : nat) : list nat :=
  match s with
  | "" => []
  | String c s' =>
      if Ascii.eqb c "-" then i :: minus_positions s' (S i)
      else minus_positions s' (S i)
  end.

Definition min_index (s : string) : list nat :=
  minus_positions (PyStr.from 1 s) 1.

(** The pass [j == 1] of the repair loop. *)
Definition repair_second (g : string * string * string)
  : string * string * string :=
  let '(g0, g1, g2) := g in
  match min_index g1 with
  | [] => (g0, g1, g2)
  | m0 :: _ => (g0, PyStr.upto m0 g1, PyStr.from m0 g1)
  end.

(** The column-alignment repair [for j in range(2): ...]. *)
Definition repair (g : string * string * string)
  : string * string * string :=
  let '(g0, g1, g2) := g in
  match min_index g0 with
  | [] => repair_second (g0, g1, g2)
  | [m0] => repair_second (PyStr.upto m0 g0, PyStr.from m0 g0, g1)
  | m0 :: m1 :: _ =>
      (* [break]: the pass [j == 1] is skipped *)
      (PyStr.upto m0 g0, PyStr.between m0 m1 g0, PyStr.from m1 g0)
  end.

(** [-float(x) * eV / Ang]. *)
Definition force_component (x : string) : res float :=
  let* v := PyFloat.of_string x in
  PyFloat.truediv (PyFloat.mul (PyFloat.neg v) eV) Ang.

(** The fields [g] of one force row after the repair. *)
Definition force_fields (line : string) : string * string * string :=
  repair (pad3 (slice 3 6 (PyStr.split line))).

(** One force row: [G]. *)
Definition force_row (line : string) : res vec :=
  let '(g0, g1, g2) := force_fields line in
  res_map force_component [g0; g1; g2].

Definition separator : string := "------------".

(** The force table: [rows] are the lines from [lines[i+6]] on, read
    until a separator line; running off the end is an [IndexError]. *)
Fixpoint force_table (rows : list string) : res (list vec) :=
  match rows with
  | [] => Raise IndexError
  | l :: rows' =>
      if found l separator then Ok []
      else let* G := force_row l in
           let* rest := force_table rows' in
           Ok (G :: rest)
  end.

(** [[float(x) for x in line.split()[3:6]]]. *)
Definition xyz_of (line : string) : res vec :=
  res_map PyFloat.of_string (slice 3 6 (PyStr.split line)).

(** The loop over the symmetry-reduced sites: [rows] are the lines from
    [lines[i+6]] on. The sites updated before an exception stay
    updated. *)
Fixpoint asym_loop (rows : list string) (sites : list atom_site)
  : list atom_site * option exn :=
  match sites with
  | [] => ([], None)
  | site :: sites' =>
      match rows with
      | [] => (sites, Some IndexError)
      | r :: rows' =>
          match xyz_of r with
          | Raise e => (sites, Some e)
          | Ok XYZ =>
              match site_update site XYZ with
              | (site', Some e) => (site' :: sites', Some e)
              | (site', None) =>
                  let '(rest, e) := asym_loop rows' sites' in
                  (site' :: rest, e)
              end
          end
      end
  end.

(** The table of fractional coordinates, read like the force table. *)
Fixpoint frac_table (rows : list string) : res (list vec) :=
  match rows with
  | [] => Raise IndexError
  | l :: rows' =>
      if found l separator then Ok []
      else let* XYZ := xyz_of l in
           let* _ := index (PyStr.split l) 1 in
           let* rest := frac_table rows' in
           Ok (XYZ :: rest)
  end.

(** One row of the Cartesian lattice vectors. *)
Definition cart_row (lines : list string) (j : nat) : res vec :=
  let* l := index lines j in
  let temp := PyStr.split l in
  let* x := float_at temp 0 in
  let* y := float_at temp 1 in
  let* z := float_at temp 2 in
  Ok [x; y; z].

Definition read_cartesian (lines : list string) (i : nat) (ltype : string)
  : res Lattice.t :=
  let s := (i + 2)%nat in
  let* r0 := cart_row lines s in
  let* r1 := cart_row lines (s + 1) in
  let* r2 := cart_row lines (s + 2) in
  Ok (from_matrix [r0; r1; r2] ltype).

Definition read_nonprimitive (lines : list string) (i : nat) (ltype : string)
  : res Lattice.t :=
  let s := (i + 2)%nat in
  let* l := index lines s in
  let temp := PyStr.split l in
  let* a := float_at temp 2 in
  let* b := float_at temp 5 in
  let* c := float_at temp 8 in
  let* l' := index lines (s + 1) in
  let temp := PyStr.split l' in
  let* alpha := float_at temp 1 in
  let* beta := float_at temp 3 in
  let* gamma := float_at temp 5 in
  Ok (from_para a b c alpha beta gamma ltype).

(** The result of one statement sequence of the loop body: the state
    reached, and the exception raised, if any. *)
Definition step : Type := (scan * option exn)%type.

Definition continue (st : scan) : step := (st, None).
Definition raised (st : scan) (e : exn) : step := (st, Some e).

Definition attempt {A} (r : res A) (st : scan) (k : A -> step) : step :=
  match r with
  | Ok a => k a
  | Raise e => raised st e
  end.

(** The branch of the [if]/[elif] chain a line falls into, for the
    energy pattern [mk]: the first test that succeeds decides. *)
Inductive section : Type :=
| SEnergy (group1 : string)
| SJobFinished
| SCpuTime
| SStress
| SForces
| SCycle
| SAsymmetricUnit
| SFractional
| SCartesian
| SNonPrimitive
| SOther.

Definition classify (mk : marker) (line : string) : section :=
  match PyStr.match_energy (marker_name mk) line with
  | Some g1 => SEnergy g1
  | None =>
      if found line "Job Finished" then SJobFinished
      else if found line "Total CPU time" then SCpuTime
      else if found line "Final stress tensor components" then SStress
      else if found line "Final internal derivatives" then SForces
      else if found line " Cycle: " then SCycle
      else if found line "Final asymmetric unit coordinates" then SAsymmetricUnit
      else if found line "Final fractional coordinates of atoms" then SFractional
      else if found line "Final Cartesian lattice vectors" then SCartesian
      else if found line "Non-primitive lattice parameters" then SNonPrimitive
      else SOther
  end.

(** The body of [for i, line in enumerate(lines)]. *)
Definition scan_line (ltype : string) (lines : list string) (i : nat)
    (line : string) (st : scan) : step :=
  let self := obj st in
  attempt (energy_marker self) st (fun mk =>
  match classify mk line with
  | SEnergy g1 =>
      attempt (PyFloat.of_string g1) st (fun v =>
      let st1 := with_obj (set_energy (Some v)) st in
      attempt (PyFloat.truediv_int v (Z.of_nat (length (frac_coords self)))) st1
        (fun q => continue (with_obj (set_energy_per_atom (Some q)) st1)))
  | SJobFinished => continue (with_obj (set_optimized true) st)
  | SCpuTime =>
      attempt (let* tok := index_last (PyStr.split line) in
               PyFloat.of_string tok) st
        (fun t => continue (with_obj (set_cputime (PyFlt t)) st))
  | SStress =>
      attempt (read_stress lines i) st
        (fun s => continue (with_obj (set_stress (Some s)) st))
  | SForces =>
      attempt (force_table (skipn (i + 5 + 1) lines)) st
        (fun f => continue (with_obj (set_forces (Some f)) st))
  | SCycle =>
      attempt (let* tok := index (PyStr.split line) 1 in
               PyFloat.int_of_string tok) st
        (fun n => continue (with_obj (set_iter n) st))
  | SAsymmetricUnit =>
      match pyxtal self with
      | None => raised st AttributeError
      | Some p =>
          let '(sites', e) :=
            asym_loop (skipn (i + 6) lines) (Pyxtal.atom_sites p) in
          (with_obj (set_pyxtal (Some (Pyxtal.set_atom_sites sites' p))) st, e)
      end
  | SFractional =>
      attempt (frac_table (skipn (i + 5 + 1) lines)) st
        (fun pos => continue (with_obj (set_frac_coords pos) st))
  | SCartesian =>
      attempt (read_cartesian lines i ltype) st
        (fun l => continue (set_lattice_vector l st))
  | SNonPrimitive =>
      attempt (read_nonprimitive lines i ltype) st
        (fun l => continue (set_lattice_para l st))
  | SOther => continue st
  end).

(** The loop over [rest], the lines from index [i] on; an exception
    ends it with the state reached. *)
Fixpoint scan_from (ltype : string) (lines : list string) (i : nat)
    (rest : list string) (st : scan) : step :=
  match rest with
  | [] => continue st
  | line :: rest' =>
      match scan_line ltype lines i line st with
      | (st', None) => scan_from ltype lines (S i) rest' st'
      | (st', Some e) => raised st' e
      end
  end.

Definition scan_lines (ltype : string) (lines : list string) (self : GULP)
  : step :=
  scan_from ltype lines 0 lines
    {| obj := self; lattice_para := None; lattice_vector := None |}.

(** [ltype] of the run: the structure's lattice family, else triclinic. *)
Definition run_ltype (self : GULP) : string :=
  match pyxtal self with
  | Some p => Lattice.ltype (Pyxtal.lattice p)
  | None => "triclinic"
  end.

(** The [except:] clause. *)
Definition on_exception (e : option exn) (self : GULP) : GULP :=
  match e with
  | Some _ => set_energy None (set_error true self)
  | None => self
  end.

(** The lattice resolution after the loop. *)
Definition resolve_lattice (lp lv : option Lattice.t) (self : GULP) : GULP :=
  match lp with
  | Some l => set_lattice l self
  | None =>
      match lv with
      | Some l => set_lattice l self
      | None => set_energy None (set_error true self)
      end
  end.

(** [self.pyxtal.lattice = self.lattice] when there is a [pyxtal]. *)
Definition sync_pyxtal (self : GULP) : GULP :=
  match pyxtal self with
  | Some p => set_pyxtal (Some (Pyxtal.set_lattice (lattice self) p)) self
  | None => self
  end.

(** [np.isnan(x)]: a [TypeError] on [None]. *)
Definition np_isnan (x : option float) : res bool :=
  match x with
  | Some v => Ok (PyFloat.isnan v)
  | None => Raise TypeError
  end.

(** [self.energy is None or np.isnan(self.energy)] and its branch. *)
Definition check_energy (self : GULP) : res GULP :=
  let* bad := match energy self with
              | None => Ok true
              | Some _ => np_isnan (energy self)
              end in
  if bad then Ok (set_energy None (set_error true self)) else Ok self.

(** [read] once the lines of the output file are in memory. *)
Definition read_lines (self : GULP) (lines : list string) : res GULP :=
  let ltype := run_ltype self in
  let '(st, e) := scan_lines ltype lines self in
  let self1 := on_exception e (obj st) in
  let self2 := resolve_lattice (lattice_para st) (lattice_vector st) self1 in
  let self3 := sync_pyxtal self2 in
  check_energy self3.

Definition read (self : GULP) (fs : filesystem) : res GULP :=
  match fs !! output self with
  | None => Raise FileNotFoundError
  | Some content => read_lines self (readlines content)
  end.

(** *** [GULP.run], [to_ase], [to_pyxtal] *)

(** [run]: the object after the run and the file system it leaves; an
    exception that escapes ends the run. *)
Definition run (self : GULP) (do_clean : bool) (fs : filesystem)
  : res (GULP * filesystem) :=
  match write self fs with
  | (_, Some e) => Raise e
  | (fs1, None) =>
      let fs2 := execute self fs1 in
      let* self' := read self fs2 in
      if do_clean
      then let* fs3 := clean self' fs2 in Ok (self', fs3)
      else Ok (self', fs2)
  end.

Definition to_ase (self : GULP) : Atoms.t :=
  {| Atoms.cell := Lattice.matrix (lattice self);
     Atoms.scaled_positions := frac_coords self;
     Atoms.chemical_symbols := sites self |}.

Definition tolerances : list float :=
  Eval vm_compute in
    map (fun e => PyFloat.of_decimal false 1 e) [-2; -3; -4; -5].

(** The loop of [to_pyxtal]: the first tolerance for which [from_seed]
    does not raise ends it; [last] is the object bound to [struc] by the
    previous iteration. *)
Fixpoint to_pyxtal_loop (a : Atoms.t) (tols : list float)
    (last : option Pyxtal.t) : res Pyxtal.t :=
  match tols with
  | [] => match last with
          | Some p => Ok p
          | None => Raise UnboundLocalError
          end
  | tol :: tols' =>
      match from_seed a tol with
      | (p, None) => Ok p
      | (p, Some _) => to_pyxtal_loop a tols' (Some p)
      end
  end.

Definition to_pyxtal (self : GULP) : res Pyxtal.t :=
  to_pyxtal_loop (to_ase self) tolerances None.

(** *** [single_optimize] *)

(** The tuple [struc, energy, time, error] of the two drivers. *)
Record outcome : Type := mk_outcome {
  out_struc : option Pyxtal.t;
  out_energy : option float;
  out_time : pynum;
  out_error : bool
}.

Definition failure : outcome :=
  {| out_struc := None; out_energy := None; out_time := PyInt 0;
     out_error := true |}.

(** [exe] is accepted but not handed to the calculator, which keeps
    its default executable, file names and dump setting. *)
Definition single_optimize (struc : structure_arg) (ff : string) (steps : Z)
    (pstress : option float) (opt exe path label : string) (do_clean : bool)
    (symmetry : bool) (labels : option (gmap string string))
    (fs : filesystem) : res (outcome * filesystem) :=
  let* calc := init struc label path ff pstress opt steps
                 "gulp" "gulp.in" "gulp.log" None symmetry labels in
  let* (calc, fs') := run calc do_clean fs in
  if error calc then Ok (failure, fs')
  else
    let* struc := match pyxtal calc with
                  | None => to_pyxtal calc
                  | Some p => Ok p
                  end in
    Ok ({| out_struc := Some struc; out_energy := energy_per_atom calc;
           out_time := cputime calc; out_error := error calc |}, fs').

(** *** [optimize] *)

Definition near_zero : float :=
  Eval vm_compute in PyFloat.of_decimal false 1 (-8).

Definition shrink : float :=
  Eval vm_compute in PyFloat.of_decimal false 8 (-1).

(** [abs(energy) < 1e-8]: a [TypeError] when [energy] is [None]. *)
Definition is_near_zero (energy : option float) : res bool :=
  match energy with
  | Some e => Ok (PyFloat.ltb (PyFloat.abs e) near_zero)
  | None => Raise TypeError
  end.

(** [struc.lattice.set_matrix(struc.lattice.matrix * 0.8)]. *)
Definition shrink_lattice (p : Pyxtal.t) : Pyxtal.t :=
  let l := Pyxtal.lattice p in
  Pyxtal.set_lattice (set_matrix (matrix_scale shrink (Lattice.matrix l)) l) p.

(** One pass as the driver sees it: the structure and mode handed to
    [single_optimize]. *)
Record pass : Type := mk_pass {
  pass_struc : structure_arg;
  pass_opt : string
}.

(** The variables of the loop of [optimize]; [energy] is unbound until
    a pass has run. *)
Record loop_state : Type := mk_loop {
  l_struc : structure_arg;
  l_energy : option (option float);
  l_time : pynum;
  l_fs : filesystem;
  l_passes : list pass
}.

(** What [optimize] returns, the file system it leaves, and the passes
    it ran, in order. *)
Record optimized_result : Type := mk_result {
  r_struc : option structure_arg;
  r_energy : option float;
  r_time : pynum;
  r_error : bool;
  r_fs : filesystem;
  r_passes : list pass
}.

Fixpoint optimize_loop (ff : string) (optimizations : list string)
    (exe : string) (pstress : option float) (path label : string)
    (do_clean adjust : bool) (st : loop_state) : res optimized_result :=
  match optimizations with
  | [] =>
      match l_energy st with
      | None => Raise UnboundLocalError
      | Some energy =>
          Ok {| r_struc := Some (l_struc st); r_energy := energy;
                r_time := l_time st; r_error := false;
                r_fs := l_fs st; r_passes := l_passes st |}
      end
  | opt :: rest =>
      let ran := l_passes st ++ [mk_pass (l_struc st) opt] in
      let* (o, fs) := single_optimize (l_struc st) ff 1000 pstress opt exe
                         path label do_clean false None (l_fs st) in
      let* time_total := pynum_add (l_time st) (out_time o) in
      if out_error o then
        Ok {| r_struc := None; r_energy := None; r_time := PyInt 0;
              r_error := true; r_fs := fs; r_passes := ran |}
      else
        let* small := if adjust then is_near_zero (out_energy o)
                      else Ok false in
        let* struc :=
          if small then
            match out_struc o with
            | Some p => Ok (APyxtal (shrink_lattice p))
            | None => Raise AttributeError
            end
          else Ok match out_struc o with
                  | Some p => APyxtal p
                  | None => AOther
                  end in
        optimize_loop ff rest exe pstress path label do_clean adjust
          {| l_struc := struc; l_energy := Some (out_energy o);
             l_time := time_total; l_fs := fs; l_passes := ran |}
  end.

Definition optimize (struc : structure_arg) (ff : string)
    (optimizations : list string) (exe : string) (pstress : option float)
    (path label : string) (do_clean adjust : bool) (fs : filesystem)
  : res optimized_result :=
  optimize_loop ff optimizations exe pstress path label do_clean adjust
    {| l_struc := struc; l_energy := None; l_time := PyInt 0;
       l_fs := fs; l_passes := [] |}.

End Interface.

(** ** Force rows as text *)

Fixpoint all_chars (f : ascii -> bool) (s : string) : bool :=
  match s with
  | "" => true
  | String c s' => f c && all_chars f s'
  end.

(** Only whitespace (possibly nothing). *)
Definition blank (s : string) : bool := all_chars PyStr.isspace s.

(** A non-empty gap between two columns. *)
Definition gap (s : string) : bool := negb (PyStr.is_empty s) && blank s.

(** A token: not empty, no whitespace. *)
Definition token (s : string) : bool :=
  negb (PyStr.is_empty s) && all_chars (fun c => negb (PyStr.isspace c)) s.

(** A numeric field of the table: a token whose only minus sign, if
    any, is its first character. *)
Definition numeric_field (s : string) : bool :=
  token s && all_chars (fun c => negb (Ascii.eqb c "-")) (PyStr.from 1 s).

(** A negative-signed field. *)
Definition negative (s : string) : bool := PyStr.startswith "-" s.

(** A row as text: every cell is a gap followed by a token. *)
Fixpoint layout (cells : list (string * string)) (tail : string) : string :=
  match cells with
  | [] => tail
  | (w, t) :: cells' => w +:+ t +:+ layout cells' tail
  end.

Fixpoint spaced (cells : list (string * string)) : bool :=
  match cells with
  | [] => true
  | (w, t) :: cells' => gap w && token t && spaced cells'
  end.

(** The three force columns [f1 f2 f3]; [m12] merges the second into
    the first (no gap between them), [m23] the third into the second. *)
Definition field_cells (w1 w2 w3 f1 f2 f3 : string) (m12 m23 : bool)
  : list (string * string) :=
  match m12, m23 with
  | false, false => [(w1, f1); (w2, f2); (w3, f3)]
  | true, false => [(w1, f1 +:+ f2); (w3, f3)]
  | false, true => [(w1, f1); (w2, f2 +:+ f3)]
  | true, true => [(w1, f1 +:+ f2 +:+ f3)]
  end.

(** A row of the force table, column by column: an optional indent,
    the three leading columns [No.], [Label] and the core/shell tag
    with the gaps before the second and third, the three force columns
    with the gap before each, any further columns, and a blank end of
    line. *)
Record force_columns : Type := mk_columns {
  indent : string;
  col_no : string;
  gap_label : string;
  col_label : string;
  gap_tag : string;
  col_tag : string;
  gap1 : string;
  gap2 : string;
  gap3 : string;
  f1 : string;
  f2 : string;
  f3 : string;
  more : list (string * string);
  tail : string
}.

(** The row as GULP prints it when [m12]/[m23] say which columns ran
    into the one before them; [render r false false] is the row with
    every column separated. *)
Definition render (r : force_columns) (m12 m23 : bool) : string :=
  indent r +:+ col_no r +:+
  layout ([(gap_label r, col_label r); (gap_tag r, col_tag r)]
          ++ field_cells (gap1 r) (gap2 r) (gap3 r) (f1 r) (f2 r) (f3 r) m12 m23
          ++ more r)
    (tail r).

(** The columns are what they are named, and a column that ran into
    the one before it is negative-signed. *)
Definition well_formed (r : force_columns) (m12 m23 : bool) : bool :=
  blank (indent r) && token (col_no r)
  && spaced [(gap_label r, col_label r); (gap_tag r, col_tag r)]
  && gap (gap1 r) && gap (gap2 r) && gap (gap3 r)
  && numeric_field (f1 r) && numeric_field (f2 r) && numeric_field (f3 r)
  && implb m12 (negative (f2 r)) && implb m23 (negative (f3 r))
  && spaced (more r) && blank (tail r).

(** ** The specification's wording of two decisions

    Both are compared with the code below. *)

(** The energy marker as the specification words its choice: the
    non-primitive-cell marker when symmetry is imposed on a
    non-primitive space group, else the enthalpy marker when an
    external pressure is configured, else the plain marker. *)
Definition stated_marker (nonprimitive : bool) (pstress : option float)
  : marker :=
  if nonprimitive then NonPrimitiveCell
  else match pstress with
       | Some _ => LatticeEnthalpy
       | None => LatticeEnergy
       end.

(** The final energy check as the specification words it: the energy
    is absent or not a finite number. *)
Definition stated_bad_energy (e : option float) : bool :=
  match e with
  | None => true
  | Some v => negb (PyFloat.isfinite v)
  end.

(** ** Definitions used to state further properties *)

(** The settings of a run: what the constructor fixes and the rest of
    the interface only reads. *)
Definition settings (self : GULP) :=
  (symmetry self, pstress self, label self, labels self, ff self, opt self,
   exe self, steps self, folder self, input self, output self, dump self,
   sites self, structure self, species self, positions self).

(** Two states of the structure object of a calculator that differ at
    most in the lattice and in the contents of the sites. *)
Definition kept (a b : option Pyxtal.t) : Prop :=
  match a, b with
  | None, None => True
  | Some p, Some p' =>
      Pyxtal.group p' = Pyxtal.group p
      /\ Pyxtal.species p' = Pyxtal.species p
      /\ length (Pyxtal.atom_sites p') = length (Pyxtal.atom_sites p)
  | _, _ => False
  end.

(** One row of the table of fractional coordinates: the three
    coordinates, once the label column is known to be there. *)
Definition frac_row (line : string) : res vec :=
  let* XYZ := xyz_of line in
  let* _ := index (PyStr.split line) 1 in
  Ok XYZ.

(** The capture of the last line matched by the energy pattern on
    [name], or [seen] when none is. *)
Fixpoint last_energy (name : string) (lines : list string)
    (seen : option string) : option string :=
  match lines with
  | [] => seen
  | line :: rest =>
      last_energy name rest
        match PyStr.match_energy name line with
        | Some g1 => Some g1
        | None => seen
        end
  end.

(** The coordinate rows [write] prints, in order: the positions of the
    symmetry-reduced sites when symmetry is imposed on a [pyxtal]
    structure, else the fractional coordinates that have a site symbol. *)
Definition written_coords (self : GULP) : list vec :=
  match symmetry self, pyxtal self with
  | true, Some p => map position (Pyxtal.atom_sites p)
  | _, _ => map fst (combine (frac_coords self) (sites self))
  end.

(** An energy line as text: indent, label, [=], value and unit, with
    the blanks between them. *)
Definition energy_text (ind name g1 g2 value g3 unit : string) : string :=
  ind +:+ name +:+ g1 +:+ "=" +:+ g2 +:+ value +:+ g3 +:+ unit.

(** ** The methods no run calls *)

(** [set_catlow]: its body is [pass]. *)
Definition set_catlow (self : GULP) : GULP := self.

Module Structure.
(** Modelled from the call: [pymatgen]'s [Structure] is built from a
    lattice matrix, the site symbols and the fractional coordinates. *)
Record t : Type := mk {
  lattice : matrix;
  species : list string;
  coords : list vec
}.
End Structure.

Definition to_pymatgen (self : GULP) : Structure.t :=
  {| Structure.lattice := Lattice.matrix (lattice self);
     Structure.species := sites self;
     Structure.coords := frac_coords self |}.

(** ** A laboratory environment

    A concrete set of collaborators on which the definitions can be run:
    orthogonal cells, structures without symmetry, and an executable
    that prints a fixed report. *)

Module Lab.

(** The float written [s]. *)
Definition fl (s : string) : float :=
  match PyFloat.of_string s with
  | Ok x => x
  | Raise _ => PyFloat.nan
  end.

Definition diag (m : matrix) (i : nat) : float :=
  nth i (nth i m []) PyFloat.zero.

Definition para_of (m : matrix) : cellpara :=
  mkpara (diag m 0) (diag m 1) (diag m 2) (fl "90") (fl "90") (fl "90").

Definition matrix_of (p : cellpara) (_ : string) : matrix :=
  [[pa p; PyFloat.zero; PyFloat.zero];
   [PyFloat.zero; pb p; PyFloat.zero];
   [PyFloat.zero; PyFloat.zero; pc p]].

Definition sites_of (p : Pyxtal.t) : list (string * vec) :=
  map (fun s => (specie s, position s)) (Pyxtal.atom_sites p).

Definition seed (a : Atoms.t) (_ : float) : Pyxtal.t * option exn :=
  ({| Pyxtal.lattice :=
        {| Lattice.ltype := "triclinic";
           Lattice.para := para_of (Atoms.cell a);
           Lattice.matrix := Atoms.cell a |};
      Pyxtal.atom_sites :=
        map (fun sc => mk_site (fst sc) (snd sc))
            (combine (Atoms.chemical_symbols a) (Atoms.scaled_positions a));
      Pyxtal.group := mk_group 1 "P1";
      Pyxtal.species := remove_dups (Atoms.chemical_symbols a) |}, None).

Definition move (s : atom_site) (v : vec) : atom_site * option exn :=
  (mk_site (specie s) v, None).

(** What follows the first [c] in [s]. *)
Fixpoint after (c : ascii) (s : string) : string :=
  match s with
  | "" => ""
  | String x s' => if Ascii.eqb x c then s' else after c s'
  end.

(** An executable that writes [report] to the file its output is
    redirected to. *)
Definition system (report cmd : string) (fs : filesystem) : filesystem :=
  <[after ">" cmd := report]> fs.

Definition env (report : string) : Collaborators :=
  {| matrix2para := para_of;
     para2matrix := matrix_of;
     all_sites := sites_of;
     from_seed := seed;
     site_update := move;
     set_order := remove_dups;
     os_system := system report |}.

(** Four carbon atoms in a cubic cell of edge 3.5. *)
Definition carbon4 : Atoms.t :=
  {| Atoms.cell := [[fl "3.5"; fl "0"; fl "0"];
                    [fl "0"; fl "3.5"; fl "0"];
                    [fl "0"; fl "0"; fl "3.5"]];
     Atoms.scaled_positions :=
       [[fl "0"; fl "0"; fl "0"]; [fl "0.5"; fl "0.5"; fl "0"];
        [fl "0.5"; fl "0"; fl "0.5"]; [fl "0"; fl "0.5"; fl "0.5"]];
     Atoms.chemical_symbols := ["C"; "C"; "C"; "C"] |}.

(** Lines of a report, each with its end of line. *)
Definition text (ls : list string) : list string :=
  map (fun l => l +:+ nl) ls.

Definition cartesian_block : list string :=
  ["  Final Cartesian lattice vectors (Angstroms) :";
   "";
   "        3.500000    0.000000    0.000000";
   "        0.000000    3.500000    0.000000";
   "        0.000000    0.000000    3.500000"].

Definition nonprimitive_block : list string :=
  ["  Non-primitive lattice parameters :";
   "";
   "  a    =     4.000000  b   =     5.000000  c    =     6.000000";
   "  alpha=    90.000000  beta=    90.000000  gamma=    90.000000"].

Definition energy_line (v : string) : string :=
  "  Total lattice energy       =        " +:+ v +:+ " eV".

(** The calculator built for a structure with the default arguments
    of [GULP(...)], but for the listed ones. The lattice conversions
    are those of [env]; the executable plays no part in building the
    object. *)
Definition calculator (struc : structure_arg) (ff : string)
    (pstress : option float) (opt : string) (dump : option string)
    (symmetry : bool) : res GULP :=
  @init (env "") struc "_" "tmp" ff pstress opt 1000 "gulp" "gulp.in"
    "gulp.log" dump symmetry None.

(** A calculator when the construction succeeds; the opaque fallback
    is never reached for the structures used here. *)
Definition built (r : res GULP) : GULP :=
  match r with
  | Ok g => g
  | Raise _ =>
      mkGULP None None (Lattice.mk "" (para_of []) []) [] [] false
        (Atoms.mk [] [] []) None "" None "" "" "" 0 "" "" "" None 0
        None None None None None false (PyInt 0) true
  end.

Definition single_point : GULP :=
  built (calculator (AAtoms carbon4) "tersoff.lib" None "single" None false).

Definition zero_pressure : GULP :=
  built (calculator (AAtoms carbon4) "tersoff.lib" (Some PyFloat.zero)
           "conp" None false).

Definition pressurised : GULP :=
  built (calculator (AAtoms carbon4) "tersoff.lib" (Some (fl "1.5"))
           "conp" None false).

(** Four carbon atoms as a [pyxtal] structure in a face-centred group,
    and the calculator that imposes its symmetry under zero pressure. *)
Definition centred_carbon : Pyxtal.t :=
  Pyxtal.mk (Lattice.mk "cubic" (para_of (Atoms.cell carbon4))
               (Atoms.cell carbon4))
    [mk_site "C" [fl "0"; fl "0"; fl "0"]] (mk_group 225 "Fm-3m") ["C"].

Definition centred_zero_pressure : GULP :=
  built (calculator (APyxtal centred_carbon) "tersoff.lib"
           (Some PyFloat.zero) "conp" None true).

(** A report with an energy line and the Cartesian lattice vectors. *)
Definition report (value : string) : list string :=
  text (energy_line value :: cartesian_block).

(** A report with both lattice blocks, in the order GULP prints them. *)
Definition report_both : list string :=
  text (energy_line "-1.000000" :: cartesian_block ++ nonprimitive_block).

(** A report with both lattice blocks and, between them, a CPU time
    that cannot be read. *)
Definition report_interrupted : list string :=
  text (energy_line "-1.000000" :: cartesian_block
        ++ "  Total CPU time  abc" :: nonprimitive_block).

(** A report whose CPU time cannot be read. *)
Definition report_broken : list string :=
  text [energy_line "-1.000000"; "  Total CPU time  abc"].

(** The report of a run that ends with a zero energy. *)
Definition zero_energy_output : string :=
  PyStr.concat (report "0.000000").

(** The spec's force row, its second column run into the first. *)
Definition sample_row : force_columns :=
  {| indent := "      "; col_no := "1";
     gap_label := " "; col_label := "C";
     gap_tag := "     "; col_tag := "c";
     gap1 := "      "; gap2 := " "; gap3 := " ";
     f1 := "-0.123456"; f2 := "-0.234567"; f3 := "0.345678";
     more := [("      ", "0.000000")]; tail := "" |}.

(** A disk that holds only the output file of the default run. *)
Definition disk (content : string) : filesystem :=
  <["tmp/_gulp.log" := content]> ∅.

(** A disk that holds the input and output files of the default run. *)
Definition disk_after_run : filesystem :=
  <["tmp/_gulp.in" := ""]> (disk "").

(** The state in which [optimize] enters its loop. *)
Definition start (struc : structure_arg) : loop_state :=
  {| l_struc := struc; l_energy := None; l_time := PyInt 0;
     l_fs := ∅; l_passes := [] |}.

(** The first pass of [optimize] on [carbon4] when the executable
    prints [output]. *)
Definition first_pass (output : string) : res (outcome * filesystem) :=
  @single_optimize (env output) (AAtoms carbon4) "tersoff.lib" 1000 None
    "conp" "gulp" "tmp" "_" true false None ∅.

Definition pass_outcome (r : res (outcome * filesystem)) : outcome :=
  match r with
  | Ok (o, _) => o
  | Raise _ => failure
  end.

Definition pass_files (r : res (outcome * filesystem)) : filesystem :=
  match r with
  | Ok (_, fs) => fs
  | Raise _ => ∅
  end.

Definition pass_struc_of (o : outcome) : Pyxtal.t :=
  match out_struc o with
  | Some p => p
  | None => fst (seed carbon4 PyFloat.zero)
  end.

(** The first pass when the report gives a zero energy, and when the
    executable prints nothing. *)
Definition zero_pass : res (outcome * filesystem) :=
  first_pass zero_energy_output.

Definition silent_pass : res (outcome * filesystem) := first_pass "".

(** The result of a driver run that ended without an exception. *)
Definition returned (r : res optimized_result) : optimized_result :=
  match r with
  | Ok x => x
  | Raise _ =>
      {| r_struc := None; r_energy := None; r_time := PyInt 0;
         r_error := true; r_fs := ∅; r_passes := [] |}
  end.

(** The disk after the executable printed a complete report. *)
Definition disk_report : filesystem :=
  disk (PyStr.concat (report "-123.456000")).

(** What [read] makes of it. *)
Definition read_back : res GULP :=
  @read (env "") single_point disk_report.

(** The same for a calculator built on the [pyxtal] structure. *)
Definition read_back_centred : res GULP :=
  @read (env "") centred_zero_pressure
    (disk (PyStr.concat
             (text ("  Non-primitive unit cell  =  -4.000000 eV"
                    :: cartesian_block)))).

(** A report with the energy before and after the relaxation. *)
Definition report_relaxed : list string :=
  text (energy_line "-100.000000"
        :: energy_line "-123.456000" :: cartesian_block).

Definition disk_relaxed : filesystem :=
  disk (PyStr.concat report_relaxed).

Definition read_relaxed : res GULP :=
  @read (env "") single_point disk_relaxed.

(** A calculator asked to impose the symmetry of a plain [Atoms]
    object. *)
Definition symmetric_atoms : GULP :=
  built (calculator (AAtoms carbon4) "tersoff.lib" None "conp" None true).

(** A report of a symmetric run. *)
Definition report_asymmetric : list string :=
  text (energy_line "-1.000000" :: cartesian_block
        ++ ["  Final asymmetric unit coordinates :"]).

(** Two rows of a force table, the first with a merged column, the
    line that closes the table, and what follows it. *)
Definition force_rows : list string :=
  [render sample_row true false;
   "      2 C     c       0.100000    0.200000   -0.300000      0.000000"].

Definition closing : string :=
  "--------------------------------------------------------------------------------".

(** A disk with the files of the default run and one more. *)
Definition disk_with_notes : filesystem :=
  <["notes.txt" := "keep"]> disk_after_run.

(** The files left by an operation that ended without an exception. *)
Definition files (r : res filesystem) : filesystem :=
  match r with
  | Ok fs => fs
  | Raise _ => ∅
  end.

(** A run of the single-point calculator, with cleanup, when the
    executable prints a complete report. *)
Definition clean_run : res (GULP * filesystem) :=
  @run (env zero_energy_output) single_point true
    (<["notes.txt" := "keep"]> ∅).

Definition ran (r : res (GULP * filesystem)) : GULP * filesystem :=
  match r with
  | Ok x => x
  | Raise _ => (built (Raise ValueError), ∅)
  end.

(** A pass on the [pyxtal] structure when the executable prints a
    complete report. *)
Definition centred_pass : res (outcome * filesystem) :=
  @single_optimize (env zero_energy_output)
    (APyxtal centred_carbon) "tersoff.lib" 1000 None "conp" "gulp"
    "tmp" "_" true false None ∅.

(** Two passes on [carbon4] with a report of energy -123.456. *)
Definition two_passes : res optimized_result :=
  @optimize (env (PyStr.concat (report "-123.456000")))
    (AAtoms carbon4) "tersoff.lib" ["conv"; "conp"] "gulp" None "tmp"
    "_" true false ∅.

End Lab.

(** * Properties

    From here on [simpl] may unfold string concatenation. *)

#[local] Arguments String.append : simpl nomatch.

(** ** Force rows (C1) *)

Lemma append_assoc (a b c : string) : (a +:+ b) +:+ c = a +:+ (b +:+ c).
Proof. induction a as [|x a IH]; cbn; [reflexivity | f_equal; exact IH]. Qed.

Lemma append_nil_r (a : string) : a +:+ "" = a.
Proof. induction a as [|x a IH]; cbn; [reflexivity | f_equal; exact IH]. Qed.

Lemma append_length (a b : string) :
  String.length (a +:+ b) = (String.length a + String.length b)%nat.
Proof. induction a as [|x a IH]; cbn; [reflexivity | f_equal; exact IH]. Qed.

Lemma upto_app (a b : string) : PyStr.upto (String.length a) (a +:+ b) = a.
Proof. induction a as [|x a IH]; cbn; [now destruct b | f_equal; exact IH]. Qed.

Lemma from_app (a b : string) : PyStr.from (String.length a) (a +:+ b) = b.
Proof. induction a as [|x a IH]; simpl; [reflexivity | exact IH]. Qed.

Lemma between_app (a b c : string) :
  PyStr.between (String.length a) (String.length a + String.length b)
    (a +:+ b +:+ c) = b.
Proof.
  unfold PyStr.between. rewrite from_app.
  replace (String.length a + String.length b - String.length a)%nat
    with (String.length b) by lia.
  apply upto_app.
Qed.

Lemma is_empty_app_token cur c : PyStr.is_empty (cur +:+ String c "") = false.
Proof. now destruct cur. Qed.

(** Reading a token. *)
Lemma split_go_token (t r cur : string) :
  all_chars (fun c => negb (PyStr.isspace c)) t = true ->
  PyStr.split_go (t +:+ r) cur = PyStr.split_go r (cur +:+ t).
Proof.
  revert cur. induction t as [|c t IH]; intros cur Ht; simpl in *.
  - now rewrite append_nil_r.
  - apply andb_true_iff in Ht as [Hc Ht].
    apply negb_true_iff in Hc. rewrite Hc, IH by assumption.
    now rewrite append_assoc.
Qed.

(** Skipping a blank with no token pending. *)
Lemma split_go_blank (w r : string) :
  blank w = true -> PyStr.split_go (w +:+ r) "" = PyStr.split_go r "".
Proof.
  induction w as [|c w IH]; intros Hw; simpl in *; [reflexivity|].
  apply andb_true_iff in Hw as [Hc Hw]. now rewrite Hc, IH.
Qed.

(** A gap closes the pending token. *)
Lemma split_go_gap (w r cur : string) :
  gap w = true -> PyStr.is_empty cur = false ->
  PyStr.split_go (w +:+ r) cur = cur :: PyStr.split_go r "".
Proof.
  unfold gap. destruct w as [|c w]; simpl; [discriminate|].
  intros Hw Hcur. apply andb_true_iff in Hw as [Hc Hw].
  rewrite Hc, Hcur. f_equal. now apply split_go_blank.
Qed.

Lemma split_go_tail (tail cur : string) :
  blank tail = true -> PyStr.is_empty cur = false ->
  PyStr.split_go tail cur = [cur].
Proof.
  destruct tail as [|c w]; simpl; intros Hw Hcur; [now rewrite Hcur|].
  apply andb_true_iff in Hw as [Hc Hw].
  rewrite Hc, Hcur. f_equal.
  rewrite <- (append_nil_r w). now rewrite split_go_blank.
Qed.

Lemma token_parts t :
  token t = true ->
  PyStr.is_empty t = false /\ all_chars (fun c => negb (PyStr.isspace c)) t = true.
Proof.
  unfold token. intros Ht. apply andb_true_iff in Ht as [He Ht].
  now apply negb_true_iff in He.
Qed.

Lemma split_go_layout (cells : list (string * string)) (tail cur : string) :
  spaced cells = true -> blank tail = true -> PyStr.is_empty cur = false ->
  PyStr.split_go (layout cells tail) cur = cur :: map snd cells.
Proof.
  revert cur. induction cells as [|[w t] cells IH]; intros cur Hs Ht Hc; simpl in *.
  - now apply split_go_tail.
  - apply andb_true_iff in Hs as [Hs Hcells]. apply andb_true_iff in Hs as [Hw Htok].
    apply token_parts in Htok as [Hne Hall].
    rewrite split_go_gap by assumption. f_equal.
    rewrite split_go_token by assumption. simpl.
    now apply IH.
Qed.

Lemma split_row (indent c1 : string) cells tail :
  blank indent = true -> token c1 = true -> spaced cells = true ->
  blank tail = true ->
  PyStr.split (indent +:+ c1 +:+ layout cells tail) = c1 :: map snd cells.
Proof.
  intros Hi Hc Hs Ht. unfold PyStr.split.
  apply token_parts in Hc as [Hne Hall].
  rewrite split_go_blank, split_go_token by assumption. simpl.
  now apply split_go_layout.
Qed.

Lemma spaced_app a b : spaced (a ++ b) = spaced a && spaced b.
Proof.
  induction a as [|[w t] a IH]; simpl; [reflexivity|].
  rewrite IH. now rewrite andb_assoc.
Qed.

Lemma minus_positions_none s i :
  all_chars (fun c => negb (Ascii.eqb c "-")) s = true ->
  minus_positions s i = [].
Proof.
  revert i. induction s as [|c s IH]; intros i Hs; simpl in *; [reflexivity|].
  apply andb_true_iff in Hs as [Hc Hs]. apply negb_true_iff in Hc.
  rewrite Hc. now apply IH.
Qed.

Lemma minus_positions_app a b i :
  minus_positions (a +:+ b) i =
  minus_positions a i ++ minus_positions b (i + String.length a).
Proof.
  revert i. induction a as [|c a IH]; intros i; simpl.
  - now rewrite Nat.add_0_r.
  - rewrite IH. replace (S i + String.length a)%nat
      with (i + S (String.length a))%nat by lia.
    now destruct (Ascii.eqb c "-").
Qed.

(** The shape of a numeric field. *)
Lemma numeric_field_inv f :
  numeric_field f = true ->
  exists c t, f = String c t /\ token f = true
    /\ all_chars (fun c => negb (Ascii.eqb c "-")) t = true.
Proof.
  unfold numeric_field. intros Hf. apply andb_true_iff in Hf as [Ht Hm].
  destruct f as [|c t]; [discriminate|]. now exists c, t.
Qed.

Lemma negative_field_inv f :
  numeric_field f = true -> negative f = true ->
  exists t, f = String "-" t
    /\ all_chars (fun c => negb (Ascii.eqb c "-")) t = true.
Proof.
  intros Hf Hn. apply numeric_field_inv in Hf as (c & t & -> & _ & Ht).
  unfold negative in Hn. cbn [PyStr.startswith] in Hn.
  apply andb_true_iff in Hn as [Hn _]. apply Ascii.eqb_eq in Hn. subst c.
  now exists t.
Qed.

Lemma min_index_field f : numeric_field f = true -> min_index f = [].
Proof.
  intros Hf. apply numeric_field_inv in Hf as (c & t & -> & _ & Ht).
  unfold min_index. simpl. now apply minus_positions_none.
Qed.

Lemma min_index_merged2 a b :
  numeric_field a = true -> numeric_field b = true -> negative b = true ->
  min_index (a +:+ b) = [String.length a].
Proof.
  intros Ha Hb Hn.
  apply numeric_field_inv in Ha as (c & t & -> & _ & Ht).
  apply negative_field_inv in Hb as (u & -> & Hu); [|assumption].
  unfold min_index. simpl. rewrite minus_positions_app.
  rewrite (minus_positions_none t) by assumption. simpl.
  now rewrite minus_positions_none.
Qed.

Lemma min_index_merged3 a b c :
  numeric_field a = true -> numeric_field b = true -> negative b = true ->
  numeric_field c = true -> negative c = true ->
  min_index (a +:+ b +:+ c) =
  [String.length a; (String.length a + String.length b)%nat].
Proof.
  intros Ha Hb Hnb Hc Hnc.
  apply numeric_field_inv in Ha as (x & t & -> & _ & Ht).
  apply negative_field_inv in Hb as (u & -> & Hu); [|assumption].
  apply negative_field_inv in Hc as (v & -> & Hv); [|assumption].
  unfold min_index. simpl. rewrite minus_positions_app.
  rewrite (minus_positions_none t) by assumption. simpl.
  rewrite minus_positions_app.
  rewrite (minus_positions_none u) by assumption. simpl.
  rewrite minus_positions_none by assumption.
  do 2 f_equal. lia.
Qed.

Lemma token_app a b : token a = true -> token b = true -> token (a +:+ b) = true.
Proof.
  unfold token. intros Ha Hb.
  apply andb_true_iff in Ha as [Ea Ha]. apply andb_true_iff in Hb as [Eb Hb].
  destruct a as [|x a]; [discriminate|]. simpl in *.
  apply andb_true_iff in Ha as [Hx Ha]. rewrite Hx. simpl.
  clear Hx Ea. induction a as [|y a IH]; simpl in *; [assumption|].
  apply andb_true_iff in Ha as [Hy Ha]. rewrite Hy. now apply IH.
Qed.

Lemma numeric_field_token f : numeric_field f = true -> token f = true.
Proof. unfold numeric_field. intros Hf. now apply andb_true_iff in Hf as [? _]. Qed.

(** The tokens of a rendered row. *)
Lemma split_render r m12 m23 :
  well_formed r m12 m23 = true ->
  PyStr.split (render r m12 m23) =
  [col_no r; col_label r; col_tag r]
  ++ map snd (field_cells (gap1 r) (gap2 r) (gap3 r) (f1 r) (f2 r) (f3 r) m12 m23)
  ++ map snd (more r).
Proof.
  unfold well_formed, render. intros H.
  repeat (apply andb_true_iff in H as [H ?]).
  pose proof (numeric_field_token _ H6) as T1.
  pose proof (numeric_field_token _ H5) as T2.
  pose proof (numeric_field_token _ H4) as T3.
  rewrite split_row; try assumption.
  - rewrite !map_app. reflexivity.
  - rewrite !spaced_app, H10, H1.
    destruct m12, m23; cbn [field_cells spaced];
      rewrite ?H9, ?H8, ?H7, ?T1, ?T2, ?T3, ?token_app;
      auto using token_app.
Qed.

Lemma well_formed_presplit r m12 m23 :
  well_formed r m12 m23 = true -> well_formed r false false = true.
Proof.
  unfold well_formed. intros H.
  repeat (apply andb_true_iff in H as [H ?]).
  rewrite H, H11, H10, H9, H8, H7, H6, H5, H4, H1, H0. reflexivity.
Qed.

Lemma from_app2 (a b c : string) :
  PyStr.from (String.length a + String.length b) (a +:+ b +:+ c) = c.
Proof. now rewrite <- append_length, <- append_assoc, from_app. Qed.

Lemma repair_presplit a b c :
  numeric_field a = true -> numeric_field b = true ->
  repair (a, b, c) = (a, b, c).
Proof.
  intros Ha Hb. unfold repair, repair_second.
  now rewrite (min_index_field a), (min_index_field b).
Qed.

Lemma repair_merged12 a b c x :
  numeric_field a = true -> numeric_field b = true -> negative b = true ->
  repair (a +:+ b, c, x) = (a, b, c).
Proof.
  intros Ha Hb Hn. unfold repair, repair_second.
  rewrite (min_index_merged2 a b) by assumption.
  rewrite upto_app, from_app. now rewrite (min_index_field b).
Qed.

Lemma repair_merged23 a b c x :
  numeric_field a = true -> numeric_field b = true ->
  numeric_field c = true -> negative c = true ->
  repair (a, b +:+ c, x) = (a, b, c).
Proof.
  intros Ha Hb Hc Hn. unfold repair, repair_second.
  rewrite (min_index_field a) by assumption.
  rewrite (min_index_merged2 b c) by assumption.
  now rewrite upto_app, from_app.
Qed.

Lemma repair_merged123 a b c x y :
  numeric_field a = true -> numeric_field b = true -> negative b = true ->
  numeric_field c = true -> negative c = true ->
  repair (a +:+ b +:+ c, x, y) = (a, b, c).
Proof.
  intros Ha Hb Hnb Hc Hnc. unfold repair.
  rewrite (min_index_merged3 a b c) by assumption.
  now rewrite upto_app, between_app, from_app2.
Qed.

Lemma force_fields_render r m12 m23 :
  well_formed r m12 m23 = true ->
  force_fields (render r m12 m23) = (f1 r, f2 r, f3 r).
Proof.
  intros Hwf. unfold force_fields. rewrite split_render by assumption.
  unfold well_formed in Hwf.
  repeat (apply andb_true_iff in Hwf as [Hwf ?]).
  unfold slice. cbn [app skipn Nat.sub].
  destruct m12, m23; cbn [field_cells map snd app firstn implb] in *.
  - destruct (map snd (more r)) as [|x [|y l]]; cbn [firstn pad3];
      now apply repair_merged123.
  - destruct (map snd (more r)) as [|x l]; cbn [firstn pad3];
      now apply repair_merged12.
  - destruct (map snd (more r)) as [|x l]; cbn [firstn pad3];
      now apply repair_merged23.
  - cbn [pad3]. now apply repair_presplit.
Qed.

(** C1: a force row whose negative-signed columns ran into the column
    before them is repaired into its three numeric fields, and gives
    the same force vector as the row with every column separated. *)
Theorem merged_force_row_parses_as_presplit (r : force_columns) (m12 m23 : bool) :
  well_formed r m12 m23 = true ->
  force_fields (render r m12 m23) = (f1 r, f2 r, f3 r)
  /\ force_row (render r m12 m23) =
     res_map force_component [f1 r; f2 r; f3 r]
  /\ force_row (render r m12 m23) = force_row (render r false false).
Proof.
  intros Hwf.
  pose proof (force_fields_render r m12 m23 Hwf) as Hm.
  pose proof (force_fields_render r false false
                (well_formed_presplit r m12 m23 Hwf)) as Hs.
  unfold force_row. rewrite Hm, Hs. auto.
Qed.

(** The same for a whole force table: rows that are not separator
    lines, read up to the separator that ends the table. *)
Lemma force_table_merged_rows
    (rows : list (force_columns * bool * bool)) (rest : list string) :
  Forall (fun '(r, m12, m23) =>
            well_formed r m12 m23 = true
            /\ found (render r m12 m23) separator = false
            /\ found (render r false false) separator = false) rows ->
  force_table (map (fun '(r, m12, m23) => render r m12 m23) rows ++ rest)
  = force_table (map (fun '(r, _, _) => render r false false) rows ++ rest).
Proof.
  induction 1 as [|[[r m12] m23] rows (Hwf & Hm & Hs) _ IH]; [reflexivity|].
  cbn [map app force_table]. rewrite Hm, Hs, IH.
  unfold force_row.
  rewrite (force_fields_render r m12 m23 Hwf).
  now rewrite (force_fields_render r false false
                 (well_formed_presplit r m12 m23 Hwf)).
Qed.

(** ** The energy marker (C2, C10) *)

Section EnergyMarker.

Context `{Collaborators}.

Lemma energy_marker_choice (self : GULP) (np : bool) :
  nonprimitive_symmetry self = Ok np ->
  energy_marker self =
  Ok (if np then NonPrimitiveCell
      else match pstress self with
           | Some p => if PyFloat.eqb p PyFloat.zero then LatticeEnergy
                       else LatticeEnthalpy
           | None => LatticeEnergy
           end).
Proof.
  intros Hnp. unfold energy_marker. rewrite Hnp. simpl.
  destruct np; [reflexivity|].
  destruct (pstress self) as [p|]; [|reflexivity].
  now destruct (PyFloat.eqb p PyFloat.zero).
Qed.

(** The setters used by the scanner leave the energy alone. *)
Lemma scan_line_energy_branch ltype lines i line st mk g1 v q :
  energy_marker (obj st) = Ok mk ->
  classify mk line = SEnergy g1 ->
  PyFloat.of_string g1 = Ok v ->
  PyFloat.truediv_int v (Z.of_nat (length (frac_coords (obj st)))) = Ok q ->
  scan_line ltype lines i line st =
  continue (with_obj (set_energy_per_atom (Some q))
              (with_obj (set_energy (Some v)) st)).
Proof.
  intros Hmk Hc Hv Hq. unfold scan_line.
  rewrite Hmk. cbn [attempt]. rewrite Hc, Hv. cbn [attempt].
  rewrite Hq. reflexivity.
Qed.

Lemma scan_line_other_branch ltype lines i line st mk :
  energy_marker (obj st) = Ok mk ->
  PyStr.match_energy (marker_name mk) line = None ->
  energy (obj (fst (scan_line ltype lines i line st))) = energy (obj st)
  /\ energy_per_atom (obj (fst (scan_line ltype lines i line st)))
     = energy_per_atom (obj st).
Proof.
  intros Hmk Hm. unfold scan_line, classify.
  rewrite Hmk. cbn [attempt]. rewrite Hm.
  repeat match goal with
         | |- context [if ?b then _ else _] => destruct b
         | |- context [attempt ?r _ _] => destruct r; cbn [attempt raised continue]
         | |- context [match pyxtal ?s with _ => _ end] => destruct (pyxtal s)
         | |- context [let '(_, _) := ?x in _] => destruct x
         end; cbn; auto.
Qed.

(** C2 (amended): the pattern tried on the lines of a run is fixed by
    the configuration: the non-primitive-cell marker when symmetry is
    imposed and the space-group symbol does not start with [P], else
    the enthalpy marker when a pressure is configured and is not zero,
    else the plain lattice-energy marker. On a line that matches it
    the captured number becomes the energy and the per-atom energy is
    that number divided by the number of atoms; a line that does not
    match it leaves both alone. *)
Theorem energy_marker_follows_configuration
    (self : GULP) (np : bool) (mk : marker) :
  nonprimitive_symmetry self = Ok np ->
  mk = (if np then NonPrimitiveCell
        else match pstress self with
             | Some p => if PyFloat.eqb p PyFloat.zero then LatticeEnergy
                         else LatticeEnthalpy
             | None => LatticeEnergy
             end) ->
  energy_marker self = Ok mk
  /\ (forall ltype lines i line st g1 v q,
        obj st = self ->
        PyStr.match_energy (marker_name mk) line = Some g1 ->
        PyFloat.of_string g1 = Ok v ->
        PyFloat.truediv_int v (Z.of_nat (length (frac_coords self))) = Ok q ->
        q = PyFloat.div v
              (PyFloat.of_Z (Z.of_nat (length (frac_coords self))))
        /\ exists st',
             scan_line ltype lines i line st = continue st'
             /\ energy (obj st') = Some v
             /\ energy_per_atom (obj st') = Some q)
  /\ (forall ltype lines i line st,
        obj st = self ->
        PyStr.match_energy (marker_name mk) line = None ->
        energy (obj (fst (scan_line ltype lines i line st))) = energy self
        /\ energy_per_atom (obj (fst (scan_line ltype lines i line st)))
           = energy_per_atom self).
Proof.
  intros Hnp ->. pose proof (energy_marker_choice self np Hnp) as Hmk.
  split; [exact Hmk|]. split.
  - intros ltype lines i line st g1 v q <- Hm Hv Hq. split.
    + unfold PyFloat.truediv_int, PyFloat.of_int in Hq.
      destruct (PyFloat.isinf _); [discriminate|]. cbn [res_bind] in Hq.
      unfold PyFloat.truediv in Hq.
      destruct (PyFloat.is_zero _); [discriminate|]. now inversion Hq.
    + eexists. split.
      * eapply scan_line_energy_branch; eauto.
        unfold classify. now rewrite Hm.
      * destruct st as [o lp lv]. destruct o. split; reflexivity.
  - intros ltype lines i line st <- Hm.
    eapply scan_line_other_branch; eassumption.
Qed.

End EnergyMarker.

(** ** After the scan (C3, C4) *)

Section AfterScan.

Context `{Collaborators}.

Ltac cases :=
  repeat split; intros;
  repeat match goal with
         | H : _ \/ _ |- _ => destruct H
         | H : exists _, _ |- _ => destruct H
         | H : _ /\ _ |- _ => destruct H
         end; try congruence; auto.

(** What [check_energy] returns. *)
Lemma check_energy_spec (self : GULP) :
  exists r,
    check_energy self = Ok r
    /\ lattice r = lattice self
    /\ (energy self = None
        \/ (exists v, energy self = Some v /\ PyFloat.isnan v = true) ->
        error r = true /\ energy r = None)
    /\ (forall v, energy self = Some v -> PyFloat.isnan v = false -> r = self)
    /\ (error self = true -> error r = true).
Proof.
  unfold check_energy. destruct (energy self) as [v|] eqn:He; cbn;
    [destruct (PyFloat.isnan v) eqn:Hn|];
    eexists; (split; [reflexivity|]); destruct self; cbn in *; cases.
Qed.

Lemma sync_pyxtal_fields (self : GULP) :
  lattice (sync_pyxtal self) = lattice self
  /\ energy (sync_pyxtal self) = energy self
  /\ error (sync_pyxtal self) = error self.
Proof.
  unfold sync_pyxtal. destruct (pyxtal self); destruct self; cbn; auto.
Qed.

Lemma resolve_lattice_spec (lp lv : option Lattice.t) (self : GULP) :
  let r := resolve_lattice lp lv self in
  (lp = None -> lv = None -> error r = true /\ energy r = None)
  /\ (forall l, lp = Some l \/ (lp = None /\ lv = Some l) ->
        lattice r = l /\ energy r = energy self /\ error r = error self)
  /\ (energy self = None -> energy r = None)
  /\ (error self = true -> error r = true).
Proof.
  unfold resolve_lattice.
  destruct lp as [l1|], lv as [l2|]; destruct self; cbn; cases.
Qed.

Lemma on_exception_spec (e : option exn) (self : GULP) :
  (e <> None -> error (on_exception e self) = true
                /\ energy (on_exception e self) = None)
  /\ (e = None -> on_exception e self = self).
Proof.
  destruct e; destruct self; cbn; cases.
Qed.

(** What [read_lines] makes of the state the scan ended in. *)
Lemma read_lines_after_scan
    (self : GULP) (lines : list string) (st : scan) (e : option exn) :
  scan_lines (run_ltype self) lines self = (st, e) ->
  exists r,
    read_lines self lines = Ok r
    /\ (e <> None -> error r = true /\ energy r = None)
    /\ (lattice_para st = None /\ lattice_vector st = None ->
        error r = true /\ energy r = None)
    /\ (energy (obj st) = None
        \/ (exists v, energy (obj st) = Some v /\ PyFloat.isnan v = true) ->
        error r = true /\ energy r = None)
    /\ (forall l,
          lattice_para st = Some l
          \/ (lattice_para st = None /\ lattice_vector st = Some l) ->
          lattice r = l)
    /\ (forall l v,
          e = None ->
          lattice_para st = Some l
          \/ (lattice_para st = None /\ lattice_vector st = Some l) ->
          energy (obj st) = Some v -> PyFloat.isnan v = false ->
          energy r = Some v /\ error r = error (obj st)).
Proof.
  intros Hscan. unfold read_lines. rewrite Hscan.
  set (s1 := on_exception e (obj st)).
  set (s2 := resolve_lattice (lattice_para st) (lattice_vector st) s1).
  destruct (check_energy_spec (sync_pyxtal s2))
    as (r & Hr & Hlat & Hbad & Hgood & Herr).
  destruct (sync_pyxtal_fields s2) as (Sl & Se & Sx).
  destruct (resolve_lattice_spec (lattice_para st) (lattice_vector st) s1)
    as (Rnone & Rsome & Ren & Rerr). fold s2 in Rnone, Rsome, Ren, Rerr.
  destruct (on_exception_spec e (obj st)) as (Xs & Xn). fold s1 in Xs, Xn.
  rewrite Se in Hbad, Hgood.
  exists r. split; [exact Hr|].
  assert (Hen : energy (obj st) = None -> energy s2 = None).
  { intros En. apply Ren. destruct e as [x|].
    - now apply Xs.
    - now rewrite Xn. }
  split; [|split; [|split; [|split]]].
  - intros He. apply Hbad. left. apply Ren. now apply Xs.
  - intros [Hp Hv]. apply Hbad. left. now apply Rnone.
  - intros [En|(v & Ev & Nv)]; [apply Hbad; left; auto|].
    destruct e as [x|].
    { apply Hbad. left. apply Ren. now apply Xs. }
    rewrite Xn in * by reflexivity.
    destruct (lattice_para st) as [l|] eqn:Lp;
      [|destruct (lattice_vector st) as [l|] eqn:Lv].
    + apply Hbad. right. exists v.
      destruct (Rsome l (or_introl eq_refl)) as (_ & E & _).
      split; congruence.
    + apply Hbad. right. exists v.
      destruct (Rsome l (or_intror (conj eq_refl eq_refl))) as (_ & E & _).
      split; congruence.
    + apply Hbad. left. now apply Rnone.
  - intros l Hl. rewrite Hlat, Sl. now apply Rsome.
  - intros l v -> Hl Ev Nv. destruct (Rsome l Hl) as (_ & E & X).
    rewrite Xn in * by reflexivity.
    assert (r = sync_pyxtal s2) as -> by (apply (Hgood v); congruence).
    rewrite Se, Sx. split; congruence.
Qed.

(** C3 (amended): after the scan, when neither the Cartesian vectors
    nor the non-primitive parameters gave a lattice, or when the energy
    is absent or is NaN, the result is errored and its energy unset,
    whatever else was read; a lattice that was found replaces the
    working lattice, the non-primitive one first. An energy that is a
    number, be it infinite, is kept when a lattice was found and the
    scan raised nothing. *)
Theorem read_flags_missing_lattice_or_energy
    (self : GULP) (lines : list string) (st : scan) (e : option exn) :
  scan_lines (run_ltype self) lines self = (st, e) ->
  exists r,
    read_lines self lines = Ok r
    /\ (lattice_para st = None /\ lattice_vector st = None ->
        error r = true /\ energy r = None)
    /\ (energy (obj st) = None
        \/ (exists v, energy (obj st) = Some v /\ PyFloat.isnan v = true) ->
        error r = true /\ energy r = None)
    /\ (forall l,
          lattice_para st = Some l
          \/ (lattice_para st = None /\ lattice_vector st = Some l) ->
          lattice r = l)
    /\ (forall l v,
          e = None ->
          lattice_para st = Some l
          \/ (lattice_para st = None /\ lattice_vector st = Some l) ->
          energy (obj st) = Some v -> PyFloat.isnan v = false ->
          energy r = Some v /\ error r = error (obj st)).
Proof.
  intros Hscan.
  destruct (read_lines_after_scan self lines st e Hscan)
    as (r & Hr & _ & Hlat & Hen & Hrep & Hkeep).
  exists r. auto.
Qed.

(** C4: an exception raised while the lines are scanned does not leave
    [read]: the result is returned, marked errored, with the energy
    unset. *)
Theorem scan_exception_is_caught
    (self : GULP) (fs : filesystem) (content : string) :
  fs !! output self = Some content ->
  exists r,
    read self fs = Ok r
    /\ (forall st x,
          scan_lines (run_ltype self) (readlines content) self = (st, Some x) ->
          error r = true /\ energy r = None).
Proof.
  intros Hfile. unfold read. rewrite Hfile.
  destruct (scan_lines (run_ltype self) (readlines content) self)
    as [st e] eqn:Hscan.
  destruct (read_lines_after_scan self _ st e Hscan) as (r & Hr & Hexn & _).
  exists r. split; [exact Hr|].
  intros st' x Heq. inversion Heq; subst. now apply Hexn.
Qed.

End AfterScan.

(** ** The lattice kept by [read] (C5) *)

Section LatticePriority.

Context `{Collaborators}.

(** No branch of the scanner touches what the choice of the energy
    pattern looks at. *)
Lemma scan_line_keeps_marker ltype lines i line st :
  energy_marker (obj (fst (scan_line ltype lines i line st)))
  = energy_marker (obj st).
Proof.
  unfold scan_line. destruct (energy_marker (obj st)) as [mk|x] eqn:Hmk;
    cbn [attempt raised fst]; [|exact Hmk].
  rewrite <- Hmk. clear Hmk.
  destruct (classify mk line);
    repeat match goal with
           | |- context [attempt ?r _ _] =>
               destruct r; cbn [attempt raised continue fst]
           | |- context [match pyxtal ?s with _ => _ end] =>
               let E := fresh "E" in destruct (pyxtal s) eqn:E
           | |- context [let '(_, _) := ?x in _] => destruct x
           end;
    cbn [fst continue raised obj with_obj set_lattice_vector set_lattice_para];
    try reflexivity;
    generalize dependent (obj st); intros g; destruct g; intros;
    cbn in *; subst; reflexivity.
Qed.

(** Only the non-primitive branch assigns [lattice_para]. *)
Lemma scan_line_lattice_para ltype lines i line st st' mk :
  energy_marker (obj st) = Ok mk ->
  scan_line ltype lines i line st = (st', None) ->
  match classify mk line with
  | SNonPrimitive =>
      exists l, read_nonprimitive lines i ltype = Ok l
                /\ lattice_para st' = Some l
  | _ => lattice_para st' = lattice_para st
  end.
Proof.
  intros Hmk. unfold scan_line. rewrite Hmk. cbn [attempt].
  destruct (classify mk line);
    repeat match goal with
           | |- context [attempt ?r _ _] =>
               destruct r; cbn [attempt raised continue]
           | |- context [match pyxtal ?s with _ => _ end] =>
               destruct (pyxtal s)
           | |- context [let '(_, _) := ?x in _] => destruct x
           end;
    intros Heq; inversion Heq; subst; try reflexivity.
  eexists. split; reflexivity.
Qed.

Lemma read_nonprimitive_from_para lines i ltype l :
  read_nonprimitive lines i ltype = Ok l ->
  exists a b c alpha beta gamma, l = from_para a b c alpha beta gamma ltype.
Proof.
  unfold read_nonprimitive.
  repeat match goal with
         | |- context [res_bind ?r _] => destruct r; cbn [res_bind]
         end; intros Heq; inversion Heq.
  now repeat eexists.
Qed.

(** The scan from line [i] on: either no non-primitive header was met
    and [lattice_para] is as before, or it holds the lattice of a
    header that was met. *)
Lemma scan_from_lattice_para ltype lines mk :
  forall rest i st st',
    (forall k, nth_error rest k = nth_error lines (i + k)) ->
    energy_marker (obj st) = Ok mk ->
    scan_from ltype lines i rest st = (st', None) ->
    (lattice_para st' = lattice_para st
     /\ forall k line, nth_error rest k = Some line ->
                       classify mk line <> SNonPrimitive)
    \/ (exists j line l,
          nth_error lines j = Some line
          /\ classify mk line = SNonPrimitive
          /\ read_nonprimitive lines j ltype = Ok l
          /\ lattice_para st' = Some l).
Proof.
  induction rest as [|line rest IH]; intros i st st' Hnth Hmk Hscan.
  - cbn in Hscan. inversion Hscan; subst. left. split; [reflexivity|].
    intros [|k] line Hk; discriminate.
  - cbn [scan_from] in Hscan.
    destruct (scan_line ltype lines i line st) as [st1 [x|]] eqn:Hline;
      [discriminate|].
    assert (Hmk1 : energy_marker (obj st1) = Ok mk).
    { rewrite <- Hmk. pose proof (scan_line_keeps_marker ltype lines i line st) as K.
      now rewrite Hline in K. }
    assert (Hnth1 : forall k, nth_error rest k = nth_error lines (S i + k)).
    { intros k. specialize (Hnth (S k)). cbn in Hnth.
      rewrite Hnth. f_equal. lia. }
    destruct (IH (S i) st1 st' Hnth1 Hmk1 Hscan)
      as [[Hsame Hnone]|Hfound]; [|now right].
    pose proof (scan_line_lattice_para ltype lines i line st st1 mk Hmk Hline) as Hp.
    destruct (classify mk line) eqn:Hc;
      try (left; split; [congruence|];
           intros [|k] l Hk; cbn in Hk;
           [inversion Hk; subst; congruence | now apply (Hnone k)]).
    right. destruct Hp as (l & Hl & Hlp).
    exists i, line, l. repeat split; try assumption.
    + specialize (Hnth O). cbn in Hnth. rewrite Nat.add_0_r in Hnth. now symmetry.
    + congruence.
Qed.

(** A report scanned without an exception that has a
    "Non-primitive lattice parameters" header: the lattice kept is the
    one built from the parameters under such a header. *)
Lemma nonprimitive_header_is_read
    (self : GULP) (lines : list string) (st : scan) (mk : marker)
    (i : nat) (header : string) :
  scan_lines (run_ltype self) lines self = (st, None) ->
  energy_marker self = Ok mk ->
  nth_error lines i = Some header ->
  classify mk header = SNonPrimitive ->
  exists r j line a b c alpha beta gamma,
    read_lines self lines = Ok r
    /\ nth_error lines j = Some line
    /\ classify mk line = SNonPrimitive
    /\ read_nonprimitive lines j (run_ltype self)
       = Ok (from_para a b c alpha beta gamma (run_ltype self))
    /\ lattice_para st = Some (lattice r)
    /\ lattice r = from_para a b c alpha beta gamma (run_ltype self).
Proof.
  intros Hscan Hmk Hi Hc.
  destruct (read_lines_after_scan self lines st None Hscan)
    as (r & Hr & _ & _ & _ & Hrep & _).
  unfold scan_lines in Hscan.
  destruct (scan_from_lattice_para (run_ltype self) lines mk lines 0
              {| obj := self; lattice_para := None; lattice_vector := None |}
              st (fun k => eq_refl) Hmk Hscan)
    as [[_ Hnone]|(j & line & l & Hj & Hcj & Hl & Hlp)].
  - exfalso. now apply (Hnone i header).
  - destruct (read_nonprimitive_from_para _ _ _ _ Hl)
      as (a & b & c & al & be & ga & ->).
    exists r, j, line, a, b, c, al, be, ga.
    rewrite (Hrep _ (or_introl Hlp)). repeat split; assumption.
Qed.

(** A line either leaves [lattice_para] alone, or it is a non-primitive
    header whose parameters were read into it. *)
Lemma scan_line_lattice_para_origin ltype lines i line st st' e :
  scan_line ltype lines i line st = (st', e) ->
  lattice_para st' = lattice_para st
  \/ (exists mk l,
        energy_marker (obj st) = Ok mk
        /\ classify mk line = SNonPrimitive
        /\ read_nonprimitive lines i ltype = Ok l
        /\ lattice_para st' = Some l).
Proof.
  unfold scan_line.
  destruct (energy_marker (obj st)) as [mk|x] eqn:Hmk; cbn [attempt raised].
  2: { intros Heq; inversion Heq; subst. now left. }
  destruct (classify mk line) eqn:Hc;
    repeat match goal with
           | |- context [attempt ?r _ _] =>
               let E := fresh "E" in
               destruct r eqn:E; cbn [attempt raised continue]
           | |- context [match pyxtal ?s with _ => _ end] =>
               destruct (pyxtal s)
           | |- context [let '(_, _) := ?x in _] => destruct x
           end;
    intros Heq; inversion Heq; subst; try (left; reflexivity).
  right. exists mk. eexists. repeat split; eauto.
Qed.

Lemma scan_from_lattice_para_origin ltype lines :
  forall rest i st st' e mk,
    (forall k, nth_error rest k = nth_error lines (i + k)) ->
    energy_marker (obj st) = Ok mk ->
    scan_from ltype lines i rest st = (st', e) ->
    lattice_para st' = lattice_para st
    \/ (exists j line l,
          nth_error lines j = Some line
          /\ classify mk line = SNonPrimitive
          /\ read_nonprimitive lines j ltype = Ok l
          /\ lattice_para st' = Some l).
Proof.
  induction rest as [|line rest IH]; intros i st st' e mk Hnth Hmk Hscan.
  - cbn in Hscan. inversion Hscan; subst. now left.
  - cbn [scan_from] in Hscan.
    destruct (scan_line ltype lines i line st) as [st1 [x|]] eqn:Hline.
    + cbn in Hscan. inversion Hscan; subst.
      destruct (scan_line_lattice_para_origin _ _ _ _ _ _ _ Hline)
        as [Hsame|(mk' & l & Hmk' & Hc & Hl & Hlp)]; [now left|].
      right. exists i, line, l. repeat split; try assumption.
      * specialize (Hnth O). cbn in Hnth. rewrite Nat.add_0_r in Hnth. now symmetry.
      * congruence.
    + assert (Hmk1 : energy_marker (obj st1) = Ok mk).
      { rewrite <- Hmk.
        pose proof (scan_line_keeps_marker ltype lines i line st) as K.
        now rewrite Hline in K. }
      assert (Hnth1 : forall k, nth_error rest k = nth_error lines (S i + k)).
      { intros k. specialize (Hnth (S k)). cbn in Hnth.
        rewrite Hnth. f_equal. lia. }
      destruct (IH (S i) st1 st' e mk Hnth1 Hmk1 Hscan)
        as [Hsame|Hfound]; [|now right].
      destruct (scan_line_lattice_para_origin _ _ _ _ _ _ _ Hline)
        as [Hsame1|(mk' & l & Hmk' & Hc & Hl & Hlp)]; [left; congruence|].
      right. exists i, line, l. repeat split; try assumption.
      * specialize (Hnth O). cbn in Hnth. rewrite Nat.add_0_r in Hnth. now symmetry.
      * congruence.
      * congruence.
Qed.

(** A scan that assigned [lattice_para] had a pattern to try. *)
Lemma scan_lines_marker ltype lines self st e lp :
  scan_lines ltype lines self = (st, e) ->
  lattice_para st = Some lp ->
  exists mk, energy_marker self = Ok mk.
Proof.
  unfold scan_lines. intros Hscan Hlp.
  destruct (energy_marker self) as [mk|x] eqn:Hmk; [now exists mk|].
  exfalso. destruct lines as [|line rest]; cbn in Hscan.
  - inversion Hscan; subst. discriminate.
  - unfold scan_line in Hscan. cbn [obj] in Hscan. rewrite Hmk in Hscan.
    cbn in Hscan. inversion Hscan; subst. discriminate.
Qed.

(** C5: when the scan read a lattice from a "Non-primitive lattice
    parameters" block and one from a "Final Cartesian lattice vectors"
    block, the lattice kept by [read] is the former: the one built by
    [from_para] from the three lengths and three angles under a
    non-primitive header of the report. *)
Theorem nonprimitive_parameters_take_priority
    (self : GULP) (lines : list string) (st : scan) (e : option exn)
    (lp lv : Lattice.t) :
  scan_lines (run_ltype self) lines self = (st, e) ->
  lattice_para st = Some lp ->
  lattice_vector st = Some lv ->
  exists r mk j header a b c alpha beta gamma,
    read_lines self lines = Ok r
    /\ lattice r = lp
    /\ energy_marker self = Ok mk
    /\ nth_error lines j = Some header
    /\ classify mk header = SNonPrimitive
    /\ read_nonprimitive lines j (run_ltype self) = Ok lp
    /\ lp = from_para a b c alpha beta gamma (run_ltype self).
Proof.
  intros Hscan Hlp _.
  destruct (read_lines_after_scan self lines st e Hscan)
    as (r & Hr & _ & _ & _ & Hrep & _).
  destruct (scan_lines_marker _ _ _ _ _ _ Hscan Hlp) as [mk Hmk].
  unfold scan_lines in Hscan.
  destruct (scan_from_lattice_para_origin (run_ltype self) lines lines 0
              {| obj := self; lattice_para := None; lattice_vector := None |}
              st e mk (fun k => eq_refl) Hmk Hscan)
    as [Hsame|(j & line & l & Hj & Hcj & Hl & Hlp')].
  - cbn in Hsame. congruence.
  - assert (l = lp) as -> by congruence.
    destruct (read_nonprimitive_from_para _ _ _ _ Hl)
      as (a & b & c & al & be & ga & Hfrom).
    exists r, mk, j, line, a, b, c, al, be, ga.
    rewrite (Hrep _ (or_introl Hlp)). repeat split; assumption.
Qed.

End LatticePriority.


(** ** The multi-pass driver (C6, C7) *)

Section Driver.

Context `{Collaborators}.

(** [single_optimize] reports an error only through [failure]. *)
Lemma single_optimize_error struc ff steps pstress opt exe path label
    do_clean symmetry labels fs o fs' :
  single_optimize struc ff steps pstress opt exe path label do_clean
    symmetry labels fs = Ok (o, fs') ->
  out_error o = true -> o = failure.
Proof.
  unfold single_optimize.
  destruct (init _ _ _ _ _ _ _ _ _ _ _ _ _) as [calc|x]; cbn [res_bind];
    [|discriminate].
  destruct (run calc do_clean fs) as [[calc' fs1]|x]; cbn [res_bind];
    [|discriminate].
  destruct (error calc') eqn:Herr.
  - intros [= <- <-] _. reflexivity.
  - destruct (match pyxtal calc' with
              | Some p => Ok p
              | None => to_pyxtal calc'
              end) as [p|x]; cbn [res_bind]; [|discriminate].
    intros [= <- <-]. cbn. intros; congruence.
Qed.

Lemma pynum_add_zero_ok (t : pynum) : exists t', pynum_add t (PyInt 0) = Ok t'.
Proof. destruct t as [n|x]; cbn; eexists; reflexivity. Qed.

(** C7: when a pass reports an error, the driver returns the failure
    tuple at once: whatever passes remain, the passes run are those run
    before and this one, once. *)
Theorem pass_error_aborts_sequence
    (ff opt : string) (rest : list string) (exe : string)
    (pstress : option float) (path label : string) (do_clean adjust : bool)
    (st : loop_state) (o : outcome) (fs' : filesystem) :
  single_optimize (l_struc st) ff 1000 pstress opt exe path label do_clean
    false None (l_fs st) = Ok (o, fs') ->
  out_error o = true ->
  optimize_loop ff (opt :: rest) exe pstress path label do_clean adjust st
  = Ok {| r_struc := None; r_energy := None; r_time := PyInt 0;
          r_error := true; r_fs := fs';
          r_passes := l_passes st ++ [mk_pass (l_struc st) opt] |}.
Proof.
  intros Hpass Herr.
  pose proof (single_optimize_error _ _ _ _ _ _ _ _ _ _ _ _ _ _ Hpass Herr) as ->.
  cbn [optimize_loop]. rewrite Hpass. cbn [res_bind out_time failure].
  destruct (pynum_add_zero_ok (l_time st)) as [t ->]. reflexivity.
Qed.

(** Every pass the driver ran is a pass of the sequence, in order and
    once; when no error is reported all of them ran. *)
Lemma optimize_loop_passes ff exe pstress path label do_clean adjust :
  forall optimizations st r,
    optimize_loop ff optimizations exe pstress path label do_clean adjust st
    = Ok r ->
    exists n,
      map pass_opt (r_passes r)
      = map pass_opt (l_passes st) ++ firstn n optimizations
      /\ (r_error r = false -> firstn n optimizations = optimizations)
      /\ (r_error r = true ->
          r_struc r = None /\ r_energy r = None /\ r_time r = PyInt 0).
Proof.
  induction optimizations as [|opt rest IH]; intros st r Hrun.
  - cbn in Hrun. destruct (l_energy st); [|discriminate].
    inversion Hrun; subst; cbn. exists O. cbn. rewrite app_nil_r.
    repeat split; congruence.
  - cbn [optimize_loop] in Hrun.
    destruct (single_optimize _ _ _ _ _ _ _ _ _ _ _ _) as [[o fs]|x];
      cbn [res_bind] in Hrun; [|discriminate].
    destruct (pynum_add _ _) as [t|x]; cbn [res_bind] in Hrun; [|discriminate].
    destruct (out_error o).
    + inversion Hrun; subst; cbn. exists 1%nat. cbn.
      rewrite map_app. repeat split; congruence.
    + destruct (if adjust then is_near_zero (out_energy o) else Ok false)
        as [small|x]; cbn [res_bind] in Hrun; [|discriminate].
      match type of Hrun with
      | res_bind ?s _ = _ => destruct s as [struc|x]
      end; cbn [res_bind] in Hrun; [|discriminate].
      destruct (IH _ _ Hrun) as (n & Hn & Hok & Hbad). cbn in Hn.
      exists (S n). cbn [firstn]. rewrite Hn, map_app, <- app_assoc.
      split; [reflexivity|]. split; [|exact Hbad].
      intros E. now rewrite (Hok E).
Qed.

(** The lattice after the shrink. *)
Lemma shrink_lattice_matrix (p : Pyxtal.t) :
  Lattice.matrix (Pyxtal.lattice (shrink_lattice p))
  = matrix_scale shrink (Lattice.matrix (Pyxtal.lattice p)).
Proof. reflexivity. Qed.

(** The calculator built on a [pyxtal] structure starts from its
    lattice matrix. *)
Lemma init_pyxtal_matrix p label path ff pstress opt steps exe input output
    dump symmetry labels calc :
  init (APyxtal p) label path ff pstress opt steps exe input output dump
    symmetry labels = Ok calc ->
  Lattice.matrix (lattice calc) = Lattice.matrix (Pyxtal.lattice p).
Proof. cbn. intros [= <-]. reflexivity. Qed.

(** C6: with [adjust] on, a pass that succeeds with an energy of
    magnitude below 1e-8 is not run again: the loop goes on to the
    remaining passes with the lattice matrix of the structure
    multiplied by 0.8, and the next calculator starts from that
    matrix. For the sequence conp, conp with an energy of 0.0 after
    the first pass, the passes run are exactly the two of the sequence
    and the second is given the first's lattice matrix times 0.8. *)
Theorem near_zero_energy_shrinks_lattice
    (ff opt : string) (rest : list string) (exe : string)
    (pstress : option float) (path label : string) (do_clean : bool)
    (st : loop_state) (o : outcome) (fs' : filesystem)
    (p : Pyxtal.t) (e : float) (t : pynum) :
  single_optimize (l_struc st) ff 1000 pstress opt exe path label do_clean
    false None (l_fs st) = Ok (o, fs') ->
  out_error o = false ->
  out_struc o = Some p ->
  out_energy o = Some e ->
  PyFloat.ltb (PyFloat.abs e) near_zero = true ->
  pynum_add (l_time st) (out_time o) = Ok t ->
  let next := {| l_struc := APyxtal (shrink_lattice p);
                 l_energy := Some (Some e);
                 l_time := t;
                 l_fs := fs';
                 l_passes := l_passes st ++ [mk_pass (l_struc st) opt] |} in
  optimize_loop ff (opt :: rest) exe pstress path label do_clean true st
  = optimize_loop ff rest exe pstress path label do_clean true next
  /\ Lattice.matrix (Pyxtal.lattice (shrink_lattice p))
     = matrix_scale shrink (Lattice.matrix (Pyxtal.lattice p))
  /\ (forall next_opt calc,
        init (APyxtal (shrink_lattice p)) label path ff pstress
          next_opt 1000 "gulp" "gulp.in" "gulp.log" None false None
        = Ok calc ->
        Lattice.matrix (lattice calc)
        = matrix_scale shrink (Lattice.matrix (Pyxtal.lattice p)))
  /\ (forall r,
        opt = "conp" -> rest = ["conp"] -> l_passes st = [] ->
        optimize_loop ff (opt :: rest) exe pstress path label do_clean true st
        = Ok r ->
        r_passes r = [mk_pass (l_struc st) "conp";
                      mk_pass (APyxtal (shrink_lattice p)) "conp"]).
Proof.
  intros Hpass Herr Hstruc Hen Hsmall Htime next. subst next.
  assert (Hstep :
    optimize_loop ff (opt :: rest) exe pstress path label do_clean true st
    = optimize_loop ff rest exe pstress path label do_clean true
        {| l_struc := APyxtal (shrink_lattice p);
           l_energy := Some (Some e);
           l_time := t;
           l_fs := fs';
           l_passes := l_passes st ++ [mk_pass (l_struc st) opt] |}).
  { cbn [optimize_loop]. rewrite Hpass. cbn [res_bind].
    rewrite Htime. cbn [res_bind]. rewrite Herr, Hen.
    cbn [is_near_zero res_bind]. rewrite Hsmall, Hstruc. reflexivity. }
  split; [exact Hstep|]. split; [reflexivity|]. split.
  - intros next_opt calc Hcalc. now rewrite (init_pyxtal_matrix _ _ _ _ _ _ _ _ _ _ _ _ _ _ Hcalc).
  - intros r -> -> Hfirst Hrun. rewrite Hstep in Hrun.
    cbn [optimize_loop l_struc l_fs l_time l_passes l_energy] in Hrun.
    repeat match type of Hrun with
           | res_bind ?s _ = _ =>
               destruct s as [?|?]; cbn [res_bind] in Hrun; [|discriminate]
           | (let (_, _) := ?s in _) = _ => destruct s
           | (if out_error ?o then _ else _) = _ => destruct (out_error o)
           end;
      inversion Hrun; subst; cbn; now rewrite Hfirst.
Qed.

End Driver.

(** ** The input writer and the cleanup (C8, C9, C10) *)

Section Writer.

Context `{Collaborators}.

Lemma wseq_fst_head (s : string) (a b : written) :
  (exists l, fst a = s :: l) -> exists l, fst (a >> b) = s :: l.
Proof.
  intros [l Hl]. destruct a as [ca [x|]]; cbn in *; subst; eauto.
Qed.

Lemma wseq_complete (a b : written) :
  snd (a >> b) = None ->
  snd a = None /\ snd b = None /\ fst (a >> b) = fst a ++ fst b.
Proof. destruct a as [ca [x|]]; cbn; [discriminate|auto]. Qed.

Lemma concat_cons (s : string) (l : list string) :
  PyStr.concat (s :: l) = s +:+ PyStr.concat l.
Proof. reflexivity. Qed.

(** The directive line of a single-point run. *)
Lemma write_single_head (self : GULP) :
  opt self = "single" ->
  exists l, fst (write_chunks self) = "grad conp stress " :: l.
Proof.
  intros Hopt. unfold write_chunks. apply wseq_fst_head.
  unfold write_mode. rewrite Hopt. cbn. eauto.
Qed.

(** The trailer of a single-point run. *)
Lemma write_single_trailer (self : GULP) :
  opt self = "single" ->
  forall chunk, In chunk (fst (write_trailer self)) ->
                PyStr.startswith "maxcycle" chunk = false.
Proof.
  intros Hopt chunk. unfold write_trailer. rewrite Hopt.
  destruct (pstress self), (dump self); cbn;
    intros Hin; repeat destruct Hin as [<-|Hin]; try reflexivity;
    destruct Hin.
Qed.

(** The pressure directive is written whenever a pressure is set. *)
Lemma write_trailer_pressure (self : GULP) (p : float) :
  pstress self = Some p ->
  In ("pressure " +:+ PyFloat.format_f 6 3 p +:+ nl) (fst (write_trailer self)).
Proof.
  intros Hp. unfold write_trailer. rewrite Hp.
  destruct (negb (String.eqb (opt self) "single")), (dump self); cbn; auto.
Qed.

Lemma write_chunks_trailer (self : GULP) (chunk : string) :
  snd (write_chunks self) = None ->
  In chunk (fst (write_trailer self)) -> In chunk (fst (write_chunks self)).
Proof.
  unfold write_chunks. intros Hdone Hin.
  apply wseq_complete in Hdone as (_ & Hdone & ->).
  apply wseq_complete in Hdone as (_ & Hdone & ->).
  apply wseq_complete in Hdone as (_ & Hdone & ->).
  apply wseq_complete in Hdone as (_ & Hdone & ->).
  rewrite !in_app_iff. auto.
Qed.

(** C10: with a pressure of exactly zero the writer still emits the
    pressure directive, while the parser does not use the enthalpy
    marker: it looks for the plain lattice-energy marker (when the
    non-primitive-cell marker, which comes first, does not apply). The
    enthalpy marker is used only with a pressure that is set and not
    zero. *)
Theorem zero_pressure_written_but_plain_marker (self : GULP) (p : float) :
  pstress self = Some p ->
  PyFloat.eqb p PyFloat.zero = true ->
  In ("pressure " +:+ PyFloat.format_f 6 3 p +:+ nl) (fst (write_trailer self))
  /\ (snd (write_chunks self) = None ->
      In ("pressure " +:+ PyFloat.format_f 6 3 p +:+ nl)
         (fst (write_chunks self)))
  /\ energy_marker self <> Ok LatticeEnthalpy
  /\ (nonprimitive_symmetry self = Ok false ->
      energy_marker self = Ok LatticeEnergy)
  /\ (forall other : GULP,
        energy_marker other = Ok LatticeEnthalpy ->
        exists q, pstress other = Some q /\ PyFloat.eqb q PyFloat.zero = false).
Proof.
  intros Hp Hz.
  pose proof (write_trailer_pressure self p Hp) as Hin.
  split; [exact Hin|]. split; [|split; [|split]].
  - intros Hdone. now apply write_chunks_trailer.
  - unfold energy_marker. rewrite Hp, Hz.
    destruct (nonprimitive_symmetry self) as [[|]|x]; cbn; discriminate.
  - intros Hnp. unfold energy_marker. now rewrite Hnp, Hp, Hz.
  - intros other. unfold energy_marker.
    destruct (nonprimitive_symmetry other) as [[|]|x]; cbn; try discriminate.
    destruct (pstress other) as [q|]; [|discriminate].
    destruct (PyFloat.eqb q PyFloat.zero) eqn:Hq; [discriminate|].
    intros _. now exists q.
Qed.

(** *** Cleanup *)

Lemma os_remove_present (path : string) (fs : filesystem) :
  is_Some (fs !! path) -> os_remove path fs = Ok (delete path fs).
Proof. intros [x Hx]. unfold os_remove. now rewrite Hx. Qed.

Lemma os_remove_absent (path : string) (fs : filesystem) :
  fs !! path = None -> os_remove path fs = Raise FileNotFoundError.
Proof. intros Hx. unfold os_remove. now rewrite Hx. Qed.

Lemma os_remove_gone (path : string) (fs fs' : filesystem) :
  os_remove path fs = Ok fs' -> fs' !! path = None.
Proof.
  unfold os_remove. destruct (fs !! path); [|discriminate].
  intros [= <-]. apply lookup_delete_eq.
Qed.

Lemma os_remove_keeps_absent (path other : string) (fs fs' : filesystem) :
  os_remove path fs = Ok fs' -> fs !! other = None -> fs' !! other = None.
Proof.
  unfold os_remove. destruct (fs !! path); [|discriminate].
  intros [= <-] Ho. rewrite lookup_delete. now destruct (decide _).
Qed.

(** C9 (amended): cleanup removes the input file, then the output
    file, then the dump file when one is configured. It succeeds when
    each is there at its turn; a file that is absent raises a
    missing-file error that reaches the caller, so a second cleanup
    after a successful one always fails. *)
Theorem clean_needs_every_file (self : GULP) (fs : filesystem) :
  (is_Some (fs !! input self) ->
   is_Some (delete (input self) fs !! output self) ->
   (forall d, dump self = Some d ->
      is_Some (delete (output self) (delete (input self) fs) !! d)) ->
   clean self fs =
   Ok (match dump self with
       | Some d => delete d (delete (output self) (delete (input self) fs))
       | None => delete (output self) (delete (input self) fs)
       end))
  /\ (fs !! input self = None
      \/ delete (input self) fs !! output self = None
      \/ (exists d, dump self = Some d
            /\ delete (output self) (delete (input self) fs) !! d = None) ->
      clean self fs = Raise FileNotFoundError)
  /\ (forall fs', clean self fs = Ok fs' ->
        clean self fs' = Raise FileNotFoundError).
Proof.
  split; [|split].
  - intros Hin Hout Hdump. unfold clean.
    rewrite (os_remove_present _ _ Hin). cbn [res_bind].
    rewrite (os_remove_present _ _ Hout). cbn [res_bind].
    destruct (dump self) as [d|]; [|reflexivity].
    now rewrite (os_remove_present _ _ (Hdump d eq_refl)).
  - unfold clean. intros [Hin|[Hout|(d & Hd & Hdump)]].
    + now rewrite (os_remove_absent _ _ Hin).
    + destruct (os_remove (input self) fs) as [fs1|x] eqn:H1.
      * unfold os_remove in H1. destruct (fs !! input self); [|discriminate].
        inversion H1; subst. cbn [res_bind].
        now rewrite (os_remove_absent _ _ Hout).
      * unfold os_remove in H1. now destruct (fs !! input self).
    + unfold os_remove at 1. destruct (fs !! input self); [|reflexivity].
      cbn [res_bind]. unfold os_remove at 1.
      destruct (delete (input self) fs !! output self); [|reflexivity].
      cbn [res_bind]. rewrite Hd. now apply os_remove_absent.
  - intros fs'. unfold clean.
    destruct (os_remove (input self) fs) as [fs1|x] eqn:H1;
      cbn [res_bind]; [|discriminate].
    destruct (os_remove (output self) fs1) as [fs2|x] eqn:H2;
      cbn [res_bind]; [|discriminate].
    pose proof (os_remove_gone _ _ _ H1) as G1.
    pose proof (os_remove_keeps_absent _ _ _ _ H2 G1) as G2.
    destruct (dump self) as [d|].
    + intros H3. pose proof (os_remove_keeps_absent _ _ _ _ H3 G2) as G3.
      now rewrite (os_remove_absent _ _ G3).
    + intros [= <-]. now rewrite (os_remove_absent _ _ G2).
Qed.

End Writer.

(** ** The single-point scenario (C8) *)

(** The lattice-energy line of the scenario, scanned in any state of
    a run without symmetry or pressure on four atoms. *)
Lemma scan_energy_line (C : Collaborators) ltype lines i st :
  symmetry (obj st) = false ->
  pstress (obj st) = None ->
  length (frac_coords (obj st)) = 4%nat ->
  exists st',
    scan_line ltype lines i (Lab.energy_line "-123.456000" +:+ nl) st
    = continue st'
    /\ energy (obj st') = Some (Lab.fl "-123.456")
    /\ energy_per_atom (obj st') = Some (Lab.fl "-30.864").
Proof.
  intros Hsym Hp Hlen. eexists. split.
  - apply (scan_line_energy_branch ltype lines i _ st LatticeEnergy
             "-123.456000" (Lab.fl "-123.456") (Lab.fl "-30.864")).
    + unfold energy_marker, nonprimitive_symmetry. now rewrite Hsym, Hp.
    + vm_compute. reflexivity.
    + vm_compute. reflexivity.
    + rewrite Hlen. vm_compute. reflexivity.
  - destruct st as [o lp lv]. destruct o. split; reflexivity.
Qed.

(** C8: a single-point run writes the directive [grad conp stress] at
    the head of the input and no [maxcycle] directive in the trailer;
    for a structure of four atoms and no pressure configured, the
    lattice-energy line of value -123.456000 is parsed into the energy
    -123.456 and -30.864 per atom wherever it stands in the output,
    and a report made of that line and the lattice vectors gives that
    energy and per-atom energy as the result of [read]. *)
Theorem single_point_scenario
    (C : Collaborators) (struc : structure_arg) (calc : GULP) :
  init struc "_" "tmp" "tersoff.lib" None "single" 1000 "gulp" "gulp.in"
    "gulp.log" None false None = Ok calc ->
  length (frac_coords calc) = 4%nat ->
  (exists rest,
     PyStr.concat (fst (write_chunks calc)) = "grad conp stress " +:+ rest)
  /\ (forall chunk, In chunk (fst (write_trailer calc)) ->
                    PyStr.startswith "maxcycle" chunk = false)
  /\ (forall ltype lines i st,
        obj st = calc ->
        exists st',
          scan_line ltype lines i (Lab.energy_line "-123.456000" +:+ nl) st
          = continue st'
          /\ energy (obj st') = Some (Lab.fl "-123.456")
          /\ energy_per_atom (obj st') = Some (Lab.fl "-30.864"))
  /\ (exists r,
        read_lines calc (Lab.report "-123.456000") = Ok r
        /\ energy r = Some (Lab.fl "-123.456")
        /\ energy_per_atom r = Some (Lab.fl "-30.864")
        /\ error r = false).
Proof.
  intros Hinit Hfour.
  assert (Hopt : opt calc = "single").
  { destruct struc; cbn in Hinit; inversion Hinit; reflexivity. }
  split; [|split; [|split]].
  - destruct (write_single_head calc Hopt) as [l ->].
    exists (PyStr.concat l). reflexivity.
  - now apply write_single_trailer.
  - intros ltype lines i st Hst. apply scan_energy_line; rewrite Hst.
    + destruct struc; cbn in Hinit; inversion Hinit; reflexivity.
    + destruct struc; cbn in Hinit; inversion Hinit; reflexivity.
    + exact Hfour.
  - destruct struc as [p|a|]; cbn in Hinit; inversion Hinit; subst calc;
      clear Hinit Hopt; cbn [frac_coords] in Hfour.
    + remember (map snd (all_sites p)) as pos eqn:Hpos. clear Hpos.
      destruct pos as [|x1 [|x2 [|x3 [|x4 [|x5 pos]]]]]; try discriminate.
      eexists. split; [vm_compute; reflexivity|]. vm_compute. auto.
    + destruct a as [cell pos sym]. cbn in Hfour.
      destruct pos as [|x1 [|x2 [|x3 [|x4 [|x5 pos]]]]]; try discriminate.
      eexists. split; [vm_compute; reflexivity|]. vm_compute. auto.
Qed.

Lemma single_point_scenario_witness :
  @init (Lab.env "") (AAtoms Lab.carbon4) "_" "tmp" "tersoff.lib" None
    "single" 1000 "gulp" "gulp.in" "gulp.log" None false None
  = Ok Lab.single_point
  /\ length (frac_coords Lab.single_point) = 4%nat
  /\ found (PyStr.concat (fst (@write_chunks (Lab.env "") Lab.single_point)))
       "maxcycle" = false
  /\ (exists rest,
        PyStr.concat (fst (@write_chunks (Lab.env "") Lab.single_point))
        = "grad conp stress " +:+ rest)
  /\ (exists r,
        @read_lines (Lab.env "") Lab.single_point (Lab.report "-123.456000")
        = Ok r
        /\ energy r = Some (Lab.fl "-123.456")
        /\ energy_per_atom r = Some (Lab.fl "-30.864")
        /\ error r = false).
Proof.
  split; [reflexivity|]. split; [reflexivity|]. split; [reflexivity|].
  destruct (single_point_scenario (Lab.env "") (AAtoms Lab.carbon4)
              Lab.single_point eq_refl eq_refl) as (Hhead & _ & _ & Hread).
  split; [exact Hhead | exact Hread].
Defined.

(** The energy line alone is not a complete report: without a lattice
    the per-atom energy is computed but the run is errored and its
    energy unset. *)
Lemma energy_line_alone_is_errored :
  exists r,
    @read_lines (Lab.env "") Lab.single_point
      (Lab.text [Lab.energy_line "-123.456000"]) = Ok r
    /\ energy r = None
    /\ energy_per_atom r = Some (Lab.fl "-30.864")
    /\ error r = true.
Proof. eexists. split; [vm_compute; reflexivity|]. vm_compute. auto. Qed.

(** ** Runs on the laboratory environment *)

Lemma merged_force_row_witness :
  render Lab.sample_row true false
  = "      1 C     c      -0.123456-0.234567 0.345678      0.000000"
  /\ well_formed Lab.sample_row true false = true
  /\ force_fields (render Lab.sample_row true false)
     = ("-0.123456", "-0.234567", "0.345678")
  /\ force_row (render Lab.sample_row true false)
     = force_row (render Lab.sample_row false false).
Proof.
  split; [reflexivity|]. split; [reflexivity|].
  destruct (merged_force_row_parses_as_presplit Lab.sample_row true false
              eq_refl) as (Hf & _ & Hr).
  split; [exact Hf | exact Hr].
Defined.

Lemma zero_pressure_contradicts_stated_marker :
  pstress Lab.zero_pressure = Some PyFloat.zero
  /\ nonprimitive_symmetry Lab.zero_pressure = Ok false
  /\ stated_marker false (pstress Lab.zero_pressure) = LatticeEnthalpy
  /\ energy_marker Lab.zero_pressure = Ok LatticeEnergy
  /\ energy_marker Lab.zero_pressure
     <> Ok (stated_marker false (pstress Lab.zero_pressure)).
Proof. repeat split; try reflexivity. vm_compute. discriminate. Qed.

Lemma energy_marker_follows_configuration_witness :
  nonprimitive_symmetry Lab.pressurised = Ok false
  /\ pstress Lab.pressurised = Some (Lab.fl "1.5")
  /\ energy_marker Lab.pressurised = Ok LatticeEnthalpy.
Proof.
  split; [reflexivity|]. split; [reflexivity|].
  exact (proj1 (@energy_marker_follows_configuration (Lab.env "")
                  Lab.pressurised false LatticeEnthalpy eq_refl eq_refl)).
Defined.

Lemma infinite_energy_is_accepted :
  exists r,
    @read_lines (Lab.env "") Lab.single_point (Lab.report "inf") = Ok r
    /\ stated_bad_energy
         (energy (obj (fst (@scan_lines (Lab.env "")
                              (run_ltype Lab.single_point) (Lab.report "inf")
                              Lab.single_point)))) = true
    /\ energy r = Some (PyFloat.inf false)
    /\ error r = false.
Proof. eexists. split; [vm_compute; reflexivity|]. vm_compute. auto. Qed.

Lemma read_flags_missing_lattice_witness :
  lattice_para (fst (@scan_lines (Lab.env "") (run_ltype Lab.single_point)
                       (Lab.text [Lab.energy_line "-1.000000"])
                       Lab.single_point)) = None
  /\ lattice_vector (fst (@scan_lines (Lab.env "") (run_ltype Lab.single_point)
                            (Lab.text [Lab.energy_line "-1.000000"])
                            Lab.single_point)) = None
  /\ exists r,
       @read_lines (Lab.env "") Lab.single_point
         (Lab.text [Lab.energy_line "-1.000000"]) = Ok r
       /\ error r = true /\ energy r = None.
Proof.
  split; [reflexivity|]. split; [reflexivity|].
  destruct (@read_flags_missing_lattice_or_energy (Lab.env "")
              Lab.single_point (Lab.text [Lab.energy_line "-1.000000"])
              _ _ (surjective_pairing _))
    as (r & Hr & Hnone & _).
  exists r. split; [exact Hr|]. apply Hnone. split; reflexivity.
Defined.

Lemma scan_exception_witness :
  Lab.disk (PyStr.concat Lab.report_broken) !! output Lab.single_point
  = Some (PyStr.concat Lab.report_broken)
  /\ snd (@scan_lines (Lab.env "") (run_ltype Lab.single_point)
            (readlines (PyStr.concat Lab.report_broken)) Lab.single_point)
     = Some ValueError
  /\ exists r,
       @read (Lab.env "") Lab.single_point
         (Lab.disk (PyStr.concat Lab.report_broken)) = Ok r
       /\ error r = true /\ energy r = None.
Proof.
  split; [vm_compute; reflexivity|]. split; [vm_compute; reflexivity|].
  destruct (@scan_exception_is_caught (Lab.env "") Lab.single_point
              (Lab.disk (PyStr.concat Lab.report_broken))
              (PyStr.concat Lab.report_broken) ltac:(vm_compute; reflexivity))
    as (r & Hr & Hexn).
  exists r. split; [exact Hr|].
  apply (Hexn (fst (@scan_lines (Lab.env "") (run_ltype Lab.single_point)
                      (readlines (PyStr.concat Lab.report_broken))
                      Lab.single_point)) ValueError).
  vm_compute. reflexivity.
Defined.

Lemma nonprimitive_priority_witness :
  (exists cart, nth_error Lab.report_both 1 = Some cart
                /\ classify LatticeEnergy cart = SCartesian)
  /\ (exists header, nth_error Lab.report_both 6 = Some header
                     /\ classify LatticeEnergy header = SNonPrimitive)
  /\ lattice_para (fst (@scan_lines (Lab.env "")
                          (run_ltype Lab.single_point) Lab.report_both
                          Lab.single_point))
     = Some (@from_para (Lab.env "") (Lab.fl "4") (Lab.fl "5") (Lab.fl "6")
               (Lab.fl "90") (Lab.fl "90") (Lab.fl "90") "triclinic")
  /\ lattice_vector (fst (@scan_lines (Lab.env "")
                            (run_ltype Lab.single_point) Lab.report_both
                            Lab.single_point))
     = Some (@from_matrix (Lab.env "") (Atoms.cell Lab.carbon4) "triclinic")
  /\ exists r,
       @read_lines (Lab.env "") Lab.single_point Lab.report_both = Ok r
       /\ lattice r = @from_para (Lab.env "") (Lab.fl "4") (Lab.fl "5")
                        (Lab.fl "6") (Lab.fl "90") (Lab.fl "90") (Lab.fl "90")
                        "triclinic".
Proof.
  split; [eexists; split; vm_compute; reflexivity|].
  split; [eexists; split; vm_compute; reflexivity|].
  split; [vm_compute; reflexivity|]. split; [vm_compute; reflexivity|].
  destruct (@nonprimitive_parameters_take_priority (Lab.env "")
              Lab.single_point Lab.report_both _ _
              (@from_para (Lab.env "") (Lab.fl "4") (Lab.fl "5") (Lab.fl "6")
                 (Lab.fl "90") (Lab.fl "90") (Lab.fl "90") "triclinic")
              (@from_matrix (Lab.env "") (Atoms.cell Lab.carbon4) "triclinic")
              (surjective_pairing _)
              ltac:(vm_compute; reflexivity) ltac:(vm_compute; reflexivity))
    as (r & _ & _ & _ & _ & _ & _ & _ & _ & _ & Hr & Hl & _).
  exists r. split; [exact Hr | exact Hl].
Defined.

Lemma near_zero_energy_witness :
  Lab.zero_pass
  = Ok (Lab.pass_outcome Lab.zero_pass, Lab.pass_files Lab.zero_pass)
  /\ out_error (Lab.pass_outcome Lab.zero_pass) = false
  /\ out_energy (Lab.pass_outcome Lab.zero_pass) = Some PyFloat.zero
  /\ PyFloat.ltb (PyFloat.abs PyFloat.zero) near_zero = true
  /\ exists r,
       @optimize (Lab.env Lab.zero_energy_output) (AAtoms Lab.carbon4)
         "tersoff.lib" ["conp"; "conp"] "gulp" None "tmp" "_" true true ∅
       = Ok r
       /\ r_passes r
          = [mk_pass (AAtoms Lab.carbon4) "conp";
             mk_pass (APyxtal (@shrink_lattice (Lab.env Lab.zero_energy_output)
                                 (Lab.pass_struc_of
                                    (Lab.pass_outcome Lab.zero_pass))))
               "conp"]
       /\ Lattice.matrix
            (Pyxtal.lattice
               (@shrink_lattice (Lab.env Lab.zero_energy_output)
                  (Lab.pass_struc_of (Lab.pass_outcome Lab.zero_pass))))
          = matrix_scale shrink
              (Lattice.matrix
                 (Pyxtal.lattice
                    (Lab.pass_struc_of (Lab.pass_outcome Lab.zero_pass)))).
Proof.
  split; [vm_compute; reflexivity|]. split; [vm_compute; reflexivity|].
  split; [vm_compute; reflexivity|]. split; [vm_compute; reflexivity|].
  destruct (@near_zero_energy_shrinks_lattice (Lab.env Lab.zero_energy_output)
              "tersoff.lib" "conp" ["conp"] "gulp" None "tmp" "_" true
              (Lab.start (AAtoms Lab.carbon4))
              (Lab.pass_outcome Lab.zero_pass) (Lab.pass_files Lab.zero_pass)
              (Lab.pass_struc_of (Lab.pass_outcome Lab.zero_pass))
              PyFloat.zero (PyInt 0)
              ltac:(vm_compute; reflexivity) ltac:(vm_compute; reflexivity)
              ltac:(vm_compute; reflexivity) ltac:(vm_compute; reflexivity)
              ltac:(vm_compute; reflexivity) ltac:(vm_compute; reflexivity))
    as (_ & Hmat & _ & Htwo).
  exists (Lab.returned
            (@optimize (Lab.env Lab.zero_energy_output) (AAtoms Lab.carbon4)
               "tersoff.lib" ["conp"; "conp"] "gulp" None "tmp" "_" true true
               ∅)).
  split; [vm_compute; reflexivity|]. split; [|exact Hmat].
  apply (Htwo _ eq_refl eq_refl eq_refl). vm_compute. reflexivity.
Defined.

Lemma pass_error_witness :
  Lab.silent_pass = Ok (failure, Lab.pass_files Lab.silent_pass)
  /\ out_error failure = true
  /\ @optimize (Lab.env "") (AAtoms Lab.carbon4) "tersoff.lib"
       ["conp"; "conp"] "gulp" None "tmp" "_" true false ∅
     = Ok {| r_struc := None; r_energy := None; r_time := PyInt 0;
             r_error := true; r_fs := Lab.pass_files Lab.silent_pass;
             r_passes := [mk_pass (AAtoms Lab.carbon4) "conp"] |}.
Proof.
  split; [vm_compute; reflexivity|]. split; [reflexivity|].
  exact (@pass_error_aborts_sequence (Lab.env "") "tersoff.lib" "conp"
           ["conp"] "gulp" None "tmp" "_" true false
           (Lab.start (AAtoms Lab.carbon4)) failure
           (Lab.pass_files Lab.silent_pass)
           ltac:(vm_compute; reflexivity) eq_refl).
Defined.

Lemma clean_twice_raises :
  clean Lab.single_point Lab.disk_after_run = Ok ∅
  /\ clean Lab.single_point ∅ = Raise FileNotFoundError
  /\ is_ok (clean Lab.single_point ∅) = false.
Proof. repeat split; vm_compute; reflexivity. Qed.

Lemma clean_needs_every_file_witness :
  is_Some (Lab.disk_after_run !! input Lab.single_point)
  /\ is_Some (delete (input Lab.single_point) Lab.disk_after_run
              !! output Lab.single_point)
  /\ dump Lab.single_point = None
  /\ clean Lab.single_point Lab.disk_after_run
     = Ok (delete (output Lab.single_point)
             (delete (input Lab.single_point) Lab.disk_after_run))
  /\ clean Lab.single_point
       (delete (output Lab.single_point)
          (delete (input Lab.single_point) Lab.disk_after_run))
     = Raise FileNotFoundError.
Proof.
  assert (Hin : is_Some (Lab.disk_after_run !! input Lab.single_point))
    by (vm_compute; eauto).
  assert (Hout : is_Some (delete (input Lab.single_point) Lab.disk_after_run
                          !! output Lab.single_point))
    by (vm_compute; eauto).
  split; [exact Hin|]. split; [exact Hout|]. split; [reflexivity|].
  destruct (clean_needs_every_file Lab.single_point Lab.disk_after_run)
    as (Hok & _ & Htwice).
  assert (Hclean : clean Lab.single_point Lab.disk_after_run
                   = Ok (delete (output Lab.single_point)
                           (delete (input Lab.single_point) Lab.disk_after_run))).
  { apply Hok; try assumption. intros d Hd. discriminate Hd. }
  split; [exact Hclean|]. now apply Htwice.
Defined.

Lemma zero_pressure_witness :
  pstress Lab.zero_pressure = Some PyFloat.zero
  /\ PyFloat.eqb PyFloat.zero PyFloat.zero = true
  /\ nonprimitive_symmetry Lab.zero_pressure = Ok false
  /\ snd (@write_chunks (Lab.env "") Lab.zero_pressure) = None
  /\ In ("pressure  0.000" +:+ nl)
        (fst (@write_chunks (Lab.env "") Lab.zero_pressure))
  /\ energy_marker Lab.zero_pressure = Ok LatticeEnergy.
Proof.
  split; [reflexivity|]. split; [reflexivity|]. split; [reflexivity|].
  split; [vm_compute; reflexivity|].
  destruct (@zero_pressure_written_but_plain_marker (Lab.env "")
              Lab.zero_pressure PyFloat.zero eq_refl eq_refl)
    as (_ & Hfile & _ & Hplain & _).
  split; [|now apply Hplain].
  apply Hfile. vm_compute. reflexivity.
Defined.

(** The two markers that come before the plain one keep their order:
    with symmetry imposed on a centred group, a zero pressure leaves
    the non-primitive-cell marker in place. *)
Lemma centred_zero_pressure_uses_cell_marker :
  pstress Lab.centred_zero_pressure = Some PyFloat.zero
  /\ nonprimitive_symmetry Lab.centred_zero_pressure = Ok true
  /\ energy_marker Lab.centred_zero_pressure = Ok NonPrimitiveCell.
Proof. repeat split; reflexivity. Qed.

(** An exception between the two lattice blocks ends the scan before
    the non-primitive parameters are read: the Cartesian lattice is the
    one found, and the run is errored. *)
Lemma interrupted_scan_keeps_cartesian_lattice :
  exists r,
    @read_lines (Lab.env "") Lab.single_point Lab.report_interrupted = Ok r
    /\ lattice r
       = @from_matrix (Lab.env "") (Atoms.cell Lab.carbon4) "triclinic"
    /\ error r = true
    /\ energy r = None.
Proof. eexists. split; [vm_compute; reflexivity|]. vm_compute. auto. Qed.

(** * Further properties of the interface *)

(** ** What the scan of a report may change *)

Section ScanInvariants.
Context `{Collaborators}.

Ltac scan_branches :=
  repeat match goal with
         | |- context [attempt ?r _ _] =>
             destruct r; cbn [attempt raised continue fst snd]
         | |- context [match pyxtal ?s with _ => _ end] =>
             let E := fresh "E" in destruct (pyxtal s) eqn:E
         | |- context [let '(_, _) := ?x in _] => destruct x
         end.

Lemma scan_from_invariant (P : scan -> Prop) ltype lines :
  (forall i line st, P st -> P (fst (scan_line ltype lines i line st))) ->
  forall rest i st, P st -> P (fst (scan_from ltype lines i rest st)).
Proof.
  intros Hstep. induction rest as [|line rest IH]; intros i st Hst.
  - exact Hst.
  - cbn [scan_from]. specialize (Hstep i line st Hst).
    destruct (scan_line ltype lines i line st) as [st1 [x|]]; cbn in *.
    + exact Hstep.
    + now apply IH.
Qed.

Lemma scan_from_invariant_ok (P : scan -> Prop) ltype lines :
  (forall i line st st', P st -> scan_line ltype lines i line st = (st', None) -> P st') ->
  forall rest i st st', P st -> scan_from ltype lines i rest st = (st', None) -> P st'.
Proof.
  intros Hstep. induction rest as [|line rest IH]; intros i st st' Hst Hrun.
  - cbn in Hrun. inversion Hrun; subst. exact Hst.
  - cbn [scan_from] in Hrun.
    destruct (scan_line ltype lines i line st) as [st1 [x|]] eqn:Hline;
      [discriminate|].
    eapply IH; [|exact Hrun]. eapply Hstep; eauto.
Qed.

Lemma scan_line_settings ltype lines i line st :
  settings (obj (fst (scan_line ltype lines i line st))) = settings (obj st)
  /\ error (obj (fst (scan_line ltype lines i line st))) = error (obj st).
Proof.
  unfold scan_line. destruct (energy_marker (obj st)) as [mk|x];
    cbn [attempt raised fst]; [|auto].
  destruct (classify mk line); scan_branches;
    cbn [fst continue raised obj with_obj set_lattice_vector set_lattice_para];
    auto;
    generalize dependent (obj st); intros g; destruct g; intros;
    cbn in *; subst; auto.
Qed.

(** The CPU time is the integer 0 until a float is read. *)
Lemma scan_line_cputime ltype lines i line st :
  (cputime (obj st) = PyInt 0 \/ exists t, cputime (obj st) = PyFlt t) ->
  cputime (obj (fst (scan_line ltype lines i line st))) = PyInt 0
  \/ exists t, cputime (obj (fst (scan_line ltype lines i line st))) = PyFlt t.
Proof.
  unfold scan_line. destruct (energy_marker (obj st)) as [mk|x];
    cbn [attempt raised fst]; [|auto].
  destruct (classify mk line); scan_branches;
    cbn [fst snd continue raised obj with_obj set_lattice_vector set_lattice_para];
    auto;
    generalize dependent (obj st); intros g; destruct g; intros;
    cbn in *; subst; eauto.
Qed.

(** A step that raises nothing leaves an energy with its per-atom value. *)
Lemma scan_line_energy_pair ltype lines i line st st' :
  (energy (obj st) = None \/ exists v q, energy (obj st) = Some v /\ energy_per_atom (obj st) = Some q) ->
  scan_line ltype lines i line st = (st', None) ->
  energy (obj st') = None \/ exists v q, energy (obj st') = Some v /\ energy_per_atom (obj st') = Some q.
Proof.
  unfold scan_line. destruct (energy_marker (obj st)) as [mk|x];
    cbn [attempt raised fst]; [|discriminate].
  destruct (classify mk line); scan_branches;
    cbn [fst snd continue raised obj with_obj set_lattice_vector set_lattice_para];
    intros Hst Heq; inversion Heq; subst; clear Heq; auto;
    generalize dependent (obj st); intros g; destruct g; intros;
    cbn in *; subst; eauto.
Qed.

(** The sites of the structure are updated in place: their number stays. *)
Lemma asym_loop_length : forall rows sites,
  length (fst (asym_loop rows sites)) = length sites.
Proof.
  induction rows as [|r rows IH]; intros [|s sites]; try reflexivity.
  cbn [asym_loop].
  destruct (xyz_of r) as [XYZ|x]; [|reflexivity].
  destruct (site_update s XYZ) as [s' [x|]]; [reflexivity|].
  specialize (IH sites). destruct (asym_loop rows sites) as [rest e].
  cbn in *. now rewrite IH.
Qed.

Lemma kept_refl a : kept a a.
Proof. destruct a; cbn; auto. Qed.

Lemma kept_trans a b c : kept a b -> kept b c -> kept a c.
Proof.
  destruct a, b, c; cbn; try tauto.
  intros (A1 & A2 & A3) (B1 & B2 & B3). repeat split; congruence.
Qed.

Lemma scan_line_pyxtal ltype lines i line st :
  kept (pyxtal (obj st)) (pyxtal (obj (fst (scan_line ltype lines i line st)))).
Proof.
  unfold scan_line. destruct (energy_marker (obj st)) as [mk|x];
    cbn [attempt raised fst]; [|apply kept_refl].
  destruct (classify mk line);
    repeat match goal with
         | |- context [attempt ?r _ _] =>
             destruct r; cbn [attempt raised continue fst snd]
         end;
    cbn [fst snd continue raised obj with_obj set_lattice_vector set_lattice_para];
    try apply kept_refl;
    try (generalize dependent (obj st); intros g; destruct g; intros;
         cbn; apply kept_refl).
  destruct (pyxtal (obj st)) as [p|] eqn:E; cbn [fst].
  - pose proof (asym_loop_length (skipn (i + 6) lines) (Pyxtal.atom_sites p)) as L.
    destruct (asym_loop _ _) as [sites' e]. cbn [fst obj with_obj] in *.
    destruct (obj st); cbn in *. subst. cbn. auto.
  - cbn [raised fst]. rewrite E. exact I.
Qed.

Lemma cart_row_length lines j r : cart_row lines j = Ok r -> length r = 3%nat.
Proof.
  unfold cart_row.
  repeat match goal with
         | |- context [res_bind ?r _] => destruct r; cbn [res_bind]
         end; intros Heq; inversion Heq; reflexivity.
Qed.

Lemma read_cartesian_from_matrix lines i ltype l :
  read_cartesian lines i ltype = Ok l ->
  exists r0 r1 r2,
    l = from_matrix [r0; r1; r2] ltype
    /\ length r0 = 3%nat /\ length r1 = 3%nat /\ length r2 = 3%nat.
Proof.
  unfold read_cartesian.
  destruct (cart_row lines (i + 2)) as [r0|x] eqn:E0; cbn [res_bind]; [|discriminate].
  destruct (cart_row lines (i + 2 + 1)) as [r1|x] eqn:E1; cbn [res_bind]; [|discriminate].
  destruct (cart_row lines (i + 2 + 2)) as [r2|x] eqn:E2; cbn [res_bind]; [|discriminate].
  intros [= <-]. exists r0, r1, r2.
  repeat split; eauto using cart_row_length.
Qed.

(** The two lattices of the scan come from the report. *)
Lemma scan_line_lattices ltype lines i line st st' :
  scan_line ltype lines i line st = (st', None) ->
  (lattice_para st' = lattice_para st
   \/ exists l, read_nonprimitive lines i ltype = Ok l /\ lattice_para st' = Some l)
  /\ (lattice_vector st' = lattice_vector st
      \/ exists l, read_cartesian lines i ltype = Ok l /\ lattice_vector st' = Some l).
Proof.
  unfold scan_line. destruct (energy_marker (obj st)) as [mk|x];
    cbn [attempt raised fst]; [|discriminate].
  destruct (classify mk line) eqn:Hc;
    repeat match goal with
           | |- context [attempt ?r _ _] =>
               destruct r eqn:?; cbn [attempt raised continue fst snd]
           | |- context [match pyxtal ?s with _ => _ end] =>
               destruct (pyxtal s)
           | |- context [let '(_, _) := ?x in _] => destruct x
           end;
    intros Heq; inversion Heq; subst; clear Heq;
    cbn [fst snd continue raised obj with_obj set_lattice_vector set_lattice_para
         lattice_para lattice_vector];
    split; first [left; reflexivity | right; eexists; split; reflexivity].
Qed.

End ScanInvariants.

(** ** What [read] keeps *)

Section ReadFrame.
Context `{Collaborators}.

Lemma post_scan_frame e lp lv g r :
  check_energy (sync_pyxtal (resolve_lattice lp lv (on_exception e g))) = Ok r ->
  settings r = settings g
  /\ cputime r = cputime g
  /\ energy_per_atom r = energy_per_atom g
  /\ (error g = true -> error r = true)
  /\ kept (pyxtal g) (pyxtal r)
  /\ (forall p, pyxtal r = Some p -> Pyxtal.lattice p = lattice r).
Proof.
  destruct g as [px sp la fc si sy stt ps lb lbs f o ex stp fo inp out du it en epa strs frc pos opd cpu err].
  unfold check_energy, np_isnan.
  destruct e as [x|], lp as [l1|], lv as [l2|], px as [p|], en as [v|];
    cbn; try destruct (PyFloat.isnan v); cbn;
    intros [= <-]; cbn; repeat split; auto; try congruence;
    intros p0 [= <-]; reflexivity.
Qed.

Lemma post_scan_success e lp lv g r :
  check_energy (sync_pyxtal (resolve_lattice lp lv (on_exception e g))) = Ok r ->
  error r = false ->
  e = None
  /\ error g = false
  /\ (exists v, energy g = Some v /\ PyFloat.isnan v = false /\ energy r = Some v)
  /\ (lp = Some (lattice r) \/ (lp = None /\ lv = Some (lattice r))).
Proof.
  destruct g as [px sp la fc si sy stt ps lb lbs f o ex stp fo inp out du it en epa strs frc pos opd cpu err].
  unfold check_energy, np_isnan.
  destruct e as [x|], lp as [l1|], lv as [l2|], px as [p|], en as [v|];
    cbn; try destruct (PyFloat.isnan v) eqn:Hn; cbn;
    intros [= <-]; cbn; intros E; try discriminate E;
    repeat split; eauto.
Qed.

Lemma scan_lines_frame ltype lines self :
  settings (obj (fst (scan_lines ltype lines self))) = settings self
  /\ error (obj (fst (scan_lines ltype lines self))) = error self
  /\ kept (pyxtal self) (pyxtal (obj (fst (scan_lines ltype lines self))))
  /\ (cputime self = PyInt 0 \/ (exists t, cputime self = PyFlt t) ->
      cputime (obj (fst (scan_lines ltype lines self))) = PyInt 0
      \/ exists t, cputime (obj (fst (scan_lines ltype lines self))) = PyFlt t).
Proof.
  unfold scan_lines.
  apply (scan_from_invariant
           (fun st => settings (obj st) = settings self
                      /\ error (obj st) = error self
                      /\ kept (pyxtal self) (pyxtal (obj st))
                      /\ (cputime self = PyInt 0 \/ (exists t, cputime self = PyFlt t) ->
                          cputime (obj st) = PyInt 0
                          \/ exists t, cputime (obj st) = PyFlt t))).
  - intros i line st (Hs & He & Hk & Ht).
    destruct (scan_line_settings ltype lines i line st) as [Hs' He'].
    split; [congruence|]. split; [congruence|]. split.
    + eapply kept_trans; [exact Hk|apply scan_line_pyxtal].
    + intros Hself. apply scan_line_cputime. auto.
  - cbn. auto using kept_refl.
Qed.

Lemma read_lines_frame self lines r :
  read_lines self lines = Ok r ->
  settings r = settings self
  /\ (error self = true -> error r = true)
  /\ kept (pyxtal self) (pyxtal r)
  /\ (forall p, pyxtal r = Some p -> Pyxtal.lattice p = lattice r)
  /\ (cputime self = PyInt 0 \/ (exists t, cputime self = PyFlt t) ->
      cputime r = PyInt 0 \/ exists t, cputime r = PyFlt t).
Proof.
  unfold read_lines.
  destruct (scan_lines_frame (run_ltype self) lines self) as (Hs & He & Hk & Ht).
  destruct (scan_lines (run_ltype self) lines self) as [st e]. cbn [fst] in *.
  intros Hr. apply post_scan_frame in Hr as (Ps & Pt & _ & Pe & Pk & Pl).
  split; [congruence|]. split; [intros E; apply Pe; congruence|].
  split; [eapply kept_trans; eassumption|]. split; [exact Pl|].
  rewrite Pt. exact Ht.
Qed.

End ReadFrame.

(** ** A read that ends with the error flag off *)

Section ReadSuccess.
Context `{Collaborators}.

(** A lattice the scanner could have built. *)
Lemma scan_from_lattices ltype lines rest i st st' :
  scan_from ltype lines i rest st = (st', None) ->
  (forall l, lattice_para st = Some l ->
     exists a b c alpha beta gamma, l = from_para a b c alpha beta gamma ltype) ->
  (forall l, lattice_vector st = Some l ->
     exists r0 r1 r2, l = from_matrix [r0; r1; r2] ltype
       /\ length r0 = 3%nat /\ length r1 = 3%nat /\ length r2 = 3%nat) ->
  (forall l, lattice_para st' = Some l ->
     exists a b c alpha beta gamma, l = from_para a b c alpha beta gamma ltype)
  /\ (forall l, lattice_vector st' = Some l ->
        exists r0 r1 r2, l = from_matrix [r0; r1; r2] ltype
          /\ length r0 = 3%nat /\ length r1 = 3%nat /\ length r2 = 3%nat).
Proof.
  revert i st. induction rest as [|line rest IH]; intros i st Hrun Hp Hv.
  - cbn in Hrun. inversion Hrun; subst. auto.
  - cbn [scan_from] in Hrun.
    destruct (scan_line ltype lines i line st) as [st1 [x|]] eqn:Hline;
      [discriminate|].
    destruct (scan_line_lattices _ _ _ _ _ _ Hline) as [Hp1 Hv1].
    apply (IH _ _ Hrun).
    + intros l Hl. destruct Hp1 as [E|(l' & Hread & E)].
      * apply Hp. congruence.
      * rewrite E in Hl. inversion Hl; subst.
        eapply read_nonprimitive_from_para; eassumption.
    + intros l Hl. destruct Hv1 as [E|(l' & Hread & E)].
      * apply Hv. congruence.
      * rewrite E in Hl. inversion Hl; subst.
        eapply read_cartesian_from_matrix; eassumption.
Qed.

Lemma read_lines_success self lines r :
  read_lines self lines = Ok r ->
  error r = false ->
  exists st,
    scan_lines (run_ltype self) lines self = (st, None)
    /\ error self = false
    /\ (exists v, energy (obj st) = Some v /\ PyFloat.isnan v = false
                  /\ energy r = Some v)
    /\ energy_per_atom r = energy_per_atom (obj st)
    /\ ((exists a b c alpha beta gamma,
           lattice r = from_para a b c alpha beta gamma (run_ltype self))
        \/ (exists r0 r1 r2,
              lattice r = from_matrix [r0; r1; r2] (run_ltype self)
              /\ length r0 = 3%nat /\ length r1 = 3%nat /\ length r2 = 3%nat)).
Proof.
  unfold read_lines.
  destruct (scan_lines_frame (run_ltype self) lines self) as (_ & He & _).
  destruct (scan_lines (run_ltype self) lines self) as [st e] eqn:Hscan.
  cbn [fst] in He. intros Hr Herr.
  destruct (post_scan_frame _ _ _ _ _ Hr) as (_ & _ & Hepa & _).
  destruct (post_scan_success _ _ _ _ _ Hr Herr) as (-> & Eg & Hen & Hlat).
  exists st. split; [reflexivity|]. split; [congruence|].
  split; [exact Hen|]. split; [exact Hepa|].
  unfold scan_lines in Hscan.
  destruct (scan_from_lattices _ _ _ _ _ _ Hscan) as [Hp Hv];
    [discriminate | discriminate |].
  destruct Hlat as [Hl|[_ Hl]]; [left; now apply Hp | right; now apply Hv].
Qed.

Lemma scan_lines_energy_pair ltype lines self st :
  energy self = None ->
  scan_lines ltype lines self = (st, None) ->
  energy (obj st) = None
  \/ exists v q, energy (obj st) = Some v /\ energy_per_atom (obj st) = Some q.
Proof.
  intros Hfresh Hscan. unfold scan_lines in Hscan.
  refine (scan_from_invariant_ok
            (fun st => energy (obj st) = None
                       \/ exists v q, energy (obj st) = Some v
                                      /\ energy_per_atom (obj st) = Some q)
            ltype lines _ _ _ _ _ _ Hscan).
  - intros i line st0 st1. apply scan_line_energy_pair.
  - now left.
Qed.

End ReadSuccess.

(** ** What a pass hands to the driver *)

Section Passes.
Context `{Collaborators}.

Lemma to_pyxtal_loop_total a : forall tols last,
  (tols <> [] \/ last <> None) ->
  exists p, to_pyxtal_loop a tols last = Ok p.
Proof.
  induction tols as [|tol tols IH]; intros last Hne.
  - destruct last as [p|]; [eauto|]. destruct Hne; congruence.
  - cbn [to_pyxtal_loop]. destruct (from_seed a tol) as [p [x|]]; [|eauto].
    apply IH. right. discriminate.
Qed.

Lemma to_pyxtal_total (self : GULP) : exists p, to_pyxtal self = Ok p.
Proof.
  unfold to_pyxtal. apply to_pyxtal_loop_total. left. discriminate.
Qed.

Lemma init_fresh struc label path ff pstress opt steps exe input output dump
    symm labels calc :
  init struc label path ff pstress opt steps exe input output dump symm
    labels = Ok calc ->
  energy calc = None /\ error calc = false /\ cputime calc = PyInt 0
  /\ species calc = None /\ symmetry calc = symm
  /\ (forall a, struc = AAtoms a -> pyxtal calc = None).
Proof.
  destruct struc as [p|a|]; cbn; intros [= <-]; cbn; repeat split; auto;
    intros a0 [=].
Qed.

Lemma run_reads self do_clean fs r fs' :
  run self do_clean fs = Ok (r, fs') ->
  exists fs2, read self fs2 = Ok r.
Proof.
  unfold run. destruct (write self fs) as [fs1 [x|]]; [discriminate|].
  destruct (read self (execute self fs1)) as [r'|x] eqn:Hr; cbn [res_bind];
    [|discriminate].
  destruct do_clean.
  - destruct (clean r' (execute self fs1)); cbn [res_bind]; [|discriminate].
    intros [= <- <-]. eauto.
  - intros [= <- <-]. eauto.
Qed.

Lemma read_is_read_lines self fs r :
  read self fs = Ok r -> exists lines, read_lines self lines = Ok r.
Proof.
  unfold read. destruct (fs !! output self); [eauto|discriminate].
Qed.

(** What a pass hands back to the driver. *)
Lemma single_optimize_result struc ff steps pstress opt exe path label
    do_clean symmetry labels fs o fs' :
  single_optimize struc ff steps pstress opt exe path label do_clean
    symmetry labels fs = Ok (o, fs') ->
  (o = failure
   \/ (out_error o = false
       /\ (exists p, out_struc o = Some p)
       /\ (exists e, out_energy o = Some e)))
  /\ (out_time o = PyInt 0 \/ exists t, out_time o = PyFlt t).
Proof.
  unfold single_optimize.
  destruct (init _ _ _ _ _ _ _ _ _ _ _ _ _) as [calc|x] eqn:Hinit;
    cbn [res_bind]; [|discriminate].
  destruct (init_fresh _ _ _ _ _ _ _ _ _ _ _ _ _ _ Hinit)
    as (Hen & Herr & Htime & _).
  destruct (run calc do_clean fs) as [[calc' fs1]|x] eqn:Hrun; cbn [res_bind];
    [|discriminate].
  destruct (run_reads _ _ _ _ _ Hrun) as [fs2 Hread].
  destruct (read_is_read_lines _ _ _ Hread) as [lines Hlines].
  destruct (error calc') eqn:Herr'.
  - intros [= <- <-]. split; [now left|now left].
  - destruct (match pyxtal calc' with
              | Some p => Ok p
              | None => to_pyxtal calc'
              end) as [p|x]; cbn [res_bind]; [|discriminate].
    intros [= <- <-]. cbn [out_error out_struc out_energy out_time].
    destruct (read_lines_success _ _ _ Hlines Herr')
      as (st & Hscan & _ & (v & Hv & _ & Hrv) & Hepa & _).
    destruct (scan_lines_energy_pair _ _ _ _ Hen Hscan)
      as [En|(v' & q & _ & Hq)]; [congruence|].
    split.
    + right. split; [reflexivity|]. split; [eauto|].
      exists q. congruence.
    + destruct (read_lines_frame _ _ _ Hlines) as (_ & _ & _ & _ & Ht).
      apply Ht. now left.
Qed.

Lemma pynum_add_shapes (a b : pynum) :
  (a = PyInt 0 \/ exists t, a = PyFlt t) ->
  (b = PyInt 0 \/ exists t, b = PyFlt t) ->
  exists c, pynum_add a b = Ok c /\ (c = PyInt 0 \/ exists t, c = PyFlt t).
Proof.
  intros [->|[x ->]] [->|[y ->]]; cbn; eexists; split; try reflexivity; eauto.
Qed.

End Passes.

(** ** The result of [read] (X1 to X3) *)

Section ReadTheorems.
Context `{Collaborators}.

(** X1: [read] changes no setting of the calculator (symmetry switch,
    pressure, labels, force field, mode, executable, step limit, folder
    and file names, dump, site symbols, input structure, species,
    positions), and it never clears an error flag that was set. *)
Theorem read_keeps_settings (self : GULP) (fs : filesystem) (r : GULP) :
  read self fs = Ok r ->
  settings r = settings self /\ (error self = true -> error r = true).
Proof.
  intros Hr. destruct (read_is_read_lines _ _ _ Hr) as [lines Hl].
  destruct (read_lines_frame _ _ _ Hl) as (Hs & He & _). auto.
Qed.

(** X2: a [read] on a calculator without an energy that ends with the
    error flag off found everything it needs: the scan raised nothing,
    the energy is a number that is not NaN and comes with a per-atom
    energy, and the lattice was built from the report, either from the
    non-primitive parameters or from three Cartesian rows of three
    numbers, with the lattice family of the run. *)
Theorem successful_read_has_energy_and_lattice
    (self : GULP) (fs : filesystem) (r : GULP) :
  energy self = None ->
  read self fs = Ok r ->
  error r = false ->
  error self = false
  /\ (exists content,
        fs !! output self = Some content
        /\ snd (scan_lines (run_ltype self) (readlines content) self) = None)
  /\ (exists v q, energy r = Some v /\ PyFloat.isnan v = false
                  /\ energy_per_atom r = Some q)
  /\ ((exists a b c alpha beta gamma,
         lattice r = from_para a b c alpha beta gamma (run_ltype self))
      \/ (exists r0 r1 r2,
            lattice r = from_matrix [r0; r1; r2] (run_ltype self)
            /\ length r0 = 3%nat /\ length r1 = 3%nat /\ length r2 = 3%nat)).
Proof.
  intros Hfresh Hr Herr. unfold read in Hr.
  destruct (fs !! output self) as [content|] eqn:Hfile; [|discriminate].
  destruct (read_lines_success _ _ _ Hr Herr)
    as (st & Hscan & He & (v & Hv & Hn & Hrv) & Hepa & Hlat).
  split; [exact He|]. split.
  { exists content. split; [reflexivity|]. now rewrite Hscan. }
  split; [|exact Hlat].
  destruct (scan_lines_energy_pair _ _ _ _ Hfresh Hscan)
    as [En|(v' & q & _ & Hq)]; [congruence|].
  exists v, q. repeat split; congruence.
Qed.

(** X3: [read] leaves the [pyxtal] structure of the calculator in
    place: there is one after the read exactly when there was one
    before, with the same space group, the same species and as many
    sites, and its lattice is the lattice of the calculator after the
    read. *)
Theorem read_keeps_structure_identity
    (self : GULP) (fs : filesystem) (r : GULP) :
  read self fs = Ok r ->
  kept (pyxtal self) (pyxtal r)
  /\ (forall p, pyxtal r = Some p -> Pyxtal.lattice p = lattice r).
Proof.
  intros Hr. destruct (read_is_read_lines _ _ _ Hr) as [lines Hl].
  destruct (read_lines_frame _ _ _ Hl) as (_ & _ & Hk & Hp & _). auto.
Qed.

End ReadTheorems.

Lemma read_keeps_settings_witness :
  Lab.read_back = Ok (Lab.built Lab.read_back)
  /\ settings (Lab.built Lab.read_back) = settings Lab.single_point.
Proof.
  assert (Hr : Lab.read_back = Ok (Lab.built Lab.read_back))
    by (vm_compute; reflexivity).
  split; [exact Hr|].
  exact (proj1 (@read_keeps_settings (Lab.env "") Lab.single_point
                  Lab.disk_report (Lab.built Lab.read_back) Hr)).
Defined.

Lemma successful_read_witness :
  energy Lab.single_point = None
  /\ Lab.read_back = Ok (Lab.built Lab.read_back)
  /\ error (Lab.built Lab.read_back) = false
  /\ exists v q,
       energy (Lab.built Lab.read_back) = Some v
       /\ PyFloat.isnan v = false
       /\ energy_per_atom (Lab.built Lab.read_back) = Some q.
Proof.
  assert (Hr : Lab.read_back = Ok (Lab.built Lab.read_back))
    by (vm_compute; reflexivity).
  assert (He : error (Lab.built Lab.read_back) = false)
    by (vm_compute; reflexivity).
  split; [reflexivity|]. split; [exact Hr|]. split; [exact He|].
  exact (proj1 (proj2 (proj2
           (@successful_read_has_energy_and_lattice (Lab.env "")
              Lab.single_point Lab.disk_report (Lab.built Lab.read_back)
              eq_refl Hr He)))).
Defined.

Lemma read_keeps_structure_identity_witness :
  Lab.read_back_centred = Ok (Lab.built Lab.read_back_centred)
  /\ kept (Some Lab.centred_carbon)
       (pyxtal (Lab.built Lab.read_back_centred)).
Proof.
  assert (Hr : Lab.read_back_centred = Ok (Lab.built Lab.read_back_centred))
    by (vm_compute; reflexivity).
  split; [exact Hr|].
  exact (proj1 (@read_keeps_structure_identity (Lab.env "")
                  Lab.centred_zero_pressure _
                  (Lab.built Lab.read_back_centred) Hr)).
Defined.

(** ** The energy kept and two ways to an errored read (X4 to X6) *)

Section EnergyTheorems.
Context `{Collaborators}.

Lemma scan_from_keeps_marker ltype lines rest : forall i st,
  energy_marker (obj (fst (scan_from ltype lines i rest st)))
  = energy_marker (obj st).
Proof.
  intros i st.
  apply (scan_from_invariant
           (fun s => energy_marker (obj s) = energy_marker (obj st))).
  - intros j line s Hs. now rewrite scan_line_keeps_marker.
  - reflexivity.
Qed.

Lemma scan_line_energy_read ltype lines i line st st' mk g1 :
  energy_marker (obj st) = Ok mk ->
  PyStr.match_energy (marker_name mk) line = Some g1 ->
  scan_line ltype lines i line st = (st', None) ->
  exists v, PyFloat.of_string g1 = Ok v /\ energy (obj st') = Some v.
Proof.
  intros Hmk Hm. unfold scan_line, classify. rewrite Hmk.
  cbn [attempt]. rewrite Hm.
  destruct (PyFloat.of_string g1) as [v|x]; cbn [attempt raised];
    [|discriminate].
  destruct (PyFloat.truediv_int _ _) as [q|x]; cbn [attempt raised continue];
    [|discriminate].
  intros [= <-]. exists v. split; [reflexivity|].
  destruct st as [o lp lv]. destruct o. reflexivity.
Qed.

Lemma scan_from_last_energy ltype lines mk (e0 : option float) :
  forall rest i st st' seen,
    energy_marker (obj st) = Ok mk ->
    scan_from ltype lines i rest st = (st', None) ->
    match seen with
    | Some g1 => exists v, PyFloat.of_string g1 = Ok v
                           /\ energy (obj st) = Some v
    | None => energy (obj st) = e0
    end ->
    match last_energy (marker_name mk) rest seen with
    | Some g1 => exists v, PyFloat.of_string g1 = Ok v
                           /\ energy (obj st') = Some v
    | None => energy (obj st') = e0
    end.
Proof.
  induction rest as [|line rest IH]; intros i st st' seen Hmk Hrun Hseen.
  - cbn in Hrun. inversion Hrun; subst. exact Hseen.
  - cbn [scan_from] in Hrun. cbn [last_energy].
    destruct (scan_line ltype lines i line st) as [st1 [x|]] eqn:Hline;
      [discriminate|].
    assert (Hmk1 : energy_marker (obj st1) = Ok mk).
    { rewrite <- Hmk.
      pose proof (scan_line_keeps_marker ltype lines i line st) as K.
      now rewrite Hline in K. }
    apply (IH _ _ _ _ Hmk1 Hrun).
    destruct (PyStr.match_energy (marker_name mk) line) as [g1|] eqn:Hm.
    + exact (scan_line_energy_read _ _ _ _ _ _ _ _ Hmk Hm Hline).
    + destruct (scan_line_other_branch ltype lines i line st mk Hmk Hm)
        as [He _]. rewrite Hline in He. cbn [fst] in He.
      destruct seen as [g|]; [|congruence].
      destruct Hseen as (v & Hv & E). exists v. split; congruence.
Qed.

(** A run whose pattern cannot be chosen is always errored. *)
Lemma read_lines_without_marker self lines r x :
  energy_marker self = Raise x ->
  read_lines self lines = Ok r ->
  error r = true /\ energy r = None.
Proof.
  intros Hmk Hr.
  destruct (scan_lines (run_ltype self) lines self) as [st e] eqn:Hscan.
  destruct (read_lines_after_scan self lines st e Hscan)
    as (r' & Hr' & Hexn & Hlat & _).
  rewrite Hr in Hr'. inversion Hr'; subst r'. clear Hr'.
  unfold scan_lines in Hscan. destruct lines as [|line rest].
  - cbn in Hscan. inversion Hscan; subst. apply Hlat. split; reflexivity.
  - cbn [scan_from] in Hscan. unfold scan_line in Hscan. cbn [obj] in Hscan.
    rewrite Hmk in Hscan. cbn [attempt raised] in Hscan.
    inversion Hscan; subst. apply Hexn. discriminate.
Qed.

(** X4: when [read] ends with the error flag off, the energy it leaves
    is the number on the last line of the report that matches the
    energy pattern of the run, whatever the earlier matching lines
    gave; when no line matches, it is the energy the calculator had
    before the read. *)
Theorem energy_comes_from_last_matching_line
    (self : GULP) (fs : filesystem) (content : string) (r : GULP) :
  fs !! output self = Some content ->
  read self fs = Ok r ->
  error r = false ->
  exists mk v,
    energy_marker self = Ok mk
    /\ energy r = Some v
    /\ match last_energy (marker_name mk) (readlines content) None with
       | Some g1 => PyFloat.of_string g1 = Ok v
       | None => energy self = Some v
       end.
Proof.
  intros Hfile Hr Herr. unfold read in Hr. rewrite Hfile in Hr.
  destruct (energy_marker self) as [mk|x] eqn:Hmk.
  2: { destruct (read_lines_without_marker _ _ _ _ Hmk Hr). congruence. }
  destruct (read_lines_success _ _ _ Hr Herr)
    as (st & Hscan & _ & (v & Hv & _ & Hrv) & _).
  exists mk, v. split; [reflexivity|]. split; [exact Hrv|].
  unfold scan_lines in Hscan.
  pose proof (scan_from_last_energy _ _ mk (energy self) _ _
                {| obj := self; lattice_para := None; lattice_vector := None |}
                _ None Hmk Hscan eq_refl) as Hlast.
  destruct (last_energy _ _ _) as [g1|].
  - destruct Hlast as (v' & Hv' & E). rewrite Hv in E.
    inversion E; subst. exact Hv'.
  - congruence.
Qed.

(** X5: the symmetry switch needs a [pyxtal] structure: on a
    calculator built with the switch on and no such structure, or on
    one whose space-group symbol is empty, the energy pattern cannot be
    chosen, and every [read] ends errored with the energy unset,
    whatever the report holds. *)
Theorem read_without_marker_is_errored
    (self : GULP) (fs : filesystem) (r : GULP) :
  symmetry self = true ->
  pyxtal self = None
  \/ (exists p, pyxtal self = Some p /\ symbol (Pyxtal.group p) = "") ->
  read self fs = Ok r ->
  error r = true /\ energy r = None.
Proof.
  intros Hsym Hp Hr. destruct (read_is_read_lines _ _ _ Hr) as [lines Hl].
  assert (Hmk : exists x, energy_marker self = Raise x).
  { unfold energy_marker, nonprimitive_symmetry. rewrite Hsym.
    destruct Hp as [->|(p & -> & ->)]; cbn; eauto. }
  destruct Hmk as [x Hmk]. eapply read_lines_without_marker; eassumption.
Qed.

Lemma scan_from_asymmetric ltype lines mk :
  forall rest i st k line,
    energy_marker (obj st) = Ok mk ->
    pyxtal (obj st) = None ->
    nth_error rest k = Some line ->
    classify mk line = SAsymmetricUnit ->
    snd (scan_from ltype lines i rest st) <> None.
Proof.
  induction rest as [|l rest IH]; intros i st k line Hmk Hp Hk Hc.
  - destruct k; discriminate.
  - cbn [scan_from].
    destruct (scan_line ltype lines i l st) as [st1 [x|]] eqn:Hline;
      [cbn; discriminate|].
    destruct k as [|k].
    + cbn in Hk. inversion Hk; subst l. exfalso.
      unfold scan_line in Hline. rewrite Hmk in Hline. cbn [attempt] in Hline.
      rewrite Hc, Hp in Hline. discriminate.
    + cbn in Hk. apply (IH (S i) st1 k line); auto.
      * rewrite <- Hmk.
        pose proof (scan_line_keeps_marker ltype lines i l st) as K.
        now rewrite Hline in K.
      * pose proof (scan_line_pyxtal ltype lines i l st) as K.
        rewrite Hline, Hp in K. cbn in K.
        destruct (pyxtal (obj st1)); [destruct K|reflexivity].
Qed.

(** X6: without a [pyxtal] structure a report that has a section
    "Final asymmetric unit coordinates" cannot be read: the scan
    raises at that section at the latest, and [read] ends errored with
    the energy unset. *)
Theorem asymmetric_unit_needs_pyxtal
    (self : GULP) (fs : filesystem) (content : string) (r : GULP)
    (mk : marker) (line : string) :
  pyxtal self = None ->
  energy_marker self = Ok mk ->
  fs !! output self = Some content ->
  In line (readlines content) ->
  classify mk line = SAsymmetricUnit ->
  read self fs = Ok r ->
  error r = true /\ energy r = None.
Proof.
  intros Hp Hmk Hfile Hin Hc Hr. unfold read in Hr. rewrite Hfile in Hr.
  destruct (scan_lines (run_ltype self) (readlines content) self)
    as [st e] eqn:Hscan.
  destruct (read_lines_after_scan self _ st e Hscan)
    as (r' & Hr' & Hexn & _).
  rewrite Hr in Hr'. inversion Hr'; subst r'. apply Hexn.
  apply In_nth_error in Hin as [k Hk].
  pose proof (scan_from_asymmetric (run_ltype self) (readlines content) mk
                (readlines content) 0
                {| obj := self; lattice_para := None; lattice_vector := None |}
                k line Hmk Hp Hk Hc) as Hraise.
  unfold scan_lines in Hscan. now rewrite Hscan in Hraise.
Qed.

End EnergyTheorems.

Lemma energy_comes_from_last_matching_line_witness :
  Lab.disk_relaxed !! output Lab.single_point
  = Some (PyStr.concat Lab.report_relaxed)
  /\ Lab.read_relaxed = Ok (Lab.built Lab.read_relaxed)
  /\ error (Lab.built Lab.read_relaxed) = false
  /\ last_energy (marker_name LatticeEnergy)
       (readlines (PyStr.concat Lab.report_relaxed)) None
     = Some "-123.456000"
  /\ exists mk v,
       energy_marker Lab.single_point = Ok mk
       /\ energy (Lab.built Lab.read_relaxed) = Some v
       /\ match last_energy (marker_name mk)
                  (readlines (PyStr.concat Lab.report_relaxed)) None with
          | Some g1 => PyFloat.of_string g1 = Ok v
          | None => energy Lab.single_point = Some v
          end.
Proof.
  assert (Hf : Lab.disk_relaxed !! output Lab.single_point
               = Some (PyStr.concat Lab.report_relaxed))
    by (vm_compute; reflexivity).
  assert (Hr : Lab.read_relaxed = Ok (Lab.built Lab.read_relaxed))
    by (vm_compute; reflexivity).
  assert (He : error (Lab.built Lab.read_relaxed) = false)
    by (vm_compute; reflexivity).
  split; [exact Hf|]. split; [exact Hr|]. split; [exact He|].
  split; [vm_compute; reflexivity|].
  exact (@energy_comes_from_last_matching_line (Lab.env "") Lab.single_point
           Lab.disk_relaxed (PyStr.concat Lab.report_relaxed)
           (Lab.built Lab.read_relaxed) Hf Hr He).
Defined.

Lemma read_without_marker_witness :
  symmetry Lab.symmetric_atoms = true
  /\ pyxtal Lab.symmetric_atoms = None
  /\ @read (Lab.env "") Lab.symmetric_atoms Lab.disk_report
     = Ok (Lab.built (@read (Lab.env "") Lab.symmetric_atoms Lab.disk_report))
  /\ error (Lab.built (@read (Lab.env "") Lab.symmetric_atoms
                         Lab.disk_report)) = true.
Proof.
  assert (Hr : @read (Lab.env "") Lab.symmetric_atoms Lab.disk_report
               = Ok (Lab.built (@read (Lab.env "") Lab.symmetric_atoms
                                  Lab.disk_report)))
    by (vm_compute; reflexivity).
  split; [reflexivity|]. split; [reflexivity|]. split; [exact Hr|].
  exact (proj1 (@read_without_marker_is_errored (Lab.env "")
                  Lab.symmetric_atoms Lab.disk_report _ eq_refl
                  (or_introl eq_refl) Hr)).
Defined.

Lemma asymmetric_unit_witness :
  pyxtal Lab.single_point = None
  /\ energy_marker Lab.single_point = Ok LatticeEnergy
  /\ nth_error (readlines (PyStr.concat Lab.report_asymmetric)) 6
     = Some ("  Final asymmetric unit coordinates :" +:+ nl)
  /\ classify LatticeEnergy ("  Final asymmetric unit coordinates :" +:+ nl)
     = SAsymmetricUnit
  /\ exists r,
       @read (Lab.env "") Lab.single_point
         (Lab.disk (PyStr.concat Lab.report_asymmetric)) = Ok r
       /\ error r = true /\ energy r = None.
Proof.
  assert (Hk : nth_error (readlines (PyStr.concat Lab.report_asymmetric)) 6
               = Some ("  Final asymmetric unit coordinates :" +:+ nl))
    by (vm_compute; reflexivity).
  split; [reflexivity|]. split; [reflexivity|]. split; [exact Hk|].
  split; [vm_compute; reflexivity|].
  exists (Lab.built (@read (Lab.env "") Lab.single_point
                       (Lab.disk (PyStr.concat Lab.report_asymmetric)))).
  assert (Hr : @read (Lab.env "") Lab.single_point
                 (Lab.disk (PyStr.concat Lab.report_asymmetric))
               = Ok (Lab.built (@read (Lab.env "") Lab.single_point
                       (Lab.disk (PyStr.concat Lab.report_asymmetric)))))
    by (vm_compute; reflexivity).
  split; [exact Hr|].
  exact (@asymmetric_unit_needs_pyxtal (Lab.env "") Lab.single_point
           (Lab.disk (PyStr.concat Lab.report_asymmetric))
           (PyStr.concat Lab.report_asymmetric) _ LatticeEnergy
           ("  Final asymmetric unit coordinates :" +:+ nl)
           eq_refl eq_refl ltac:(vm_compute; reflexivity)
           (nth_error_In _ _ Hk) ltac:(vm_compute; reflexivity) Hr).
Defined.

(** ** The two tables (X7) *)

Section Tables.

Lemma res_map_length {A B} (f : A -> res B) : forall l bs,
  res_map f l = Ok bs -> length bs = length l.
Proof.
  induction l as [|a l IH]; intros bs; cbn.
  - now intros [= <-].
  - destruct (f a); cbn [res_bind]; [|discriminate].
    destruct (res_map f l) as [bs'|]; cbn [res_bind]; [|discriminate].
    intros [= <-]. cbn. now rewrite (IH bs').
Qed.

Lemma res_map_forall {A B} (f : A -> res B) (P : B -> Prop) :
  (forall a b, f a = Ok b -> P b) ->
  forall l bs, res_map f l = Ok bs -> Forall P bs.
Proof.
  intros Hf. induction l as [|a l IH]; intros bs; cbn.
  - intros [= <-]. constructor.
  - destruct (f a) as [b|] eqn:Hb; cbn [res_bind]; [|discriminate].
    destruct (res_map f l) as [bs'|]; cbn [res_bind]; [|discriminate].
    intros [= <-]. constructor; eauto.
Qed.

Lemma force_row_length line G : force_row line = Ok G -> length G = 3%nat.
Proof.
  unfold force_row. destruct (force_fields line) as [[g0 g1] g2].
  apply res_map_length.
Qed.

Lemma force_table_rows rows sep rest :
  Forall (fun l => found l separator = false) rows ->
  found sep separator = true ->
  force_table (rows ++ sep :: rest) = res_map force_row rows.
Proof.
  intros Hrows Hsep.
  induction Hrows as [|l rows Hl _ IH]; cbn [app force_table res_map].
  - now rewrite Hsep.
  - rewrite Hl, IH. reflexivity.
Qed.

Lemma frac_table_rows rows sep rest :
  Forall (fun l => found l separator = false) rows ->
  found sep separator = true ->
  frac_table (rows ++ sep :: rest) = res_map frac_row rows.
Proof.
  intros Hrows Hsep.
  induction Hrows as [|l rows Hl _ IH]; cbn [app frac_table res_map].
  - now rewrite Hsep.
  - rewrite Hl, IH. unfold frac_row.
    destruct (xyz_of l); cbn [res_bind]; [|reflexivity].
    destruct (index (PyStr.split l) 1); reflexivity.
Qed.

Lemma force_table_open rows :
  Forall (fun l => found l separator = false) rows ->
  is_ok (force_table rows) = false.
Proof.
  induction 1 as [|l rows Hl _ IH]; cbn [force_table]; [reflexivity|].
  rewrite Hl. destruct (force_row l); cbn [res_bind]; [|reflexivity].
  destruct (force_table rows); [discriminate|reflexivity].
Qed.

Lemma frac_table_open rows :
  Forall (fun l => found l separator = false) rows ->
  is_ok (frac_table rows) = false.
Proof.
  induction 1 as [|l rows Hl _ IH]; cbn [frac_table]; [reflexivity|].
  rewrite Hl. destruct (xyz_of l); cbn [res_bind]; [|reflexivity].
  destruct (index (PyStr.split l) 1); cbn [res_bind]; [|reflexivity].
  destruct (frac_table rows); [discriminate|reflexivity].
Qed.

(** X7: the force table and the table of fractional coordinates are
    the rows before the first line holding a run of twelve dashes,
    parsed row by row; the lines after it play no part. Every force
    vector has three components and there are as many as rows; a table
    that no such line closes is never read (the scan runs past the end
    of the report or fails on a row). *)
Theorem tables_end_at_first_separator
    (rows : list string) (sep : string) (rest : list string) :
  Forall (fun l => found l separator = false) rows ->
  found sep separator = true ->
  force_table (rows ++ sep :: rest) = res_map force_row rows
  /\ frac_table (rows ++ sep :: rest) = res_map frac_row rows
  /\ (forall f, force_table (rows ++ sep :: rest) = Ok f ->
        length f = length rows /\ Forall (fun G => length G = 3%nat) f)
  /\ (forall p, frac_table (rows ++ sep :: rest) = Ok p ->
        length p = length rows)
  /\ is_ok (force_table rows) = false
  /\ is_ok (frac_table rows) = false.
Proof.
  intros Hrows Hsep.
  rewrite (force_table_rows rows sep rest Hrows Hsep).
  rewrite (frac_table_rows rows sep rest Hrows Hsep).
  split; [reflexivity|]. split; [reflexivity|]. split; [|split; [|split]].
  - intros f Hf. split; [exact (res_map_length _ _ _ Hf)|].
    exact (res_map_forall _ _ force_row_length _ _ Hf).
  - intros p Hp. exact (res_map_length _ _ _ Hp).
  - now apply force_table_open.
  - now apply frac_table_open.
Qed.

End Tables.

(** ** The files of a run (X8, X9) *)

Section Files.
Context `{Collaborators}.

Lemma os_remove_other (path other : string) (fs fs' : filesystem) :
  os_remove path fs = Ok fs' -> other <> path -> fs' !! other = fs !! other.
Proof.
  unfold os_remove. destruct (fs !! path); [|discriminate].
  intros [= <-] Hne. now apply lookup_delete_ne.
Qed.

Lemma clean_frame (self : GULP) (fs fs' : filesystem) :
  clean self fs = Ok fs' ->
  fs' !! input self = None
  /\ fs' !! output self = None
  /\ (forall d, dump self = Some d -> fs' !! d = None)
  /\ (forall p, p <> input self -> p <> output self -> dump self <> Some p ->
        fs' !! p = fs !! p).
Proof.
  unfold clean.
  destruct (os_remove (input self) fs) as [fs1|x] eqn:H1;
    cbn [res_bind]; [|discriminate].
  destruct (os_remove (output self) fs1) as [fs2|x] eqn:H2;
    cbn [res_bind]; [|discriminate].
  pose proof (os_remove_gone _ _ _ H1) as G1.
  pose proof (os_remove_keeps_absent _ _ _ _ H2 G1) as G2.
  pose proof (os_remove_gone _ _ _ H2) as G3.
  destruct (dump self) as [d|].
  - intros H3. split; [exact (os_remove_keeps_absent _ _ _ _ H3 G2)|].
    split; [exact (os_remove_keeps_absent _ _ _ _ H3 G3)|].
    split; [intros d' [= <-]; exact (os_remove_gone _ _ _ H3)|].
    intros p P1 P2 P3.
    rewrite (os_remove_other _ p _ _ H3) by congruence.
    rewrite (os_remove_other _ p _ _ H2) by congruence.
    now rewrite (os_remove_other _ p _ _ H1) by congruence.
  - intros [= <-]. split; [exact G2|]. split; [exact G3|].
    split; [discriminate|]. intros p P1 P2 _.
    rewrite (os_remove_other _ p _ _ H2) by congruence.
    now rewrite (os_remove_other _ p _ _ H1) by congruence.
Qed.

(** X8: a cleanup that succeeds leaves no input, output or dump file
    and touches no other file. *)
Theorem clean_touches_only_its_files (self : GULP) (fs fs' : filesystem) :
  clean self fs = Ok fs' ->
  fs' !! input self = None
  /\ fs' !! output self = None
  /\ (forall d, dump self = Some d -> fs' !! d = None)
  /\ (forall p, p <> input self -> p <> output self -> dump self <> Some p ->
        fs' !! p = fs !! p).
Proof. apply clean_frame. Qed.

Lemma settings_files (a b : GULP) :
  settings a = settings b ->
  input a = input b /\ output a = output b /\ dump a = dump b.
Proof. unfold settings. intros [=]. auto. Qed.

(** X9: a [run] that returns wrote the whole input file, started the
    executable on it and read the output the executable left; the
    settings of the calculator are those it was started with. Without
    [clean] the files are as the executable left them; with [clean] the
    input, output and dump files are gone and every other file is as the
    executable left it, also when the read ended errored. *)
Theorem run_writes_executes_reads_cleans
    (self : GULP) (do_clean : bool) (fs : filesystem) (r : GULP)
    (fs' : filesystem) :
  run self do_clean fs = Ok (r, fs') ->
  let fs2 :=
    execute self
      (<[input self := PyStr.concat (fst (write_chunks self))]> fs) in
  snd (write_chunks self) = None
  /\ read self fs2 = Ok r
  /\ settings r = settings self
  /\ (do_clean = false -> fs' = fs2)
  /\ (do_clean = true ->
      fs' !! input self = None
      /\ fs' !! output self = None
      /\ (forall d, dump self = Some d -> fs' !! d = None)
      /\ (forall p, p <> input self -> p <> output self ->
            dump self <> Some p -> fs' !! p = fs2 !! p)).
Proof.
  unfold run, write.
  destruct (write_chunks self) as [chunks [x|]]; [discriminate|].
  cbn [fst snd].
  destruct (read self _) as [r'|x] eqn:Hr; cbn [res_bind]; [|discriminate].
  destruct (read_is_read_lines _ _ _ Hr) as [lines Hl].
  destruct (read_lines_frame _ _ _ Hl) as (Hs & _).
  destruct do_clean.
  - destruct (clean r' _) as [fs3|x] eqn:Hc; cbn [res_bind]; [|discriminate].
    intros [= <- <-].
    destruct (settings_files _ _ Hs) as (Ei & Eo & Ed).
    destruct (clean_frame _ _ _ Hc) as (C1 & C2 & C3 & C4).
    rewrite Ei, Eo, Ed in *.
    split; [reflexivity|]. split; [reflexivity|]. split; [exact Hs|].
    split; [discriminate|]. auto.
  - intros [= <- <-].
    split; [reflexivity|]. split; [reflexivity|]. split; [exact Hs|].
    split; [reflexivity|]. discriminate.
Qed.

End Files.

Lemma tables_end_at_first_separator_witness :
  Forall (fun l => found l separator = false) Lab.force_rows
  /\ found Lab.closing separator = true
  /\ force_table (Lab.force_rows ++ Lab.closing :: ["  Final energy"])
     = res_map force_row Lab.force_rows
  /\ is_ok (force_table (Lab.force_rows ++ Lab.closing :: ["  Final energy"]))
     = true
  /\ is_ok (force_table Lab.force_rows) = false.
Proof.
  assert (Hrows : Forall (fun l => found l separator = false) Lab.force_rows)
    by (repeat constructor).
  assert (Hsep : found Lab.closing separator = true)
    by (vm_compute; reflexivity).
  split; [exact Hrows|]. split; [exact Hsep|].
  destruct (tables_end_at_first_separator Lab.force_rows Lab.closing
              ["  Final energy"] Hrows Hsep)
    as (Hf & _ & _ & _ & Hopen & _).
  split; [exact Hf|]. split; [vm_compute; reflexivity | exact Hopen].
Defined.

Lemma clean_touches_only_its_files_witness :
  clean Lab.single_point Lab.disk_with_notes
  = Ok (Lab.files (clean Lab.single_point Lab.disk_with_notes))
  /\ Lab.files (clean Lab.single_point Lab.disk_with_notes)
     !! input Lab.single_point = None
  /\ Lab.files (clean Lab.single_point Lab.disk_with_notes) !! "notes.txt"
     = Lab.disk_with_notes !! "notes.txt".
Proof.
  assert (Hc : clean Lab.single_point Lab.disk_with_notes
               = Ok (Lab.files (clean Lab.single_point Lab.disk_with_notes)))
    by (vm_compute; reflexivity).
  split; [exact Hc|].
  destruct (@clean_touches_only_its_files Lab.single_point
              Lab.disk_with_notes _ Hc) as (Hin & _ & _ & Hother).
  split; [exact Hin|].
  apply Hother; vm_compute; discriminate.
Defined.

Lemma run_writes_executes_reads_cleans_witness :
  Lab.clean_run = Ok (Lab.ran Lab.clean_run)
  /\ settings (fst (Lab.ran Lab.clean_run)) = settings Lab.single_point
  /\ snd (Lab.ran Lab.clean_run) !! input Lab.single_point = None
  /\ snd (Lab.ran Lab.clean_run) !! output Lab.single_point = None.
Proof.
  assert (Hr : Lab.clean_run
               = Ok (fst (Lab.ran Lab.clean_run),
                     snd (Lab.ran Lab.clean_run)))
    by (vm_compute; reflexivity).
  split; [vm_compute; reflexivity|].
  destruct (@run_writes_executes_reads_cleans (Lab.env Lab.zero_energy_output)
              Lab.single_point true _ _ _ Hr)
    as (_ & _ & Hs & _ & Hclean).
  split; [exact Hs|].
  destruct (Hclean eq_refl) as (Hin & Hout & _). auto.
Defined.

(** ** Completion of [write] and of [to_pyxtal] (X10, X11) *)

Section WriterErrors.
Context `{Collaborators}.

Lemma snd_wseq (a b : written) :
  snd (a >> b) = match snd a with Some e => Some e | None => snd b end.
Proof. destruct a as [ca [x|]]; reflexivity. Qed.

Lemma snd_wfor {A} (body : A -> written) (l : list A) :
  (forall a, snd (body a) = None) -> snd (wfor body l) = None.
Proof.
  intros Hb. induction l as [|a l IH]; [reflexivity|].
  cbn [wfor]. now rewrite snd_wseq, Hb.
Qed.

Lemma snd_write_site role symbol coord :
  snd (write_site role symbol coord)
  = if (3 <=? length coord)%nat then None else Some IndexError.
Proof. destruct coord as [|x [|y [|z coord]]]; reflexivity. Qed.

Lemma snd_wfor_sites {A} (body : A -> written) (coord : A -> vec) (l : list A) :
  (forall a, snd (body a)
             = if (3 <=? length (coord a))%nat then None else Some IndexError) ->
  snd (wfor body l)
  = if forallb (fun c => (3 <=? length c)%nat) (map coord l)
    then None else Some IndexError.
Proof.
  intros Hb. induction l as [|a l IH]; [reflexivity|].
  cbn [wfor map forallb]. rewrite snd_wseq, Hb.
  destruct (3 <=? length (coord a))%nat; [exact IH|reflexivity].
Qed.

Lemma snd_write_coords (self : GULP) :
  snd (write_coords self)
  = if forallb (fun c => (3 <=? length c)%nat) (written_coords self)
    then None else Some IndexError.
Proof.
  unfold write_coords, written_coords.
  destruct (symmetry self), (pyxtal self) as [p|];
    try (apply snd_wfor_sites; intros [c s]; apply snd_write_site).
  rewrite snd_wseq.
  rewrite (snd_wfor_sites _ position).
  - now destruct (forallb _ _).
  - intros site. rewrite snd_wseq, snd_write_site.
    destruct (3 <=? length (position site))%nat eqn:E; [|reflexivity].
    destruct (_ && _); [|reflexivity].
    now rewrite snd_write_site, E.
Qed.

Lemma snd_write_species (self : GULP) :
  snd (write_species self)
  = match species self with Some _ => Some AttributeError | None => None end.
Proof.
  unfold write_species. destruct (species self); [reflexivity|].
  rewrite snd_wseq. cbn [snd wr].
  destruct (labels self) as [lb|]; apply snd_wfor; intros specie.
  - now destruct (lb !! specie).
  - now destruct (_ && _).
Qed.

Lemma snd_write_trailer (self : GULP) : snd (write_trailer self) = None.
Proof.
  unfold write_trailer.
  destruct (negb _), (pstress self), (dump self); reflexivity.
Qed.

Lemma snd_write_chunks (self : GULP) :
  snd (write_chunks self)
  = if forallb (fun c => (3 <=? length c)%nat) (written_coords self)
    then match species self with
         | Some _ => Some AttributeError
         | None => None
         end
    else Some IndexError.
Proof.
  unfold write_chunks. rewrite !snd_wseq.
  replace (snd (write_mode self)) with (@None exn)
    by (unfold write_mode;
        destruct (String.eqb (opt self) "conv"),
          (String.eqb (opt self) "single"), (negb (symmetry self));
        reflexivity).
  replace (snd (write_cell self)) with (@None exn) by reflexivity.
  rewrite snd_write_coords, snd_write_species, snd_write_trailer.
  destruct (forallb _ _); [|reflexivity]. now destruct (species self).
Qed.

(** X10: [write] completes exactly when every coordinate row it
    prints has at least three components and the species attribute is
    unset, as the constructor leaves it; a shorter row ends it with an
    [IndexError], and with the species attribute set the species block
    ends it with an [AttributeError]. *)
Theorem write_needs_three_coordinates (self : GULP) :
  snd (write_chunks self)
  = if forallb (fun c => (3 <=? length c)%nat) (written_coords self)
    then match species self with
         | Some _ => Some AttributeError
         | None => None
         end
    else Some IndexError.
Proof. apply snd_write_chunks. Qed.

Lemma to_pyxtal_loop_first (a : Atoms.t) : forall tols last,
  tols <> [] ->
  exists k tol,
    nth_error tols k = Some tol
    /\ to_pyxtal_loop a tols last = Ok (fst (from_seed a tol))
    /\ (forall j t, (j < k)%nat -> nth_error tols j = Some t ->
          snd (from_seed a t) <> None)
    /\ (snd (from_seed a tol) = None \/ S k = length tols).
Proof.
  induction tols as [|tol tols IH]; intros last Hne; [congruence|].
  cbn [to_pyxtal_loop]. destruct (from_seed a tol) as [p [x|]] eqn:E.
  - destruct tols as [|tol' tols].
    + exists 0%nat, tol. rewrite E. cbn. repeat split; auto. lia.
    + destruct (IH (Some p)) as (k & t & Hk & Hr & Hbefore & Hlast);
        [discriminate|].
      exists (S k), t. split; [exact Hk|]. split; [exact Hr|]. split.
      * intros [|j] t' Hj Hn.
        -- cbn in Hn. inversion Hn; subst. rewrite E. discriminate.
        -- apply (Hbefore j t'); [lia|exact Hn].
      * destruct Hlast as [Hl|Hl]; [now left|right].
        cbn [length] in *. lia.
  - exists 0%nat, tol. rewrite E. cbn. repeat split; auto. lia.
Qed.

(** X11: [to_pyxtal] always returns an object: the one of the first
    tolerance among 1e-2, 1e-3, 1e-4, 1e-5, in this order, for which the
    symmetry search does not raise, and when it raises for all four, the
    object the last attempt left behind. *)
Theorem to_pyxtal_returns_first_success (self : GULP) :
  exists k tol,
    nth_error tolerances k = Some tol
    /\ to_pyxtal self = Ok (fst (from_seed (to_ase self) tol))
    /\ (forall j t, (j < k)%nat -> nth_error tolerances j = Some t ->
          snd (from_seed (to_ase self) t) <> None)
    /\ (snd (from_seed (to_ase self) tol) = None
        \/ S k = length tolerances).
Proof. apply to_pyxtal_loop_first. discriminate. Qed.

End WriterErrors.

(** ** The exceptions of the drivers (X12 to X15) *)

Section Exceptions.
Context `{Collaborators}.

Lemma read_lines_total self lines : exists r, read_lines self lines = Ok r.
Proof.
  destruct (scan_lines (run_ltype self) lines self) as [st e] eqn:Hscan.
  destruct (read_lines_after_scan self lines st e Hscan) as (r & Hr & _).
  eauto.
Qed.

Lemma read_raises self fs e :
  read self fs = Raise e -> e = FileNotFoundError /\ fs !! output self = None.
Proof.
  unfold read. destruct (fs !! output self) as [content|].
  - destruct (read_lines_total self (readlines content)) as [r ->].
    discriminate.
  - intros [= <-]. auto.
Qed.

Lemma os_remove_raises path fs e :
  os_remove path fs = Raise e -> e = FileNotFoundError.
Proof. unfold os_remove. destruct (fs !! path); congruence. Qed.

Lemma clean_raises self fs e : clean self fs = Raise e -> e = FileNotFoundError.
Proof.
  unfold clean.
  destruct (os_remove (input self) fs) as [fs1|x] eqn:H1; cbn [res_bind];
    [|intros [= <-]; eapply os_remove_raises; eauto].
  destruct (os_remove (output self) fs1) as [fs2|x] eqn:H2; cbn [res_bind];
    [|intros [= <-]; eapply os_remove_raises; eauto].
  destruct (dump self); [apply os_remove_raises|discriminate].
Qed.

Lemma run_raises self do_clean fs e :
  run self do_clean fs = Raise e ->
  snd (write_chunks self) = Some e
  \/ (snd (write_chunks self) = None /\ e = FileNotFoundError).
Proof.
  unfold run, write. destruct (write_chunks self) as [chunks [x|]]; cbn [snd].
  - intros [= <-]. now left.
  - destruct (read self _) as [r|x] eqn:Hr; cbn [res_bind].
    + destruct do_clean; [|discriminate].
      destruct (clean r _) as [fs3|x] eqn:Hc; cbn [res_bind]; [discriminate|].
      intros [= <-]. right. split; [reflexivity|]. eapply clean_raises; eauto.
    + intros [= <-]. right. split; [reflexivity|].
      now apply read_raises in Hr.
Qed.

Lemma single_optimize_raises struc ff steps pstress opt exe path label
    do_clean symm labels fs e :
  single_optimize struc ff steps pstress opt exe path label do_clean
    symm labels fs = Raise e ->
  (struc = AOther /\ e = NotImplementedError)
  \/ e = IndexError
  \/ e = FileNotFoundError.
Proof.
  unfold single_optimize.
  destruct (init _ _ _ _ _ _ _ _ _ _ _ _ _) as [calc|x] eqn:Hinit;
    cbn [res_bind].
  - destruct (init_fresh _ _ _ _ _ _ _ _ _ _ _ _ _ _ Hinit)
      as (_ & _ & _ & Hsp & _).
    destruct (run calc do_clean fs) as [[calc' fs1]|x] eqn:Hrun;
      cbn [res_bind].
    + destruct (error calc'); [discriminate|].
      destruct (pyxtal calc') as [p|]; cbn [res_bind]; [discriminate|].
      destruct (to_pyxtal_total calc') as [p ->]. discriminate.
    + intros [= <-]. apply run_raises in Hrun as [Hw|[_ ->]]; [|auto].
      rewrite snd_write_chunks, Hsp in Hw.
      destruct (forallb _ _); [discriminate|]. inversion Hw; auto.
  - intros [= <-]. left.
    destruct struc as [p|a|]; cbn in Hinit; inversion Hinit; auto.
Qed.

(** X12: [single_optimize] lets only three exceptions out: the
    [NotImplementedError] of a structure that is neither a [pyxtal] nor
    an [Atoms] object, the [IndexError] of a coordinate row with fewer
    than three components met while the input is written, and the
    missing-file error of reading the output or deleting the files.
    Nothing that goes wrong in parsing the report is raised. *)
Theorem single_optimize_exceptions
    (struc : structure_arg) (ff : string) (steps : Z)
    (pstress : option float) (opt exe path label : string)
    (do_clean symm : bool) (labels : option (gmap string string))
    (fs : filesystem) (e : exn) :
  single_optimize struc ff steps pstress opt exe path label do_clean
    symm labels fs = Raise e ->
  (struc = AOther /\ e = NotImplementedError)
  \/ e = IndexError
  \/ e = FileNotFoundError.
Proof. apply single_optimize_raises. Qed.

(** X13: what [single_optimize] returns is either the failure tuple
    [(None, None, 0, True)] or a structure with an energy per atom and
    the error flag off; the time is the integer 0 or a float. *)
Theorem single_optimize_outcome
    (struc : structure_arg) (ff : string) (steps : Z)
    (pstress : option float) (opt exe path label : string)
    (do_clean symm : bool) (labels : option (gmap string string))
    (fs : filesystem) (o : outcome) (fs' : filesystem) :
  single_optimize struc ff steps pstress opt exe path label do_clean
    symm labels fs = Ok (o, fs') ->
  (o = failure
   \/ (out_error o = false
       /\ (exists p, out_struc o = Some p)
       /\ (exists e, out_energy o = Some e)))
  /\ (out_time o = PyInt 0 \/ exists t, out_time o = PyFlt t).
Proof. apply single_optimize_result. Qed.

(** The loop of [optimize] from a state whose time is the integer 0 or
    a float. *)
Lemma optimize_loop_raises ff exe pstress path label do_clean adjust :
  forall optimizations st e,
    (l_time st = PyInt 0 \/ exists t, l_time st = PyFlt t) ->
    optimize_loop ff optimizations exe pstress path label do_clean adjust st
    = Raise e ->
    (optimizations = [] /\ l_energy st = None /\ e = UnboundLocalError)
    \/ (l_struc st = AOther /\ e = NotImplementedError)
    \/ e = IndexError
    \/ e = FileNotFoundError.
Proof.
  induction optimizations as [|opt rest IH]; intros st e Ht Hrun.
  - cbn in Hrun. destruct (l_energy st); [discriminate|].
    inversion Hrun. auto.
  - cbn [optimize_loop] in Hrun.
    destruct (single_optimize _ _ _ _ _ _ _ _ _ _ _ _) as [[o fs]|x] eqn:Hpass;
      cbn [res_bind] in Hrun.
    2: { inversion Hrun; subst.
         apply single_optimize_raises in Hpass as [[-> ->]|Hx]; auto. }
    destruct (single_optimize_result _ _ _ _ _ _ _ _ _ _ _ _ _ _ Hpass)
      as [Hshape Htime].
    destruct (pynum_add_shapes _ _ Ht Htime) as (t & Hadd & Ht').
    rewrite Hadd in Hrun. cbn [res_bind] in Hrun.
    destruct Hshape as [->|(Herr & [p Hp] & [en Hen])].
    + discriminate.
    + rewrite Herr, Hp, Hen in Hrun. cbn [is_near_zero] in Hrun.
      destruct adjust; cbn [res_bind] in Hrun;
        [destruct (PyFloat.ltb _ _); cbn [res_bind] in Hrun|];
        apply IH in Hrun; cbn in *; auto;
        destruct Hrun as [(_ & ? & _)|[(? & _)|?]]; auto; discriminate.
Qed.

(** X14: [optimize] lets out only the exceptions of its passes: the
    unbound [energy] of an empty list of passes, the
    [NotImplementedError] of an unsupported structure (at the first
    pass only), an [IndexError] from writing the input, or a
    missing-file error. The arithmetic on the total time, the test of
    the energy and the rescaling of the lattice never raise. *)
Theorem optimize_exceptions
    (struc : structure_arg) (ff : string) (optimizations : list string)
    (exe : string) (pstress : option float) (path label : string)
    (do_clean adjust : bool) (fs : filesystem) (e : exn) :
  optimize struc ff optimizations exe pstress path label do_clean adjust fs
  = Raise e ->
  (optimizations = [] /\ e = UnboundLocalError)
  \/ (struc = AOther /\ e = NotImplementedError)
  \/ e = IndexError
  \/ e = FileNotFoundError.
Proof.
  unfold optimize. intros Hrun.
  apply optimize_loop_raises in Hrun; cbn in *; [|auto].
  destruct Hrun as [(? & _ & ?)|[?|?]]; auto.
Qed.

Lemma optimize_loop_exe ff exe1 exe2 pstress path label do_clean adjust :
  forall optimizations st,
    optimize_loop ff optimizations exe1 pstress path label do_clean adjust st
    = optimize_loop ff optimizations exe2 pstress path label do_clean adjust st.
Proof.
  induction optimizations as [|opt rest IH]; intros st; [reflexivity|].
  cbn [optimize_loop].
  replace (single_optimize (l_struc st) ff 1000 pstress opt exe1 path label
             do_clean false None (l_fs st))
    with (single_optimize (l_struc st) ff 1000 pstress opt exe2 path label
            do_clean false None (l_fs st)) by reflexivity.
  destruct (single_optimize _ _ _ _ _ _ _ _ _ _ _ _) as [[o fs]|x];
    cbn [res_bind]; [|reflexivity].
  destruct (pynum_add _ _); cbn [res_bind]; [|reflexivity].
  destruct (out_error o); [reflexivity|].
  destruct (if adjust then _ else _); cbn [res_bind]; [|reflexivity].
  match goal with
  | |- res_bind ?s _ = _ => destruct s
  end; cbn [res_bind]; [apply IH|reflexivity].
Qed.

(** X15: the [exe] argument of [optimize] and of [single_optimize]
    has no effect: it is not handed to the calculator, so any two
    values give the same run, and the command a pass starts is always
    the default executable [gulp] on the files [gulp.in] and [gulp.log]
    of the folder, prefixed by the label. *)
Theorem exe_argument_is_ignored
    (struc : structure_arg) (ff : string) (optimizations : list string)
    (exe1 exe2 : string) (pstress : option float) (path label : string)
    (do_clean adjust : bool) (fs : filesystem) :
  optimize struc ff optimizations exe1 pstress path label do_clean adjust fs
  = optimize struc ff optimizations exe2 pstress path label do_clean adjust fs
  /\ (forall steps opt symm labels,
        single_optimize struc ff steps pstress opt exe1 path label do_clean
          symm labels fs
        = single_optimize struc ff steps pstress opt exe2 path label do_clean
            symm labels fs)
  /\ (forall steps opt symm labels o fs',
        single_optimize struc ff steps pstress opt exe1 path label do_clean
          symm labels fs = Ok (o, fs') ->
        exists calc r,
          init struc label path ff pstress opt steps "gulp" "gulp.in"
            "gulp.log" None symm labels = Ok calc
          /\ input calc = path +:+ "/" +:+ label +:+ "gulp.in"
          /\ output calc = path +:+ "/" +:+ label +:+ "gulp.log"
          /\ read calc
               (os_system ("gulp" +:+ "<" +:+ input calc +:+ ">"
                           +:+ output calc)
                  (<[input calc := PyStr.concat (fst (write_chunks calc))]> fs))
             = Ok r).
Proof.
  split; [apply optimize_loop_exe|]. split; [reflexivity|].
  intros steps opt symm labels o fs'. unfold single_optimize.
  destruct (init _ _ _ _ _ _ _ _ _ _ _ _ _) as [calc|x] eqn:Hinit;
    cbn [res_bind]; [|discriminate].
  destruct (run calc do_clean fs) as [[calc' fs1]|x] eqn:Hrun;
    cbn [res_bind]; [|discriminate].
  intros _. exists calc, calc'. split; [reflexivity|].
  assert (Hexe : exe calc = "gulp"
                 /\ input calc = path +:+ "/" +:+ label +:+ "gulp.in"
                 /\ output calc = path +:+ "/" +:+ label +:+ "gulp.log").
  { destruct struc; cbn in Hinit; inversion Hinit; auto. }
  destruct Hexe as (Hexe & Hin & Hout).
  split; [exact Hin|]. split; [exact Hout|].
  assert (Hcmd : forall fs0,
            execute calc fs0
            = os_system ("gulp" +:+ "<" +:+ input calc +:+ ">"
                         +:+ output calc) fs0).
  { intros fs0. unfold execute. now rewrite Hexe. }
  rewrite <- Hcmd. unfold run, write in Hrun.
  destruct (write_chunks calc) as [chunks [x|]]; [discriminate|].
  cbn [fst].
  destruct (read calc _) as [r|x]; cbn [res_bind] in Hrun; [|discriminate].
  destruct do_clean.
  - destruct (clean r _); cbn [res_bind] in Hrun; [|discriminate].
    now inversion Hrun.
  - now inversion Hrun.
Qed.

End Exceptions.

(** ** The passes of [optimize] (X16) *)

Section PassTrace.
Context `{Collaborators}.

Lemma optimize_loop_trace ff exe pstress path label do_clean adjust :
  forall optimizations st r,
    optimize_loop ff optimizations exe pstress path label do_clean adjust st
    = Ok r ->
    exists ran,
      r_passes r = l_passes st ++ ran
      /\ map pass_opt ran = firstn (length ran) optimizations
      /\ (forall p, nth_error ran 0 = Some p -> pass_struc p = l_struc st)
      /\ (forall k p, nth_error ran (S k) = Some p ->
            exists q, pass_struc p = APyxtal q)
      /\ (r_error r = false ->
          length ran = length optimizations
          /\ match optimizations with
             | [] => r_struc r = Some (l_struc st)
                     /\ l_energy st = Some (r_energy r)
             | _ :: _ => (exists q, r_struc r = Some (APyxtal q))
                         /\ exists e, r_energy r = Some e
             end)
      /\ (r_error r = true ->
          ran <> [] /\ r_struc r = None /\ r_energy r = None
          /\ r_time r = PyInt 0).
Proof.
  induction optimizations as [|opt rest IH]; intros st r Hrun.
  - cbn in Hrun. destruct (l_energy st) as [en|] eqn:Hen; [|discriminate].
    inversion Hrun; subst; cbn. exists []. rewrite app_nil_r.
    repeat split; try discriminate; try congruence;
      intros [|k] p Hp; discriminate.
  - cbn [optimize_loop] in Hrun.
    destruct (single_optimize _ _ _ _ _ _ _ _ _ _ _ _) as [[o fs]|x] eqn:Hpass;
      cbn [res_bind] in Hrun; [|discriminate].
    destruct (single_optimize_result _ _ _ _ _ _ _ _ _ _ _ _ _ _ Hpass)
      as [Hshape _].
    destruct (pynum_add _ _) as [t|x]; cbn [res_bind] in Hrun; [|discriminate].
    destruct Hshape as [->|(Herr & [p Hp] & [en Hen])].
    + cbn in Hrun. inversion Hrun; subst; cbn.
      exists [mk_pass (l_struc st) opt]. cbn.
      repeat split; try discriminate; try congruence.
      * intros p [= <-]. reflexivity.
      * intros [|k] p Hp; discriminate.
    + rewrite Herr, Hp, Hen in Hrun. cbn [is_near_zero] in Hrun.
      assert (Hnext : exists q,
                optimize_loop ff rest exe pstress path label do_clean adjust
                  {| l_struc := APyxtal q; l_energy := Some (Some en);
                     l_time := t; l_fs := fs;
                     l_passes := l_passes st ++ [mk_pass (l_struc st) opt] |}
                = Ok r).
      { destruct adjust; cbn [res_bind] in Hrun;
          [destruct (PyFloat.ltb _ _); cbn [res_bind] in Hrun|]; eauto. }
      clear Hrun. destruct Hnext as [q Hrun].
      destruct (IH _ _ Hrun) as (ran & Hran & Hopts & Hfirst & Hlater & Hok & Hbad).
      cbn [l_passes l_struc l_energy] in *.
      exists (mk_pass (l_struc st) opt :: ran).
      split; [now rewrite Hran, <- app_assoc|].
      split; [cbn; now rewrite Hopts|].
      split; [intros p0 [= <-]; reflexivity|].
      split; [|split].
      * intros [|k] p0 Hk; cbn in Hk; [|eauto].
        exists q. now apply Hfirst.
      * intros E. destruct (Hok E) as [Hlen Hres]. split; [cbn; lia|].
        destruct rest as [|opt' rest].
        -- destruct Hres as [Hs He]. split; [eauto|].
           exists en. congruence.
        -- exact Hres.
      * intros E. destruct (Hbad E) as (_ & Hres). split; [discriminate|exact Hres].
Qed.

(** X16: the passes [optimize] ran are the first ones of the list, in
    order and once each, and at least one ran. The first works on the
    structure given, every later one on a [pyxtal] structure handed
    over by the pass before it. With the error flag off every pass of
    the list ran and the result carries a [pyxtal] structure and an
    energy; with the flag on it carries neither and a time of 0. *)
Theorem optimize_runs_passes_in_order
    (struc : structure_arg) (ff : string) (optimizations : list string)
    (exe : string) (pstress : option float) (path label : string)
    (do_clean adjust : bool) (fs : filesystem) (r : optimized_result) :
  optimize struc ff optimizations exe pstress path label do_clean adjust fs
  = Ok r ->
  r_passes r <> []
  /\ map pass_opt (r_passes r) = firstn (length (r_passes r)) optimizations
  /\ (forall p, nth_error (r_passes r) 0 = Some p -> pass_struc p = struc)
  /\ (forall k p, nth_error (r_passes r) (S k) = Some p ->
        exists q, pass_struc p = APyxtal q)
  /\ (r_error r = false ->
      length (r_passes r) = length optimizations
      /\ (exists q, r_struc r = Some (APyxtal q))
      /\ exists e, r_energy r = Some e)
  /\ (r_error r = true ->
      r_struc r = None /\ r_energy r = None /\ r_time r = PyInt 0).
Proof.
  unfold optimize. intros Hrun.
  destruct (optimize_loop_trace _ _ _ _ _ _ _ _ _ _ Hrun)
    as (ran & Hran & Hopts & Hfirst & Hlater & Hok & Hbad).
  cbn [l_passes l_struc l_energy app] in *. rewrite Hran.
  split.
  { destruct (r_error r) eqn:E.
    - now apply Hbad.
    - destruct (Hok eq_refl) as [Hlen Hres].
      destruct optimizations; [destruct Hres; discriminate|].
      destruct ran; discriminate. }
  split; [exact Hopts|]. split; [exact Hfirst|]. split; [exact Hlater|].
  split.
  - intros E. destruct (Hok E) as [Hlen Hres]. split; [exact Hlen|].
    destruct optimizations; [destruct Hres; discriminate | exact Hres].
  - intros E. now apply Hbad.
Qed.

End PassTrace.

(** ** The structure a pass returns (X17) *)

Section Returned.
Context `{Collaborators}.

(** X17: a pass on a [pyxtal] structure that ends with the error flag
    off returns that structure with its space group, its species and
    as many sites, and with the lattice built from the report: from the
    non-primitive parameters, else from the three Cartesian rows, in the
    lattice family the structure had. *)
Theorem single_optimize_returns_the_structure
    (p : Pyxtal.t) (ff : string) (steps : Z)
    (pstress : option float) (opt exe path label : string)
    (do_clean symm : bool) (labels : option (gmap string string))
    (fs : filesystem) (o : outcome) (fs' : filesystem) :
  single_optimize (APyxtal p) ff steps pstress opt exe path label do_clean
    symm labels fs = Ok (o, fs') ->
  out_error o = false ->
  exists p',
    out_struc o = Some p'
    /\ Pyxtal.group p' = Pyxtal.group p
    /\ Pyxtal.species p' = Pyxtal.species p
    /\ length (Pyxtal.atom_sites p') = length (Pyxtal.atom_sites p)
    /\ ((exists a b c alpha beta gamma,
           Pyxtal.lattice p'
           = from_para a b c alpha beta gamma
               (Lattice.ltype (Pyxtal.lattice p)))
        \/ (exists r0 r1 r2,
              Pyxtal.lattice p'
              = from_matrix [r0; r1; r2] (Lattice.ltype (Pyxtal.lattice p))
              /\ length r0 = 3%nat /\ length r1 = 3%nat
              /\ length r2 = 3%nat)).
Proof.
  unfold single_optimize. cbn [init res_bind].
  set (calc := mkGULP _ _ _ _ _ _ _ _ _ _ _ _ _ _ _ _ _ _ _ _ _ _ _ _ _ _ _).
  destruct (run calc do_clean fs) as [[calc' fs1]|x] eqn:Hrun;
    cbn [res_bind]; [|discriminate].
  destruct (run_reads _ _ _ _ _ Hrun) as [fs2 Hread].
  destruct (read_is_read_lines _ _ _ Hread) as [lines Hlines].
  destruct (error calc') eqn:Herr.
  { intros [= <- <-]. discriminate. }
  destruct (read_lines_frame _ _ _ Hlines) as (_ & _ & Hk & Hsync & _).
  destruct (read_lines_success _ _ _ Hlines Herr) as (_ & _ & _ & _ & _ & Hlat).
  change (pyxtal calc) with (Some p) in Hk.
  change (run_ltype calc) with (Lattice.ltype (Pyxtal.lattice p)) in Hlat.
  destruct (pyxtal calc') as [p'|] eqn:Hp; [|destruct Hk].
  cbn [res_bind]. intros [= <- <-] _. cbn [out_struc].
  destruct Hk as (Hg & Hs & Hn).
  exists p'. split; [reflexivity|]. split; [exact Hg|]. split; [exact Hs|].
  split; [exact Hn|]. now rewrite (Hsync p' eq_refl).
Qed.

End Returned.

Lemma single_optimize_exceptions_witness :
  @single_optimize (Lab.env "") AOther "tersoff.lib" 1000 None "conp" "gulp"
    "tmp" "_" true false None ∅ = Raise NotImplementedError
  /\ ((AOther = AOther /\ NotImplementedError = NotImplementedError)
      \/ NotImplementedError = IndexError
      \/ NotImplementedError = FileNotFoundError).
Proof.
  split; [reflexivity|].
  exact (@single_optimize_exceptions (Lab.env "") AOther "tersoff.lib" 1000
           None "conp" "gulp" "tmp" "_" true false None ∅
           NotImplementedError eq_refl).
Defined.

Lemma single_optimize_outcome_witness :
  Lab.zero_pass
  = Ok (Lab.pass_outcome Lab.zero_pass, Lab.pass_files Lab.zero_pass)
  /\ Lab.pass_outcome Lab.zero_pass <> failure
  /\ (Lab.pass_outcome Lab.zero_pass = failure
      \/ (out_error (Lab.pass_outcome Lab.zero_pass) = false
          /\ (exists p, out_struc (Lab.pass_outcome Lab.zero_pass) = Some p)
          /\ (exists e, out_energy (Lab.pass_outcome Lab.zero_pass) = Some e))).
Proof.
  assert (Hr : Lab.zero_pass
               = Ok (Lab.pass_outcome Lab.zero_pass,
                     Lab.pass_files Lab.zero_pass))
    by (vm_compute; reflexivity).
  split; [exact Hr|]. split; [vm_compute; discriminate|].
  exact (proj1 (@single_optimize_outcome (Lab.env Lab.zero_energy_output)
                  (AAtoms Lab.carbon4) "tersoff.lib" 1000 None "conp" "gulp"
                  "tmp" "_" true false None ∅ _ _ Hr)).
Defined.

Lemma optimize_exceptions_witness :
  @optimize (Lab.env "") (AAtoms Lab.carbon4) "tersoff.lib" [] "gulp" None
    "tmp" "_" true false ∅ = Raise UnboundLocalError
  /\ ((@nil string = [] /\ UnboundLocalError = UnboundLocalError)
      \/ (AAtoms Lab.carbon4 = AOther
          /\ UnboundLocalError = NotImplementedError)
      \/ UnboundLocalError = IndexError
      \/ UnboundLocalError = FileNotFoundError).
Proof.
  split; [reflexivity|].
  exact (@optimize_exceptions (Lab.env "") (AAtoms Lab.carbon4) "tersoff.lib"
           [] "gulp" None "tmp" "_" true false ∅ UnboundLocalError eq_refl).
Defined.

Lemma exe_argument_is_ignored_witness :
  Lab.zero_pass
  = Ok (Lab.pass_outcome Lab.zero_pass, Lab.pass_files Lab.zero_pass)
  /\ exists calc r,
       @init (Lab.env Lab.zero_energy_output) (AAtoms Lab.carbon4) "_" "tmp"
         "tersoff.lib" None "conp" 1000 "gulp" "gulp.in" "gulp.log" None
         false None = Ok calc
       /\ input calc = "tmp" +:+ "/" +:+ "_" +:+ "gulp.in"
       /\ output calc = "tmp" +:+ "/" +:+ "_" +:+ "gulp.log"
       /\ @read (Lab.env Lab.zero_energy_output) calc
            (@os_system (Lab.env Lab.zero_energy_output)
               ("gulp" +:+ "<" +:+ input calc +:+ ">" +:+ output calc)
               (<[input calc
                  := PyStr.concat
                       (fst (@write_chunks (Lab.env Lab.zero_energy_output)
                               calc))]> ∅))
          = Ok r.
Proof.
  assert (Hr : @single_optimize (Lab.env Lab.zero_energy_output)
                 (AAtoms Lab.carbon4) "tersoff.lib" 1000 None "conp"
                 "/opt/gulp/bin/gulp" "tmp" "_" true false None ∅
               = Ok (Lab.pass_outcome Lab.zero_pass,
                     Lab.pass_files Lab.zero_pass))
    by (vm_compute; reflexivity).
  split; [vm_compute; reflexivity|].
  exact (proj2 (proj2
           (@exe_argument_is_ignored (Lab.env Lab.zero_energy_output)
              (AAtoms Lab.carbon4) "tersoff.lib" [] "/opt/gulp/bin/gulp"
              "gulp" None "tmp" "_" true false ∅))
           1000 "conp" false None _ _ Hr).
Defined.

Lemma optimize_runs_passes_in_order_witness :
  Lab.two_passes = Ok (Lab.returned Lab.two_passes)
  /\ r_error (Lab.returned Lab.two_passes) = false
  /\ map pass_opt (r_passes (Lab.returned Lab.two_passes)) = ["conv"; "conp"]
  /\ (forall k p,
        nth_error (r_passes (Lab.returned Lab.two_passes)) (S k) = Some p ->
        exists q, pass_struc p = APyxtal q).
Proof.
  assert (Hr : Lab.two_passes = Ok (Lab.returned Lab.two_passes))
    by (vm_compute; reflexivity).
  split; [exact Hr|]. split; [vm_compute; reflexivity|].
  split; [vm_compute; reflexivity|].
  exact (proj1 (proj2 (proj2 (proj2
           (@optimize_runs_passes_in_order
              (Lab.env (PyStr.concat (Lab.report "-123.456000")))
              (AAtoms Lab.carbon4) "tersoff.lib" ["conv"; "conp"] "gulp" None
              "tmp" "_" true false ∅ _ Hr))))).
Defined.

Lemma single_optimize_returns_the_structure_witness :
  Lab.centred_pass
  = Ok (Lab.pass_outcome Lab.centred_pass, Lab.pass_files Lab.centred_pass)
  /\ out_error (Lab.pass_outcome Lab.centred_pass) = false
  /\ exists p',
       out_struc (Lab.pass_outcome Lab.centred_pass) = Some p'
       /\ Pyxtal.group p' = mk_group 225 "Fm-3m".
Proof.
  assert (Hr : Lab.centred_pass
               = Ok (Lab.pass_outcome Lab.centred_pass,
                     Lab.pass_files Lab.centred_pass))
    by (vm_compute; reflexivity).
  assert (He : out_error (Lab.pass_outcome Lab.centred_pass) = false)
    by (vm_compute; reflexivity).
  split; [exact Hr|]. split; [exact He|].
  destruct (@single_optimize_returns_the_structure
              (Lab.env Lab.zero_energy_output) Lab.centred_carbon
              "tersoff.lib" 1000 None "conp" "gulp" "tmp" "_" true false None
              ∅ _ _ Hr He) as (p' & Hp & Hg & _).
  exists p'. split; [exact Hp | exact Hg].
Defined.

(** ** Sections of the report and the attributes they fill (X18) *)

Section Sections.
Context `{Collaborators}.

Lemma scan_line_sections ltype lines i line st :
  let st' := fst (scan_line ltype lines i line st) in
  (found line "Job Finished" = false ->
   optimized (obj st') = optimized (obj st))
  /\ (found line "Total CPU time" = false ->
      cputime (obj st') = cputime (obj st))
  /\ (found line "Final stress tensor components" = false ->
      stress (obj st') = stress (obj st))
  /\ (found line "Final internal derivatives" = false ->
      forces (obj st') = forces (obj st))
  /\ (found line " Cycle: " = false -> iter (obj st') = iter (obj st))
  /\ (found line "Final fractional coordinates of atoms" = false ->
      frac_coords (obj st') = frac_coords (obj st)).
Proof.
  unfold scan_line. destruct (energy_marker (obj st)) as [mk|x];
    cbn [attempt raised fst]; [|repeat split; reflexivity].
  unfold classify.
  destruct (PyStr.match_energy (marker_name mk) line) as [g1|].
  - repeat match goal with
           | |- context [attempt ?r _ _] =>
               destruct r; cbn [attempt raised continue fst snd]
           end;
      destruct st as [gg lp lv]; destruct gg; cbn; repeat split; reflexivity.
  - repeat match goal with
           | |- context [if found line ?k then _ else _] =>
               let E := fresh "E" in destruct (found line k) eqn:E
           end;
      repeat match goal with
             | |- context [attempt ?r _ _] =>
                 destruct r; cbn [attempt raised continue fst snd]
             | |- context [match pyxtal ?s with _ => _ end] =>
                 destruct (pyxtal s)
             | |- context [let '(_, _) := ?x in _] => destruct x
             end;
      destruct st as [gg lp lv]; destruct gg; cbn;
      repeat split; intros; try reflexivity; congruence.
Qed.

Lemma scan_from_untouched {A} (field : GULP -> A) (key : string) ltype lines :
  (forall i line st,
     found line key = false ->
     field (obj (fst (scan_line ltype lines i line st))) = field (obj st)) ->
  forall rest i st,
    Forall (fun l => found l key = false) rest ->
    field (obj (fst (scan_from ltype lines i rest st))) = field (obj st).
Proof.
  intros Hstep rest i st Hrest. revert i st.
  induction Hrest as [|line rest Hline _ IH]; intros i st; [reflexivity|].
  cbn [scan_from]. specialize (Hstep i line st Hline).
  destruct (scan_line ltype lines i line st) as [st1 [x|]]; cbn [fst] in *.
  - exact Hstep.
  - now rewrite IH.
Qed.

Lemma post_scan_sections e lp lv g r :
  check_energy (sync_pyxtal (resolve_lattice lp lv (on_exception e g))) = Ok r ->
  optimized r = optimized g /\ stress r = stress g /\ forces r = forces g
  /\ iter r = iter g /\ frac_coords r = frac_coords g.
Proof.
  destruct g as [px sp la fc si sy stt ps lb lbs f o ex stp fo inp out du it
                 en epa strs frc pos opd cpu err].
  unfold check_energy, np_isnan.
  destruct e as [x|], lp as [l1|], lv as [l2|], px as [p|], en as [v|];
    cbn; try destruct (PyFloat.isnan v); cbn;
    intros [= <-]; cbn; repeat split; reflexivity.
Qed.

(** X18: an attribute filled from a section of the report changes only
    when the text that opens its section occurs in the report: without
    a line holding "Job Finished" the optimized flag is as before the
    read, and likewise the CPU time ("Total CPU time"), the stress
    ("Final stress tensor components"), the forces ("Final internal
    derivatives"), the cycle count (" Cycle: ") and the fractional
    coordinates ("Final fractional coordinates of atoms"). *)
Theorem attributes_change_only_with_their_section
    (self : GULP) (fs : filesystem) (content : string) (r : GULP) :
  fs !! output self = Some content ->
  read self fs = Ok r ->
  let absent key :=
    Forall (fun l => found l key = false) (readlines content) in
  (absent "Job Finished" -> optimized r = optimized self)
  /\ (absent "Total CPU time" -> cputime r = cputime self)
  /\ (absent "Final stress tensor components" -> stress r = stress self)
  /\ (absent "Final internal derivatives" -> forces r = forces self)
  /\ (absent " Cycle: " -> iter r = iter self)
  /\ (absent "Final fractional coordinates of atoms" ->
      frac_coords r = frac_coords self).
Proof.
  intros Hfile Hr absent. unfold read in Hr. rewrite Hfile in Hr.
  unfold read_lines in Hr.
  set (st0 := {| obj := self; lattice_para := None; lattice_vector := None |}).
  assert (Hst : forall {A} (field : GULP -> A) key,
            (forall i line st,
               found line key = false ->
               field (obj (fst (scan_line (run_ltype self) (readlines content)
                                  i line st))) = field (obj st)) ->
            absent key ->
            field (obj (fst (scan_lines (run_ltype self) (readlines content)
                               self))) = field self).
  { intros A field key Hstep Habs. unfold scan_lines.
    exact (scan_from_untouched field key _ _ Hstep _ 0%nat st0 Habs). }
  destruct (scan_lines (run_ltype self) (readlines content) self) as [st e].
  cbn [fst] in Hst.
  destruct (post_scan_sections _ _ _ _ _ Hr) as (Po & Ps & Pf & Pi & Pc).
  destruct (post_scan_frame _ _ _ _ _ Hr) as (_ & Pt & _).
  rewrite Po, Pt, Ps, Pf, Pi, Pc.
  repeat split; intros Habs.
  - apply (Hst _ optimized _ (fun i line s => proj1 (scan_line_sections _ _ i line s)) Habs).
  - apply (Hst _ cputime _ (fun i line s => proj1 (proj2 (scan_line_sections _ _ i line s))) Habs).
  - apply (Hst _ stress _ (fun i line s => proj1 (proj2 (proj2 (scan_line_sections _ _ i line s)))) Habs).
  - apply (Hst _ forces _ (fun i line s => proj1 (proj2 (proj2 (proj2 (scan_line_sections _ _ i line s))))) Habs).
  - apply (Hst _ iter _ (fun i line s => proj1 (proj2 (proj2 (proj2 (proj2 (scan_line_sections _ _ i line s)))))) Habs).
  - apply (Hst _ frac_coords _ (fun i line s => proj2 (proj2 (proj2 (proj2 (proj2 (scan_line_sections _ _ i line s)))))) Habs).
Qed.

End Sections.

Lemma attributes_change_only_with_their_section_witness :
  Lab.disk_report !! output Lab.single_point
  = Some (PyStr.concat (Lab.report "-123.456000"))
  /\ Lab.read_back = Ok (Lab.built Lab.read_back)
  /\ Forall (fun l => found l "Final internal derivatives" = false)
       (readlines (PyStr.concat (Lab.report "-123.456000")))
  /\ forces (Lab.built Lab.read_back) = forces Lab.single_point.
Proof.
  assert (Hf : Lab.disk_report !! output Lab.single_point
               = Some (PyStr.concat (Lab.report "-123.456000")))
    by (vm_compute; reflexivity).
  assert (Hr : Lab.read_back = Ok (Lab.built Lab.read_back))
    by (vm_compute; reflexivity).
  assert (Ha : Forall (fun l => found l "Final internal derivatives" = false)
                 (readlines (PyStr.concat (Lab.report "-123.456000")))).
  { vm_compute. repeat constructor. }
  split; [exact Hf|]. split; [exact Hr|]. split; [exact Ha|].
  destruct (@attributes_change_only_with_their_section (Lab.env "")
              Lab.single_point Lab.disk_report _ _ Hf Hr)
    as (_ & _ & _ & Hforces & _).
  exact (Hforces Ha).
Defined.

(** ** The energy pattern on a line of text (X19) *)

Lemma lstrip_blank w s :
  blank w = true -> PyStr.lstrip (w +:+ s) = PyStr.lstrip s.
Proof.
  unfold blank, PyStr.lstrip. induction w as [|c w IH]; cbn; [reflexivity|].
  intros Hw. apply andb_true_iff in Hw as [Hc Hw]. rewrite Hc. now apply IH.
Qed.

Lemma lstrip_marker mk s :
  PyStr.lstrip (marker_name mk +:+ s) = marker_name mk +:+ s.
Proof. destruct mk; reflexivity. Qed.

Lemma startswith_app p s : PyStr.startswith p (p +:+ s) = true.
Proof.
  induction p as [|c p IH]; cbn [PyStr.startswith String.append];
    [reflexivity|].
  now rewrite Ascii.eqb_refl, IH.
Qed.

Lemma strip_prefix_app p s : PyStr.strip_prefix p (p +:+ s) = Some s.
Proof. unfold PyStr.strip_prefix. now rewrite startswith_app, from_app. Qed.

Lemma lstrip_token t s :
  token t = true -> PyStr.lstrip (t +:+ s) = t +:+ s.
Proof.
  intros Ht. apply token_parts in Ht as [He Ht].
  destruct t as [|c t]; [discriminate|]. cbn in Ht |- *.
  apply andb_true_iff in Ht as [Hc _]. apply negb_true_iff in Hc.
  unfold PyStr.lstrip. cbn. now rewrite Hc.
Qed.

Lemma span_nonspace_token t g s :
  all_chars (fun c => negb (PyStr.isspace c)) t = true ->
  gap g = true ->
  PyStr.span_nonspace (t +:+ g +:+ s) = (t, g +:+ s).
Proof.
  intros Ht Hg. induction t as [|c t IH]; cbn [String.append].
  - unfold gap, blank in Hg. destruct g as [|c g]; [discriminate|].
    cbn in Hg. apply andb_true_iff in Hg as [Hc _].
    cbn. now rewrite Hc.
  - cbn in Ht. apply andb_true_iff in Ht as [Hc Ht].
    apply negb_true_iff in Hc. cbn [PyStr.span_nonspace]. rewrite Hc.
    now rewrite (IH Ht).
Qed.

Lemma from_length t : PyStr.from (String.length t) t = "".
Proof. induction t as [|c t IH]; [reflexivity | exact IH]. Qed.

Lemma upto_length t : PyStr.upto (String.length t) t = t.
Proof. induction t as [|c t IH]; cbn; [reflexivity | now rewrite IH]. Qed.

Lemma find_from_lower sub s : forall i, 0 <= i ->
  PyStr.find_from sub s i = -1 \/ i <= PyStr.find_from sub s i.
Proof.
  induction s as [|c s IH]; intros i Hi; cbn [PyStr.find_from].
  - destruct (PyStr.startswith sub ""); [right; lia | now left].
  - destruct (PyStr.startswith sub (String c s)); [right; lia|].
    destruct (IH (i + 1) ltac:(lia)) as [E|E]; [now left | right; lia].
Qed.

Lemma not_found_suffix sub s :
  found s sub = false ->
  forall k, PyStr.startswith sub (PyStr.from k s) = false
            \/ PyStr.from k s = "".
Proof.
  unfold found, PyStr.find. intros Hf.
  apply negb_false_iff, Z.eqb_eq in Hf.
  assert (Hgen : forall s i, 0 <= i -> PyStr.find_from sub s i = -1 ->
            forall k, PyStr.startswith sub (PyStr.from k s) = false
                      \/ PyStr.from k s = "").
  { clear. induction s as [|c s IH]; intros i Hi Hf k.
    - right. now destruct k.
    - cbn [PyStr.find_from] in Hf.
      destruct (PyStr.startswith sub (String c s)) eqn:E; [lia|].
      destruct k as [|k]; [left; exact E|].
      cbn [PyStr.from]. apply (IH (i + 1)); [lia | exact Hf]. }
  exact (Hgen s 0 ltac:(lia) Hf).
Qed.

Lemma capture_go_none run rest :
  found run "eV" = false ->
  PyStr.startswith "eV" (PyStr.lstrip rest) = false ->
  forall k, PyStr.capture_go k run rest = None.
Proof.
  intros Hrun Hrest. induction k as [|k IH]; [reflexivity|].
  cbn [PyStr.capture_go].
  destruct (not_found_suffix _ _ Hrun (S k)) as [E|E].
  - destruct (PyStr.is_empty (PyStr.from (S k) run)).
    + now rewrite Hrest.
    + now rewrite E.
  - rewrite E. cbn [PyStr.is_empty]. now rewrite Hrest.
Qed.

Lemma capture_go_whole run rest :
  PyStr.is_empty run = false ->
  PyStr.startswith "eV" (PyStr.lstrip rest) = true ->
  PyStr.capture_go (String.length run) run rest = Some run.
Proof.
  intros Hne Hrest. destruct run as [|c run]; [discriminate|].
  cbn [String.length PyStr.capture_go].
  change (S (String.length run)) with (String.length (String c run)).
  rewrite from_length, upto_length. cbn [PyStr.is_empty]. now rewrite Hrest.
Qed.

Lemma match_energy_text mk ind g1 g2 value g3 unit :
  blank ind = true -> blank g1 = true -> blank g2 = true ->
  token value = true -> gap g3 = true ->
  PyStr.match_energy (marker_name mk)
    (energy_text ind (marker_name mk) g1 g2 value g3 unit)
  = PyStr.capture_go (String.length value) value (g3 +:+ unit).
Proof.
  intros Hind Hg1 Hg2 Hv Hg3. unfold PyStr.match_energy, energy_text.
  rewrite (lstrip_blank _ _ Hind), lstrip_marker, strip_prefix_app.
  rewrite (lstrip_blank _ _ Hg1).
  replace (PyStr.lstrip ("=" +:+ g2 +:+ value +:+ g3 +:+ unit))
    with (String "=" (g2 +:+ value +:+ g3 +:+ unit)) by reflexivity.
  cbv beta iota.
  rewrite (lstrip_blank _ _ Hg2), (lstrip_token _ _ Hv).
  rewrite (span_nonspace_token _ _ _ (proj2 (token_parts _ Hv)) Hg3).
  reflexivity.
Qed.

(** X19: the energy pattern on a line made of an indent, the label of
    the run, an equals sign, a value without blanks and a unit set off
    by blanks: when the unit starts with [eV] the value is captured
    whole; when it does not, and the value does not contain [eV]
    itself, the line is not an energy line. So the line GULP prints in
    kJ under the same label leaves the energy alone. *)
Theorem energy_pattern_reads_eV_lines
    (mk : marker) (ind g1 g2 value g3 unit : string) :
  blank ind = true -> blank g1 = true -> blank g2 = true ->
  token value = true -> gap g3 = true ->
  (PyStr.startswith "eV" unit = true ->
   PyStr.match_energy (marker_name mk)
     (energy_text ind (marker_name mk) g1 g2 value g3 unit) = Some value
   /\ classify mk (energy_text ind (marker_name mk) g1 g2 value g3 unit)
      = SEnergy value)
  /\ (PyStr.startswith "eV" (PyStr.lstrip unit) = false ->
      found value "eV" = false ->
      PyStr.match_energy (marker_name mk)
        (energy_text ind (marker_name mk) g1 g2 value g3 unit) = None).
Proof.
  intros Hind Hg1 Hg2 Hv Hg3.
  rewrite (match_energy_text mk ind g1 g2 value g3 unit Hind Hg1 Hg2 Hv Hg3).
  assert (Hblank : blank g3 = true).
  { unfold gap in Hg3. now apply andb_true_iff in Hg3 as [_ ?]. }
  split.
  - intros Hunit.
    assert (Hm : PyStr.capture_go (String.length value) value (g3 +:+ unit)
                 = Some value).
    { apply capture_go_whole; [apply (token_parts _ Hv)|].
      rewrite (lstrip_blank _ _ Hblank).
      destruct unit as [|c unit]; [discriminate|].
      cbn [PyStr.startswith] in Hunit.
      apply andb_true_iff in Hunit as [Hc Hu]. apply Ascii.eqb_eq in Hc.
      subst c. unfold PyStr.lstrip. cbn [PyStr.lstrip_of].
      change (PyStr.isspace "e") with false. cbv iota.
      cbn [PyStr.startswith]. now rewrite Ascii.eqb_refl, Hu. }
    split; [exact Hm|]. unfold classify.
    rewrite (match_energy_text mk ind g1 g2 value g3 unit Hind Hg1 Hg2 Hv Hg3).
    now rewrite Hm.
  - intros Hunit Hval. apply capture_go_none; [exact Hval|].
    now rewrite (lstrip_blank _ _ Hblank).
Qed.

Lemma energy_pattern_reads_eV_lines_witness :
  energy_text "  " (marker_name LatticeEnergy) "       " "        "
    "-123.456000" " " "eV"
  = "  Total lattice energy       =        -123.456000 eV"
  /\ PyStr.match_energy (marker_name LatticeEnergy)
       "  Total lattice energy       =        -123.456000 eV"
     = Some "-123.456000"
  /\ PyStr.match_energy (marker_name LatticeEnergy)
       (energy_text "  " (marker_name LatticeEnergy) "       " "        "
          "-11911.6143" " " "kJ/(mole unit cells)")
     = None.
Proof.
  split; [reflexivity|].
  destruct (energy_pattern_reads_eV_lines LatticeEnergy "  " "       "
              "        " "-123.456000" " " "eV"
              eq_refl eq_refl eq_refl eq_refl eq_refl) as [Hyes _].
  destruct (energy_pattern_reads_eV_lines LatticeEnergy "  " "       "
              "        " "-11911.6143" " " "kJ/(mole unit cells)"
              eq_refl eq_refl eq_refl eq_refl eq_refl) as [_ Hno].
  split; [exact (proj1 (Hyes eq_refl)) | exact (Hno eq_refl eq_refl)].
Defined.
